(** * Conversational memory and hybrid retrieval over Cosmos DB

    A shallow embedding of
    [02_completed/python/src/app/services/azure_cosmos_db.py]:
    the session, message, summary, memory and place operations, over an
    explicit model of the document store they talk to.

    Conventions of the embedding.
    - Python [str] is [string], holding the UTF-8 bytes of the text; a
      [float] is a rational [Q]; an [int] is [Z].  [str.lower], [str.strip]
      and [str.title] are embedded on ASCII text; a theorem whose statement
      depends on their value assumes [ascii_only] of the text concerned.
    - A JSON field that may be missing from a document is a [field]:
      [Undefined] (key absent), [Null] (key present, value null) or
      [Value v].  A Python [Optional] argument is an [option].
    - A container is the list of its documents in the order a query without
      ORDER BY enumerates them.  A module-level container handle that was
      never initialised is [None].
    - Every call of a container method ([upsert_item], [query_items]) may
      raise.  The outcomes of the successive calls are scripted by the
      [outages] of the state: the head says whether the next call raises.
    - [uuid.uuid4().hex] and [datetime.utcnow().isoformat()] are the
      arguments [hex] and [now] of the functions that draw them.
    - [logger.error] and [logger.warning] append to [log]; [logger.info]
      has no counterpart. *)

From Stdlib Require Import List String Ascii Bool ZArith QArith Lia.
From Stdlib Require Import Sorting.Sorted Sorting.Permutation.
Import ListNotations.

Local Open Scope string_scope.
Local Open Scope Z_scope.

Set Implicit Arguments.

Arguments firstn : simpl never.

Notation "a =s? b" := (String.eqb a b) (at level 70, no associativity).
Notation "a +s+ b" := (String.append a b) (at level 60, right associativity).

(** ** JSON fields *)

Inductive field (A : Type) : Type :=
| Undefined : field A
| Null : field A
| Value : A -> field A.

Arguments Undefined {A}.
Arguments Null {A}.
Arguments Value {A} _.

(** A scalar as the catalog stores it in [priceTier]: the seed data writes a
    string, [query_places] compares with an [int]. *)
Inductive scalar : Type :=
| SStr : string -> scalar
| SInt : Z -> scalar.

(** ** Documents *)

Record Session : Type := mkSession {
  s_id : string;
  s_sessionId : string;
  s_tenantId : string;
  s_userId : string;
  s_title : string;
  s_activeAgent : field string;
  s_createdAt : string;
  s_lastActivityAt : string;
  s_status : string;
  s_messageCount : field Z
}.

Record Message : Type := mkMessage {
  m_id : string;
  m_messageId : string;
  m_sessionId : string;
  m_tenantId : string;
  m_userId : string;
  m_role : string;
  m_content : string;
  m_toolCall : option string;
  m_embedding : option (list Q);
  m_ts : string;
  m_keywords : list string;
  m_superseded : field bool;
  m_ttl : field Z
}.

Record Summary : Type := mkSummary {
  y_id : string;
  y_summaryId : string;
  y_sessionId : string;
  y_tenantId : string;
  y_userId : string;
  y_span : string * string;
  y_text : string;
  y_embedding : option (list Q);
  y_createdAt : string;
  y_supersedes : list string
}.

Record Memory : Type := mkMemory {
  e_id : string;
  e_memoryId : string;
  e_userId : string;
  e_tenantId : string;
  e_memoryType : string;
  e_text : string;
  e_facets : list (string * string);
  e_embedding : option (list Q);
  e_salience : Q;
  e_ttl : field Z;
  e_justification : string;
  e_lastUsedAt : string;
  e_extractedAt : string;
  e_createdAt : field string
}.

Record Place : Type := mkPlace {
  p_id : string;
  p_geoScopeId : string;
  p_type : string;
  p_name : string;
  p_description : string;
  p_tags : list string;
  p_accessibility : list string;
  p_hours : string;
  p_neighborhood : string;
  p_priceTier : scalar;
  p_rating : Q;
  p_embedding : list Q
}.

(** The ten fields the SELECT list of [query_places] projects. *)
Record PlaceRow : Type := mkPlaceRow {
  r_geoScopeId : string;
  r_name : string;
  r_type : string;
  r_description : string;
  r_tags : list string;
  r_accessibility : list string;
  r_hours : string;
  r_neighborhood : string;
  r_priceTier : scalar;
  r_rating : Q
}.

Definition project (p : Place) : PlaceRow :=
  mkPlaceRow (p_geoScopeId p) (p_name p) (p_type p) (p_description p)
             (p_tags p) (p_accessibility p) (p_hours p) (p_neighborhood p)
             (p_priceTier p) (p_rating p).

(** ** The store and the effects of a call *)

Inductive Exception : Type :=
| CosmosNotAvailable   (* Exception("Cosmos DB not available") *)
| StoreError           (* raised inside a container method *)
| TypeError.           (* None + 1 *)

Record Cosmos : Type := mkCosmos {
  sessions_container : option (list Session);
  messages_container : option (list Message);
  summaries_container : option (list Summary);
  memories_container : option (list Memory);
  places_container : option (list Place);
  outages : list bool;
  log : list string
}.

Inductive outcome (A : Type) : Type :=
| Return : A -> outcome A
| Raise : Exception -> outcome A.

Arguments Return {A} _.
Arguments Raise {A} _.

Definition M (A : Type) : Type := Cosmos -> outcome A * Cosmos.

Definition ret {A} (a : A) : M A := fun w => (Return a, w).

Definition raise {A} (e : Exception) : M A := fun w => (Raise e, w).

Definition bind {A B} (c : M A) (k : A -> M B) : M B :=
  fun w => match c w with
           | (Return a, w') => k a w'
           | (Raise e, w') => (Raise e, w')
           end.

(** [try: c  except Exception as e: h e] *)
Definition try_except {A} (c : M A) (h : Exception -> M A) : M A :=
  fun w => match c w with
           | (Return a, w') => (Return a, w')
           | (Raise e, w') => h e w'
           end.

Notation "x <- c ;; k" := (bind c (fun x => k))
  (at level 61, c at next level, right associativity).
Notation "c ;;; k" := (bind c (fun _ => k))
  (at level 61, right associativity).

Definition get_world : M Cosmos := fun w => (Return w, w).

Definition logger_warning (msg : string) : M unit :=
  fun w => (Return tt,
            mkCosmos (sessions_container w) (messages_container w)
                     (summaries_container w) (memories_container w)
                     (places_container w) (outages w) (log w ++ [msg])).

Definition logger_error (msg : string) : M unit :=
  fun w => (Return tt,
            mkCosmos (sessions_container w) (messages_container w)
                     (summaries_container w) (memories_container w)
                     (places_container w) (outages w) (log w ++ [msg])).

(** One call into the store: consumes the head of [outages] and raises when
    it is [true]. *)
Definition store_call : M unit :=
  fun w =>
    let w' t := mkCosmos (sessions_container w) (messages_container w)
                         (summaries_container w) (memories_container w)
                         (places_container w) t (log w) in
    match outages w with
    | [] => (Return tt, w)
    | false :: t => (Return tt, w' t)
    | true :: t => (Raise StoreError, w' t)
    end.

(** ** Upsert: insert, or overwrite the document with the same id and
    partition key, in place *)

Section Upsert.
Variable D : Type.
Variable same_key : D -> D -> bool.

Fixpoint replace_doc (d : D) (l : list D) : list D :=
  match l with
  | [] => []
  | x :: t => if same_key d x then d :: t else x :: replace_doc d t
  end.

Definition upsert (d : D) (l : list D) : list D :=
  if existsb (same_key d) l then replace_doc d l else l ++ [d].

End Upsert.

Definition session_key (a b : Session) : bool :=
  (s_id a =s? s_id b) && (s_tenantId a =s? s_tenantId b)
  && (s_userId a =s? s_userId b) && (s_sessionId a =s? s_sessionId b).

Definition message_key (a b : Message) : bool :=
  (m_id a =s? m_id b) && (m_tenantId a =s? m_tenantId b)
  && (m_userId a =s? m_userId b) && (m_sessionId a =s? m_sessionId b).

Definition summary_key (a b : Summary) : bool :=
  (y_id a =s? y_id b) && (y_tenantId a =s? y_tenantId b)
  && (y_userId a =s? y_userId b) && (y_sessionId a =s? y_sessionId b).

Definition memory_key (a b : Memory) : bool :=
  (e_id a =s? e_id b) && (e_tenantId a =s? e_tenantId b)
  && (e_userId a =s? e_userId b) && (e_memoryId a =s? e_memoryId b).

Definition set_sessions (l : list Session) : M unit :=
  fun w => (Return tt,
            mkCosmos (Some l) (messages_container w) (summaries_container w)
                     (memories_container w) (places_container w)
                     (outages w) (log w)).

Definition set_messages (l : list Message) : M unit :=
  fun w => (Return tt,
            mkCosmos (sessions_container w) (Some l) (summaries_container w)
                     (memories_container w) (places_container w)
                     (outages w) (log w)).

Definition set_summaries (l : list Summary) : M unit :=
  fun w => (Return tt,
            mkCosmos (sessions_container w) (messages_container w) (Some l)
                     (memories_container w) (places_container w)
                     (outages w) (log w)).

Definition set_memories (l : list Memory) : M unit :=
  fun w => (Return tt,
            mkCosmos (sessions_container w) (messages_container w)
                     (summaries_container w) (Some l) (places_container w)
                     (outages w) (log w)).

(** [container.upsert_item(doc)] on each container; the handle is known to be
    initialised where the source calls it, an uninitialised one would raise
    on the attribute access. *)
Definition sessions_upsert_item (d : Session) : M unit :=
  w <- get_world ;;
  match sessions_container w with
  | None => raise StoreError
  | Some l => store_call ;;; set_sessions (upsert session_key d l)
  end.

Definition messages_upsert_item (d : Message) : M unit :=
  w <- get_world ;;
  match messages_container w with
  | None => raise StoreError
  | Some l => store_call ;;; set_messages (upsert message_key d l)
  end.

Definition summaries_upsert_item (d : Summary) : M unit :=
  w <- get_world ;;
  match summaries_container w with
  | None => raise StoreError
  | Some l => store_call ;;; set_summaries (upsert summary_key d l)
  end.

Definition memories_upsert_item (d : Memory) : M unit :=
  w <- get_world ;;
  match memories_container w with
  | None => raise StoreError
  | Some l => store_call ;;; set_memories (upsert memory_key d l)
  end.

(** ** Queries: WHERE, ORDER BY, TOP *)

Section OrderBy.

Variable D : Type.
(** [precedes a b]: the ORDER BY clause lets [a] come before [b]. *)
Variable precedes : D -> D -> bool.

Fixpoint insert_doc (x : D) (l : list D) : list D :=
  match l with
  | [] => [x]
  | y :: t => if precedes x y then x :: y :: t else y :: insert_doc x t
  end.

Fixpoint order_by (l : list D) : list D :=
  match l with
  | [] => []
  | x :: t => insert_doc x (order_by t)
  end.

End OrderBy.

(** [list(container.query_items(query, ...))] for a query without ORDER BY *)
Definition sessions_query (where_ : Session -> bool) : M (list Session) :=
  w <- get_world ;;
  match sessions_container w with
  | None => raise StoreError
  | Some l => store_call ;;; ret (filter where_ l)
  end.

Definition messages_query (where_ : Message -> bool) : M (list Message) :=
  w <- get_world ;;
  match messages_container w with
  | None => raise StoreError
  | Some l => store_call ;;; ret (filter where_ l)
  end.

(** String comparison of the store, on [ts] and [createdAt]. *)
Definition ts_desc (a b : Message) : bool := String.leb (m_ts b) (m_ts a).

(** The store orders an undefined value below null and null below every
    string. *)
Definition field_leb (a b : field string) : bool :=
  match a, b with
  | Undefined, _ => true
  | Null, Undefined => false
  | Null, _ => true
  | Value _, Undefined => false
  | Value _, Null => false
  | Value x, Value y => String.leb x y
  end.

Definition createdAt_desc (a b : Memory) : bool :=
  field_leb (e_createdAt b) (e_createdAt a).

(** The document carries a [createdAt] key. *)
Definition has_createdAt (c : Memory) : bool :=
  match e_createdAt c with
  | Undefined => false
  | _ => true
  end.

(** [uuid.uuid4().hex[:12]] *)
Definition hex12 (hex : string) : string := substring 0 12 hex.

(** ** Session store *)

Definition get_session_by_id (session_id tenant_id user_id : string)
    : M (option Session) :=
  w <- get_world ;;
  match sessions_container w with
  | None => raise CosmosNotAvailable
  | Some _ =>
      try_except
        (items <- sessions_query
                    (fun c => (s_sessionId c =s? session_id)
                              && (s_tenantId c =s? tenant_id)
                              && (s_userId c =s? user_id)) ;;
         ret (match items with
              | [] => None
              | x :: _ => Some x
              end))
        (fun e => logger_error "Error getting session" ;;; ret None)
  end.

Definition touch (now : string) (count : Z) (s : Session) : Session :=
  mkSession (s_id s) (s_sessionId s) (s_tenantId s) (s_userId s) (s_title s)
            (s_activeAgent s) (s_createdAt s) now (s_status s) (Value count).

Definition update_session_activity (now : string)
    (session_id tenant_id user_id : string) : M unit :=
  w <- get_world ;;
  match sessions_container w with
  | None => ret tt
  | Some _ =>
      session <- get_session_by_id session_id tenant_id user_id ;;
      match session with
      | None => ret tt
      | Some s =>
          match s_messageCount s with
          | Undefined => sessions_upsert_item (touch now (0 + 1) s)
          | Value n => sessions_upsert_item (touch now (n + 1) s)
          | Null => raise TypeError
          end
      end
  end.

(** ** Message log *)

(** [now] is drawn by [append_message], [now_touch] by the
    [update_session_activity] it calls. *)
Definition append_message (hex now now_touch : string)
    (session_id tenant_id user_id role content : string)
    (tool_call : option string) (embedding : option (list Q))
    (keywords : option (list string)) : M string :=
  w <- get_world ;;
  match messages_container w with
  | None => raise CosmosNotAvailable
  | Some _ =>
      let message_id := "msg_" +s+ hex12 hex in
      let message :=
        mkMessage message_id message_id session_id tenant_id user_id role
                  content tool_call embedding now
                  (match keywords with
                   | None | Some [] => []
                   | Some k => k
                   end)
                  (Value false) Undefined in
      messages_upsert_item message ;;;
      update_session_activity now_touch session_id tenant_id user_id ;;;
      ret message_id
  end.

(** [NOT IS_DEFINED(c.superseded) OR c.superseded = false] *)
Definition not_superseded (c : Message) : bool :=
  match m_superseded c with
  | Undefined => true
  | Value false => true
  | _ => false
  end.

Definition get_session_messages (session_id tenant_id user_id : string)
    (include_superseded : bool) : M (list Message) :=
  w <- get_world ;;
  match messages_container w with
  | None => ret []
  | Some _ =>
      items <- messages_query
                 (fun c => (m_sessionId c =s? session_id)
                           && (m_tenantId c =s? tenant_id)
                           && (m_userId c =s? user_id)
                           && (if include_superseded then true
                               else not_superseded c)) ;;
      ret (order_by ts_desc items)
  end.

(** ** Summary store *)

Definition supersede (msg : Message) : Message :=
  mkMessage (m_id msg) (m_messageId msg) (m_sessionId msg) (m_tenantId msg)
            (m_userId msg) (m_role msg) (m_content msg) (m_toolCall msg)
            (m_embedding msg) (m_ts msg) (m_keywords msg)
            (Value true) (Value 2592000).

(** The body of [for msg_id in supersedes: try: ... except ...]. *)
Definition mark_one (msg_id : string) : M unit :=
  try_except
    (items <- messages_query (fun c => m_messageId c =s? msg_id) ;;
     match items with
     | [] => ret tt
     | msg :: _ => messages_upsert_item (supersede msg)
     end)
    (fun e => logger_error
                ("Error marking message " +s+ msg_id +s+ " as superseded")).

Fixpoint mark_superseded (supersedes : list string) : M unit :=
  match supersedes with
  | [] => ret tt
  | msg_id :: rest => mark_one msg_id ;;; mark_superseded rest
  end.

Definition create_summary (hex now : string)
    (session_id tenant_id user_id summary_text : string)
    (span : string * string) (embedding : option (list Q))
    (supersedes : option (list string)) : M string :=
  w <- get_world ;;
  match summaries_container w, messages_container w with
  | Some _, Some _ =>
      let summary_id := "summary_" +s+ hex12 hex in
      let summary :=
        mkSummary summary_id summary_id session_id tenant_id user_id span
                  summary_text embedding now
                  (match supersedes with
                   | None => []
                   | Some l => l
                   end) in
      summaries_upsert_item summary ;;;
      match supersedes with
      | None => ret tt
      | Some l => mark_superseded l
      end ;;;
      ret summary_id
  | _, _ => raise CosmosNotAvailable
  end.

(** ** Memory store *)

Definition store_memory (hex now : string)
    (user_id tenant_id memory_type text : string)
    (facets : list (string * string)) (salience : Q) (justification : string)
    (embedding : option (list Q)) : M string :=
  w <- get_world ;;
  match memories_container w with
  | None => raise CosmosNotAvailable
  | Some _ =>
      let memory_id := "mem_" +s+ hex12 hex in
      let ttl := if memory_type =s? "episodic" then Value 7776000 else Null in
      let memory :=
        mkMemory memory_id memory_id user_id tenant_id memory_type text
                 facets embedding salience ttl justification now now
                 Undefined in
      memories_upsert_item memory ;;;
      ret memory_id
  end.

(** [SELECT TOP 5 * FROM c WHERE ... ORDER BY c.createdAt DESC].  The
    indexing policy data/seed_data.py gives the containers includes the path
    [/*] only; under it the ordered query is served from the index on
    [createdAt] and leaves out the documents that have no such key. *)
Definition memories_query_top5 (where_ : Memory -> bool)
    : M (list Memory) :=
  w <- get_world ;;
  match memories_container w with
  | None => raise StoreError
  | Some l =>
      store_call ;;;
      ret (firstn 5 (order_by createdAt_desc
                       (filter has_createdAt (filter where_ l))))
  end.

(** A type name made of ASCII letters, digits and underscores. *)
Definition is_name_char (c : ascii) : bool :=
  let n := nat_of_ascii c in
  ((Nat.leb 48 n && Nat.leb n 57) || (Nat.leb 65 n && Nat.leb n 90)
   || (Nat.leb 97 n && Nat.leb n 122) || Nat.eqb n 95)%bool.

Definition plain_name (s : string) : bool :=
  forallb is_name_char (list_ascii_of_string s).

Definition plain_names (memory_types : option (list string)) : bool :=
  match memory_types with
  | None => true
  | Some types => forallb plain_name types
  end.

(** The type names are spliced into the query text, each between two
    apostrophes: [type_list = ", ".join([f"'{t}'" for t in memory_types])],
    then [AND c.memoryType IN ({type_list})].  For [plain_names] the text is
    the list of these names as string literals, and the store reads the
    clause as membership: this is the reading embedded here.  A name that
    holds an apostrophe or a backslash makes the text another query, or
    none; the embedding does not cover it, and the theorems on
    [query_memories] that depend on the filter assume [plain_names]. *)
Definition query_memories (user_id tenant_id : string)
    (memory_types : option (list string)) (min_salience : Q)
    : M (list Memory) :=
  w <- get_world ;;
  match memories_container w with
  | None => ret []
  | Some _ =>
      let type_filter (c : Memory) :=
        match memory_types with
        | None | Some [] => true
        | Some types => existsb (String.eqb (e_memoryType c)) types
        end in
      memories_query_top5
        (fun c => (e_userId c =s? user_id)
                  && (e_tenantId c =s? tenant_id)
                  && Qle_bool min_salience (e_salience c)
                  && type_filter c)
  end.

(** ** Place discovery *)

(** The text holds ASCII characters only. *)
Definition ascii_only (s : string) : bool :=
  forallb (fun c => Nat.ltb (nat_of_ascii c) 128) (list_ascii_of_string s).

Definition lower_ascii (c : ascii) : ascii :=
  let n := nat_of_ascii c in
  if (Nat.leb 65 n && Nat.leb n 90)%bool then ascii_of_nat (n + 32) else c.

(** [str.lower()] on ASCII text. *)
Definition lower (s : string) : string :=
  string_of_list_ascii (List.map lower_ascii (list_ascii_of_string s)).

(** The characters [str.strip()] removes from ASCII text. *)
Definition is_space (c : ascii) : bool :=
  let n := nat_of_ascii c in
  ((Nat.leb 9 n && Nat.leb n 13) || (Nat.leb 28 n && Nat.leb n 32))%bool.

Fixpoint lstrip_list (l : list ascii) : list ascii :=
  match l with
  | [] => []
  | c :: t => if is_space c then lstrip_list t else l
  end.

Definition strip (s : string) : string :=
  string_of_list_ascii
    (rev (lstrip_list (rev (lstrip_list (list_ascii_of_string s))))).

(** The similarity threshold written into the query text. *)
Definition threshold : Q := 75 # 1000.

(** The distance functions of a vector policy, and the one
    data/seed_data.py configures: [SIMILARITY_METRIC = "cosine"]. *)
Inductive DistanceFunction : Type := cosine | dotproduct | euclidean.

Definition SIMILARITY_METRIC : DistanceFunction := cosine.

(** [ORDER BY VectorDistance(...)] lists the most similar document first:
    the highest score for cosine and dot product, the lowest for the
    Euclidean distance. *)
Definition most_similar_first (f : DistanceFunction) (x y : Q) : bool :=
  match f with
  | euclidean => Qle_bool x y
  | cosine | dotproduct => Qle_bool y x
  end.

Section Places.

(** [VectorDistance(c.embedding, @referenceVector)]: the score the store
    computes with the distance function of the container's vector policy;
    with [cosine], the cosine similarity of the two vectors. *)
Variable VectorDistance : list Q -> list Q -> Q.

(** [ORDER BY VectorDistance(c.embedding, @referenceVector)] *)
Definition by_similarity (v : list Q) (a b : Place) : bool :=
  most_similar_first SIMILARITY_METRIC
                     (VectorDistance (p_embedding a) v)
                     (VectorDistance (p_embedding b) v).

Definition places_query_top5 (where_ : Place -> bool) (v : list Q)
    : M (list PlaceRow) :=
  w <- get_world ;;
  match places_container w with
  | None => raise StoreError
  | Some l =>
      store_call ;;;
      ret (List.map project
             (firstn 5 (order_by (by_similarity v) (filter where_ l))))
  end.

(** The WHERE clause [query_places] assembles from its filters. *)
Definition places_where (vectors : list Q) (geo_scope_id : string)
    (place_type : option string) (price_tier : option Z) (c : Place)
    : bool :=
  (p_geoScopeId c =s? geo_scope_id)
  && match place_type with
     | None | Some "" => true
     | Some t => p_type c =s? t
     end
  && match price_tier with
     | None => true
     | Some n => match p_priceTier c with
                 | SInt k => Z.eqb k n
                 | SStr _ => false
                 end
     end
  && negb (Qle_bool (VectorDistance (p_embedding c) vectors) threshold).

Definition query_places (vectors : list Q) (geo_scope_id : string)
    (place_type : option string) (tags dietary : option (list string))
    (price_tier : option Z) : M (list PlaceRow) :=
  w <- get_world ;;
  match places_container w with
  | None =>
      logger_error "places_container is None! Cosmos DB not initialized properly." ;;;
      ret []
  | Some _ =>
      let geo_scope_id := strip (lower geo_scope_id) in
      try_except
        (items <- places_query_top5
                    (places_where vectors geo_scope_id place_type price_tier)
                    vectors ;;
         match items with
         | [] =>
             logger_warning "Query returned 0 items!" ;;;
             logger_warning "Check if:" ;;;
             logger_warning "1. Data exists for geoScopeId" ;;;
             logger_warning "2. place_type filter is correct" ;;;
             logger_warning
               "3. Vector similarity threshold (0.075) might be too strict"
         | _ :: _ => ret tt
         end ;;;
         ret items)
        (fun ex =>
           logger_error "Error querying places" ;;;
           logger_error "Exception type" ;;;
           logger_error "Full traceback" ;;;
           raise ex)
  end.

End Places.

(** Two sample scores for the examples.  [sq_euclid], the squared
    difference, serves where the score plays no part.  [unit_cosine] is the
    cosine similarity on vectors of norm 1, where it is the dot product. *)
Fixpoint dot (a b : list Q) : Q :=
  match a, b with
  | x :: a', y :: b' => x * y + dot a' b'
  | _, _ => 0
  end.

Definition unit_cosine (a b : list Q) : Q := dot a b.

Fixpoint sq_euclid (a b : list Q) : Q :=
  match a, b with
  | x :: a', y :: b' => (x - y) * (x - y) + sq_euclid a' b'
  | _, _ => 0
  end.

(** ** Running the effects *)

(** The next call into the store goes through. *)
Definition next_call_ok (w : Cosmos) : Prop :=
  match outages w with
  | true :: _ => False
  | _ => True
  end.

Definition stored_memories (w : Cosmos) : list Memory :=
  match memories_container w with
  | Some l => l
  | None => []
  end.

Ltac run :=
  unfold store_memory, memories_upsert_item, messages_upsert_item,
    sessions_upsert_item, summaries_upsert_item, sessions_query,
    messages_query, memories_query_top5, places_query_top5,
    set_memories, set_messages, set_sessions, set_summaries, store_call,
    logger_error, logger_warning, try_except, bind, ret, raise, get_world;
  simpl.

Ltac split_world w :=
  let ss := fresh "ss" in
  let ms := fresh "ms" in
  let ys := fresh "ys" in
  let es := fresh "es" in
  let ps := fresh "ps" in
  let o := fresh "o" in
  let lg := fresh "lg" in
  destruct w as [ss ms ys es ps o lg]; unfold next_call_ok in *;
  simpl in *.

(** The next call into the store raises. *)
Definition next_call_fails (w : Cosmos) : Prop :=
  match outages w with
  | true :: _ => True
  | _ => False
  end.

Definition stored_sessions (w : Cosmos) : list Session :=
  match sessions_container w with
  | Some l => l
  | None => []
  end.

Definition stored_messages (w : Cosmos) : list Message :=
  match messages_container w with
  | Some l => l
  | None => []
  end.

Definition stored_summaries (w : Cosmos) : list Summary :=
  match summaries_container w with
  | Some l => l
  | None => []
  end.

Definition stored_places (w : Cosmos) : list Place :=
  match places_container w with
  | Some l => l
  | None => []
  end.

(** ** Sample data for the examples *)

Definition fresh_store : Cosmos :=
  mkCosmos (Some []) (Some []) (Some []) (Some []) (Some []) [] [].

Definition with_outages (o : list bool) (w : Cosmos) : Cosmos :=
  mkCosmos (sessions_container w) (messages_container w)
           (summaries_container w) (memories_container w)
           (places_container w) o (log w).

Definition hexA : string := "0123456789abcdef0123456789abcdef".
Definition hexB : string := "fedcba9876543210fedcba9876543210".
Definition t0 : string := "2025-01-01T10:00:00Z".
Definition t1 : string := "2025-01-01T10:05:00Z".
Definition t2 : string := "2025-01-01T10:10:00Z".

Definition session1 : Session :=
  mkSession "session_1" "session_1" "tenantA" "alice" "New Conversation"
            (Value "orchestrator") t0 t0 "active" (Value 0).

Definition store_with_session : Cosmos :=
  mkCosmos (Some [session1]) (Some []) (Some []) (Some []) (Some []) [] [].

(** No container handle was initialised. *)
Definition no_handles : Cosmos := mkCosmos None None None None None [] [].

Definition msg (id session tenant user ts : string) (sup : field bool)
    : Message :=
  mkMessage id id session tenant user "user" "hello" None None ts []
            sup (match sup with
                 | Value true => Value 2592000
                 | _ => Undefined
                 end).

Definition store_with_messages : Cosmos :=
  mkCosmos (Some [session1])
           (Some [msg "msg_1" "session_1" "tenantA" "alice" t0 (Value true);
                  msg "msg_2" "session_1" "tenantA" "alice" t1 (Value false);
                  msg "msg_3" "session_1" "tenantA" "alice" t2 (Value true)])
           (Some []) (Some []) (Some []) [] [].

(** A memory document with another embedding; nothing else changes. *)
Definition reembed (g : Memory -> option (list Q)) (e : Memory) : Memory :=
  mkMemory (e_id e) (e_memoryId e) (e_userId e) (e_tenantId e)
           (e_memoryType e) (e_text e) (e_facets e) (g e) (e_salience e)
           (e_ttl e) (e_justification e) (e_lastUsedAt e) (e_extractedAt e)
           (e_createdAt e).

Definition with_memories (l : list Memory) (w : Cosmos) : Cosmos :=
  mkCosmos (sessions_container w) (messages_container w)
           (summaries_container w) (Some l) (places_container w)
           (outages w) (log w).

Definition map_outcome (A B : Type) (f : A -> B) (r : outcome A)
    : outcome B :=
  match r with
  | Return a => Return (f a)
  | Raise e => Raise e
  end.

Definition mem (id ty : string) (sal : Q) (created : field string)
    : Memory :=
  mkMemory id id "alice" "tenantA" ty "likes trains" [] None sal Null
           "said so" t0 t0 created.

Definition store_with_memories : Cosmos :=
  mkCosmos (Some []) (Some []) (Some [])
           (Some [mem "mem_1" "declarative" (9 # 10) (Value t0);
                  mem "mem_2" "episodic" (5 # 10) (Value t2);
                  mem "mem_3" "procedural" (2 # 10) (Value t1)])
           (Some []) [] [].

Definition place (id name : string) (emb : list Q) : Place :=
  mkPlace id "paris" "restaurant" name "a place to eat" ["bistro"] []
          "12:00-23:00" "Le Marais" (SStr "moderate") (45 # 10) emb.

Definition near_place : Place := place "place_1" "Chez Proche" [1%Q].
Definition far_place : Place := place "place_2" "Chez Loin" [2%Q].

Definition store_with_places : Cosmos :=
  mkCosmos (Some []) (Some []) (Some []) (Some [])
           (Some [near_place; far_place]) [] [].

(** Three places with embeddings of norm 1, at cosine similarity 0, 3/5 and
    1 to the query vector [1; 0]. *)
Definition across_place : Place := place "place_3" "Chez Ailleurs" [0; 1]%Q.
Definition close_place : Place :=
  place "place_4" "Chez Voisin" [3 # 5; 4 # 5]%Q.
Definition same_place : Place := place "place_5" "Chez Pareil" [1; 0]%Q.

Definition store_with_unit_places : Cosmos :=
  mkCosmos (Some []) (Some []) (Some []) (Some [])
           (Some [across_place; close_place; same_place]) [] [].

(** Two documents of the same session, tenant and user. *)
Definition session1_twin : Session :=
  mkSession "session_1_copy" "session_1" "tenantA" "alice" "Second copy"
            (Value "hotel") t1 t1 "active" (Value 7).

Definition store_with_twin_sessions : Cosmos :=
  mkCosmos (Some [session1; session1_twin]) (Some []) (Some []) (Some [])
           (Some []) [] [].

(** The next two calls into the store go through. *)
Definition two_calls_ok (w : Cosmos) : Prop :=
  match outages w with
  | true :: _ => False
  | _ :: true :: _ => False
  | _ => True
  end.

(** [supersedes or []] *)
Definition or_empty (supersedes : option (list string)) : list string :=
  match supersedes with
  | None => []
  | Some l => l
  end.

(** The marking loop touches the messages container, the outage script and
    the log, and nothing else. *)
Definition only_messages_touched (w w' : Cosmos) : Prop :=
  sessions_container w' = sessions_container w
  /\ summaries_container w' = summaries_container w
  /\ memories_container w' = memories_container w
  /\ places_container w' = places_container w
  /\ (messages_container w <> None -> messages_container w' <> None).

(** Two sessions of different tenants hold a message with the same
    [messageId]; the other tenant's document comes first in the container. *)
Definition store_with_clash : Cosmos :=
  mkCosmos (Some [])
           (Some [msg "msg_x" "session_2" "tenantB" "bob" t0 (Value false);
                  msg "msg_x" "session_1" "tenantA" "alice" t1 (Value false)])
           (Some []) (Some []) (Some []) [] [].

Definition with_messages (l : list Message) (w : Cosmos) : Cosmos :=
  mkCosmos (sessions_container w) (Some l) (summaries_container w)
           (memories_container w) (places_container w) (outages w) (log w).

(** Marking by message id alone: the first document of the container that
    carries the id is superseded, whoever owns it. *)
Definition mark_first (l : list Message) (msg_id : string) : list Message :=
  match find (fun c => m_messageId c =s? msg_id) l with
  | Some found => upsert message_key (supersede found) l
  | None => l
  end.

Definition store_three_messages : Cosmos :=
  mkCosmos (Some [session1])
           (Some [msg "msg_1" "session_1" "tenantA" "alice" t0 (Value false);
                  msg "msg_2" "session_1" "tenantA" "alice" t1 (Value false);
                  msg "msg_3" "session_1" "tenantA" "alice" t2 (Value false)])
           (Some []) (Some []) (Some []) [] [].

(** ** Further operations of the service *)

Definition summaries_query_ordered (where_ : Summary -> bool)
    : M (list Summary) :=
  w <- get_world ;;
  match summaries_container w with
  | None => raise StoreError
  | Some l =>
      store_call ;;;
      ret (order_by (fun a b => String.leb (y_createdAt b) (y_createdAt a))
                    (filter where_ l))
  end.

Definition get_session_summaries (session_id tenant_id user_id : string)
    : M (list Summary) :=
  w <- get_world ;;
  match summaries_container w with
  | None => ret []
  | Some _ =>
      summaries_query_ordered
        (fun c => (y_sessionId c =s? session_id)
                  && (y_tenantId c =s? tenant_id)
                  && (y_userId c =s? user_id))
  end.

Definition create_session_record (hex now : string)
    (user_id tenant_id activeAgent : string) (title : option string)
    : M Session :=
  w <- get_world ;;
  match sessions_container w with
  | None => raise CosmosNotAvailable
  | Some _ =>
      let session_id := "session_" +s+ hex12 hex in
      let session :=
        mkSession session_id session_id tenant_id user_id
                  (match title with
                   | None | Some "" => "New Conversation"
                   | Some t => t
                   end)
                  (Value activeAgent) now now "active" (Value 0) in
      sessions_upsert_item session ;;;
      ret session
  end.

Definition update_session_container (session_doc : Session) : M unit :=
  w <- get_world ;;
  match sessions_container w with
  | None => logger_warning "Sessions container not initialized"
  | Some _ =>
      try_except
        (sessions_upsert_item session_doc)
        (fun e => logger_error "Error upserting session document" ;;;
                  raise e)
  end.

(** [sessions_container.read_item(item, partition_key=[tenant, user,
    session])]: the document with that id in that partition; the store
    raises when there is none. *)
Definition sessions_read_item (item tenantId userId sessionId : string)
    : M Session :=
  w <- get_world ;;
  match sessions_container w with
  | None => raise StoreError
  | Some l =>
      store_call ;;;
      match find (fun c => (s_id c =s? item) && (s_tenantId c =s? tenantId)
                           && (s_userId c =s? userId)
                           && (s_sessionId c =s? sessionId)) l with
      | Some d => ret d
      | None => raise StoreError
      end
  end.

Inductive patch_op : Type :=
| op_add
| op_replace.

Definition set_activeAgent (v : string) (s : Session) : Session :=
  mkSession (s_id s) (s_sessionId s) (s_tenantId s) (s_userId s) (s_title s)
            (Value v) (s_createdAt s) (s_lastActivityAt s) (s_status s)
            (s_messageCount s).

(** [sessions_container.patch_item(item, partition_key, [{op, path:
    '/activeAgent', value}])]: the store raises when the document is
    missing, and for [replace] when the document has no such key. *)
Definition sessions_patch_activeAgent (item tenantId userId sessionId : string)
    (op : patch_op) (value : string) : M unit :=
  w <- get_world ;;
  match sessions_container w with
  | None => raise StoreError
  | Some l =>
      store_call ;;;
      match find (fun c => (s_id c =s? item) && (s_tenantId c =s? tenantId)
                           && (s_userId c =s? userId)
                           && (s_sessionId c =s? sessionId)) l with
      | None => raise StoreError
      | Some d =>
          match op, s_activeAgent d with
          | op_replace, Undefined => raise StoreError
          | _, _ =>
              set_sessions (upsert session_key (set_activeAgent value d) l)
          end
      end
  end.

Definition patch_active_agent (tenantId userId sessionId activeAgent : string)
    : M unit :=
  w <- get_world ;;
  match sessions_container w with
  | None => logger_warning "Sessions container not initialized"
  | Some _ =>
      try_except
        (operation <-
           try_except
             (session_doc <- sessions_read_item sessionId tenantId userId
                                                sessionId ;;
              ret (match s_activeAgent session_doc with
                   | Undefined => op_add
                   | _ => op_replace
                   end))
             (fun _ => ret op_add) ;;
         sessions_patch_activeAgent sessionId tenantId userId sessionId
                                    operation activeAgent)
        (fun e =>
           logger_error "Error patching active agent" ;;;
           try_except
             (session_doc <- sessions_read_item sessionId tenantId userId
                                                sessionId ;;
              sessions_upsert_item (set_activeAgent activeAgent session_doc))
             (fun fallback_error =>
                logger_error "Fallback upsert also failed"))
  end.

Definition no_leading_space (l : list ascii) : Prop :=
  match l with
  | [] => True
  | c :: _ => is_space c = false
  end.

(** The WHERE clause of the session lookup. *)
Definition session_matches (session_id tenant_id user_id : string)
    (c : Session) : bool :=
  (s_sessionId c =s? session_id) && (s_tenantId c =s? tenant_id)
  && (s_userId c =s? user_id).

Ltac run2 :=
  unfold get_session_summaries, summaries_query_ordered,
    create_session_record, update_session_container, patch_active_agent,
    sessions_read_item, sessions_patch_activeAgent;
  run.

Definition session_without_count : Session :=
  mkSession "session_2" "session_2" "tenantA" "alice" "New Conversation"
            (Value "orchestrator") t0 t0 "active" Undefined.

Definition session_null_count : Session :=
  mkSession "session_3" "session_3" "tenantA" "alice" "New Conversation"
            Undefined t0 t0 "active" Null.

Definition store_with_sessions : Cosmos :=
  mkCosmos (Some [session1; session_without_count; session_null_count])
           (Some []) (Some []) (Some []) (Some []) [] [].

(** Document id and partition key of a message. *)
Definition message_ident (m : Message) : string * string * string * string :=
  (m_id m, m_tenantId m, m_userId m, m_sessionId m).

(** [l'] is [l] with some documents replaced by their superseded version. *)
Definition marked_from (l l' : list Message) : Prop :=
  Forall2 (fun a b => b = a \/ b = supersede a) l l'.

(** The document [read_item] and [patch_item] address. *)
Definition session_addressed (item tenantId userId sessionId : string)
    (c : Session) : bool :=
  (s_id c =s? item) && (s_tenantId c =s? tenantId)
  && (s_userId c =s? userId) && (s_sessionId c =s? sessionId).

(** The WHERE clause of [query_memories]. *)
Definition memories_where (user_id tenant_id : string)
    (memory_types : option (list string)) (min_salience : Q) (c : Memory)
    : bool :=
  (e_userId c =s? user_id) && (e_tenantId c =s? tenant_id)
  && Qle_bool min_salience (e_salience c)
  && match memory_types with
     | None | Some [] => true
     | Some types => existsb (String.eqb (e_memoryType c)) types
     end.



(** ** The cities of the catalog *)

Record City : Type := mkCity {
  c_id : string;
  c_name : string;
  c_displayName : string
}.

Definition city_name_map : list (string * string) :=
  [("abu_dhabi", "Abu Dhabi, UAE");
   ("amsterdam", "Amsterdam, Netherlands");
   ("athens", "Athens, Greece");
   ("auckland", "Auckland, New Zealand");
   ("bangkok", "Bangkok, Thailand");
   ("barcelona", "Barcelona, Spain");
   ("beijing", "Beijing, China");
   ("berlin", "Berlin, Germany");
   ("brussels", "Brussels, Belgium");
   ("budapest", "Budapest, Hungary");
   ("chicago", "Chicago, USA");
   ("christchurch", "Christchurch, New Zealand");
   ("copenhagen", "Copenhagen, Denmark");
   ("delhi", "Delhi, India");
   ("dubai", "Dubai, UAE");
   ("dublin", "Dublin, Ireland");
   ("edinburgh", "Edinburgh, Scotland");
   ("frankfurt", "Frankfurt, Germany");
   ("glasgow", "Glasgow, Scotland");
   ("hong_kong", "Hong Kong");
   ("istanbul", "Istanbul, Turkey");
   ("kuala_lumpur", "Kuala Lumpur, Malaysia");
   ("lisbon", "Lisbon, Portugal");
   ("london", "London, UK");
   ("los_angeles", "Los Angeles, USA");
   ("madrid", "Madrid, Spain");
   ("manchester", "Manchester, UK");
   ("melbourne", "Melbourne, Australia");
   ("miami", "Miami, USA");
   ("milan", "Milan, Italy");
   ("mumbai", "Mumbai, India");
   ("new_york", "New York, USA");
   ("osaka", "Osaka, Japan");
   ("oslo", "Oslo, Norway");
   ("paris", "Paris, France");
   ("prague", "Prague, Czech Republic");
   ("reykjavik", "Reykjavik, Iceland");
   ("rome", "Rome, Italy");
   ("san_francisco", "San Francisco, USA");
   ("seattle", "Seattle, USA");
   ("seoul", "Seoul, South Korea");
   ("singapore", "Singapore");
   ("stockholm", "Stockholm, Sweden");
   ("sydney", "Sydney, Australia");
   ("tokyo", "Tokyo, Japan");
   ("toronto", "Toronto, Canada");
   ("vancouver", "Vancouver, Canada");
   ("vienna", "Vienna, Austria");
   ("zurich", "Zurich, Switzerland")].

(** [dict.get(key, default)] *)
Fixpoint dict_get (m : list (string * string)) (key default : string)
    : string :=
  match m with
  | [] => default
  | (k, v) :: t => if k =s? key then v else dict_get t key default
  end.

Definition is_lower_ascii (c : ascii) : bool :=
  let n := nat_of_ascii c in (Nat.leb 97 n && Nat.leb n 122)%bool.

Definition is_upper_ascii (c : ascii) : bool :=
  let n := nat_of_ascii c in (Nat.leb 65 n && Nat.leb n 90)%bool.

Definition upper_ascii (c : ascii) : ascii :=
  if is_lower_ascii c then ascii_of_nat (nat_of_ascii c - 32) else c.

(** [str.title()] on ASCII text: a letter that follows a letter is
    lower-cased, any other letter is upper-cased. *)
Fixpoint title_list (previous_is_cased : bool) (l : list ascii)
    : list ascii :=
  match l with
  | [] => []
  | c :: t =>
      if is_lower_ascii c then
        (if previous_is_cased then c else upper_ascii c) :: title_list true t
      else if is_upper_ascii c then
        (if previous_is_cased then lower_ascii c else c) :: title_list true t
      else c :: title_list false t
  end.

Definition title (s : string) : string :=
  string_of_list_ascii (title_list false (list_ascii_of_string s)).

(** [s.replace("_", " ")] *)
Definition replace_underscore (s : string) : string :=
  string_of_list_ascii
    (List.map (fun c => if Ascii.eqb c "_" then " "%char else c)
              (list_ascii_of_string s)).

(** [SELECT DISTINCT VALUE c.geoScopeId FROM c] *)
Definition places_distinct_scopes : M (list string) :=
  w <- get_world ;;
  match places_container w with
  | None => raise StoreError
  | Some l => store_call ;;; ret (nodup string_dec (List.map p_geoScopeId l))
  end.

Definition get_distinct_cities (tenant_id : string) : M (list City) :=
  w <- get_world ;;
  match places_container w with
  | None => ret []
  | Some _ =>
      try_except
        (geo_scope_ids <- places_distinct_scopes ;;
         ret (List.map
                (fun geo_id =>
                   mkCity geo_id geo_id
                          (dict_get city_name_map geo_id
                                    (title (replace_underscore geo_id))))
                (order_by String.leb geo_scope_ids)))
        (fun e => logger_error "Error getting distinct cities" ;;; ret [])
  end.

Definition store_with_cities : Cosmos :=
  mkCosmos (Some []) (Some []) (Some []) (Some [])
           (Some [mkPlace "p1" "paris" "hotel" "H1" "" [] [] "" ""
                          (SStr "luxury") (4 # 1) [];
                  mkPlace "p2" "new_york" "hotel" "H2" "" [] [] "" ""
                          (SStr "luxury") (4 # 1) [];
                  mkPlace "p3" "paris" "restaurant" "R1" "" [] [] "" ""
                          (SStr "budget") (4 # 1) [];
                  mkPlace "p4" "san_jose" "activity" "A1" "" [] [] "" ""
                          (SStr "budget") (4 # 1) []])
           [] [].

(** ** Trips

    The trip functions touch the trips container only; they are modelled
    over a store of their own, in explicit state-passing style. *)

Record Trip : Type := mkTrip {
  tr_id : string;
  tr_tripId : string;
  tr_userId : string;
  tr_tenantId : string;
  tr_scope : list (string * string);
  tr_dates : list (string * string);
  tr_travelers : list string;
  tr_constraints : list (string * string);
  tr_tripDuration : option Z;
  tr_days : list (list (string * string));
  tr_status : string
}.

Record TripStore : Type := mkTripStore {
  trips_container : option (list Trip);
  trip_outages : list bool;
  trip_log : list string
}.

Inductive TripError : Type :=
| TripsNotAvailable      (* Exception("Cosmos DB not available") *)
| TripStoreFailure       (* raised inside a container method *)
| KeyError (key : string).

Inductive trip_outcome (A : Type) : Type :=
| TReturn : A -> trip_outcome A
| TRaise : TripError -> trip_outcome A.

Arguments TReturn {A} _.
Arguments TRaise {A} _.

(** [d[key]] on a dict given as its items. *)
Fixpoint dict_lookup (d : list (string * string)) (key : string)
    : option string :=
  match d with
  | [] => None
  | (k, v) :: t => if k =s? key then Some v else dict_lookup t key
  end.

(** [s[:n]], the first [n] characters of a text held as UTF-8 bytes: a
    byte [10xxxxxx] continues the character before it. *)
Definition is_continuation (c : ascii) : bool :=
  let k := nat_of_ascii c in (Nat.leb 128 k && Nat.ltb k 192)%bool.

Fixpoint take_chars (n : nat) (l : list ascii) : list ascii :=
  match l with
  | [] => []
  | c :: t =>
      if is_continuation c then c :: take_chars n t
      else match n with
           | O => []
           | S k => c :: take_chars k t
           end
  end.

Definition str_prefix (n : nat) (s : string) : string :=
  string_of_list_ascii (take_chars n (list_ascii_of_string s)).

Definition trip_key (a b : Trip) : bool :=
  (tr_id a =s? tr_id b) && (tr_tenantId a =s? tr_tenantId b)
  && (tr_userId a =s? tr_userId b) && (tr_tripId a =s? tr_tripId b).

(** [year] is [datetime.utcnow().strftime('%Y')]. *)
Definition create_trip (year : string) (user_id tenant_id : string)
    (scope dates : list (string * string)) (travelers : list string)
    (constraints : list (string * string))
    (days : option (list (list (string * string))))
    (trip_duration : option Z) (w : TripStore)
    : trip_outcome string * TripStore :=
  match trips_container w with
  | None => (TRaise TripsNotAvailable, w)
  | Some l =>
      match dict_lookup scope "id" with
      | None => (TRaise (KeyError "id"), w)
      | Some scope_id =>
          let trip_id := "trip_" +s+ year +s+ "_" +s+ str_prefix 3 scope_id in
          let trip_duration :=
            match trip_duration, days with
            | None, Some (d :: ds) => Some (Z.of_nat (List.length (d :: ds)))
            | _, _ => trip_duration
            end in
          let trip :=
            mkTrip trip_id trip_id user_id tenant_id scope dates travelers
                   constraints trip_duration
                   (match days with
                    | None => []
                    | Some ds => ds
                    end)
                   "planning" in
          match trip_outages w with
          | true :: t =>
              (TRaise TripStoreFailure, mkTripStore (Some l) t (trip_log w))
          | o =>
              (TReturn trip_id,
               mkTripStore (Some (upsert trip_key trip l)) (tl o)
                           (trip_log w))
          end
      end
  end.

Definition get_trip (trip_id user_id tenant_id : string) (w : TripStore)
    : trip_outcome (option Trip) * TripStore :=
  match trips_container w with
  | None => (TReturn None, w)
  | Some l =>
      match trip_outages w with
      | true :: t =>
          (TReturn None,
           mkTripStore (Some l) t (trip_log w ++ ["Error getting trip"]))
      | o =>
          (TReturn (find (fun c => (tr_tripId c =s? trip_id)
                                   && (tr_userId c =s? user_id)
                                   && (tr_tenantId c =s? tenant_id)) l),
           mkTripStore (Some l) (tl o) (trip_log w))
      end
  end.

Definition no_trips : TripStore := mkTripStore (Some []) [] [].

(** ** The memory loader of [data/load_data.py] *)

Definition VECTOR_DIMENSIONS : nat := 1024.

Section Loader.

(** Whether [AZURE_OPENAI_ENDPOINT] is set, and the embedding service:
    [None] when the call raises. *)
Variable endpoint_configured : bool.
Variable embedding_service : string -> option (list Q).

Definition generate_embedding (text : string) : list Q :=
  if (text =s? "") || negb endpoint_configured then
    repeat 0%Q VECTOR_DIMENSIONS
  else
    match embedding_service text with
    | Some v => v
    | None => repeat 0%Q VECTOR_DIMENSIONS
    end.

(** What the body of the loop does to a memory before it is written. *)
Definition prepare_memory (m : Memory) : Memory :=
  let embedding :=
    match e_embedding m with
    | None | Some [] => Some (generate_embedding (e_text m))
    | Some v => Some v
    end in
  let ttl :=
    match e_ttl m with
    | Value (-1) => Undefined
    | t => t
    end in
  mkMemory (e_id m) (e_memoryId m) (e_userId m) (e_tenantId m)
           (e_memoryType m) (e_text m) (e_facets m) embedding (e_salience m)
           ttl (e_justification m) (e_lastUsedAt m) (e_extractedAt m)
           (e_createdAt m).

Fixpoint seed_memories_loop (memories : list Memory) : M unit :=
  match memories with
  | [] => ret tt
  | memory :: rest =>
      try_except (memories_upsert_item (prepare_memory memory))
                 (fun e => ret tt) ;;;
      seed_memories_loop rest
  end.

(** [memories] is the content of memories.json; the container handle is the
    memories container of the store. *)
Definition seed_memories (memories : list Memory) (dry_run : bool)
    : M unit :=
  match memories with
  | [] => ret tt
  | _ :: _ => if dry_run then ret tt else seed_memories_loop memories
  end.

End Loader.

Definition durable_seed : Memory :=
  mkMemory "mem_s1" "mem_s1" "alice" "tenantA" "declarative" "is vegetarian"
           [] None (9 # 10) (Value (-1)) "seed" t0 t0 (Value t0).

Definition episodic_seed : Memory :=
  mkMemory "mem_s2" "mem_s2" "alice" "tenantA" "episodic" "went to Lisbon"
           [] (Some [1%Q]) (5 # 10) (Value 7776000) "seed" t0 t0 (Value t1).

(** The first document carrying the id is already superseded. *)
Definition already_marked (m : string) (l : list Message) : Prop :=
  forall y, find (fun c => m_messageId c =s? m) l = Some y ->
            supersede y = y.

(** * Properties *)

(** ** ORDER BY and TOP *)

Lemma top_In (D : Type) (n : nat) (l : list D) (x : D) :
  In x (firstn n l) -> In x l.
Proof.
  revert n. induction l as [|y t IH]; intros [|n]; simpl; try tauto.
  intros [E|H]; [left; exact E | right; exact (IH n H)].
Qed.

Section OrderByFacts.

Variable D : Type.
Variable precedes : D -> D -> bool.

Lemma insert_doc_perm (x : D) (l : list D) :
  Permutation (insert_doc precedes x l) (x :: l).
Proof.
  induction l as [|y t IH]; simpl.
  - apply Permutation_refl.
  - destruct (precedes x y).
    + apply Permutation_refl.
    + eapply perm_trans; [apply perm_skip, IH | apply perm_swap].
Qed.

Lemma order_by_perm (l : list D) : Permutation (order_by precedes l) l.
Proof.
  induction l as [|x t IH]; simpl.
  - apply perm_nil.
  - eapply perm_trans; [apply insert_doc_perm | apply perm_skip, IH].
Qed.

Lemma order_by_In (l : list D) (x : D) :
  In x (order_by precedes l) <-> In x l.
Proof.
  split; apply Permutation_in;
    [apply order_by_perm | apply Permutation_sym, order_by_perm].
Qed.

Hypothesis precedes_total :
  forall a b, precedes a b = false -> precedes b a = true.
Hypothesis precedes_trans :
  forall a b c, precedes a b = true -> precedes b c = true ->
                precedes a c = true.

Let before (a b : D) : Prop := precedes a b = true.

Lemma insert_doc_sorted (x : D) (l : list D) :
  StronglySorted before l -> StronglySorted before (insert_doc precedes x l).
Proof.
  induction 1 as [|y t Ht IH Hy]; simpl.
  - constructor; constructor.
  - destruct (precedes x y) eqn:E.
    + constructor; [constructor; assumption|].
      constructor; [exact E|].
      rewrite Forall_forall in *. intros z Hz.
      apply precedes_trans with y; [exact E | apply Hy, Hz].
    + constructor; [exact IH|].
      rewrite Forall_forall in *. intros z Hz.
      apply (Permutation_in _ (insert_doc_perm x t)) in Hz.
      destruct Hz as [<-|Hz]; [apply precedes_total, E | apply Hy, Hz].
Qed.

Lemma order_by_sorted (l : list D) : StronglySorted before (order_by precedes l).
Proof.
  induction l as [|x t IH]; simpl.
  - constructor.
  - apply insert_doc_sorted, IH.
Qed.

Lemma firstn_sorted (n : nat) (l : list D) :
  StronglySorted before l -> StronglySorted before (firstn n l).
Proof.
  intros H. revert n. induction H as [|y t Ht IH Hy]; intros [|n]; simpl;
    try constructor.
  - apply IH.
  - rewrite Forall_forall in *. intros z Hz. apply Hy.
    exact (top_In n t z Hz).
Qed.

End OrderByFacts.

(** ** The orders of the ORDER BY clauses are total preorders *)

Lemma string_compare_trans (a b c : string) :
  String.compare a b <> Gt -> String.compare b c <> Gt ->
  String.compare a c <> Gt.
Proof.
  revert b c. induction a as [|x a IH]; intros [|y b] [|z c]; simpl;
    try congruence.
  unfold Ascii.compare.
  destruct (N.compare_spec (N_of_ascii x) (N_of_ascii y)) as [E1|L1|G1];
    destruct (N.compare_spec (N_of_ascii y) (N_of_ascii z)) as [E2|L2|G2];
    try congruence; intros H1 H2.
  - rewrite E1, E2, N.compare_refl. exact (IH b c H1 H2).
  - rewrite E1. apply N.compare_lt_iff in L2. rewrite L2. discriminate.
  - rewrite <- E2. apply N.compare_lt_iff in L1. rewrite L1. discriminate.
  - assert (L : (N_of_ascii x < N_of_ascii z)%N) by lia.
    apply N.compare_lt_iff in L. rewrite L. discriminate.
Qed.

Lemma string_leb_trans (a b c : string) :
  String.leb a b = true -> String.leb b c = true -> String.leb a c = true.
Proof.
  unfold String.leb. intros H1 H2.
  assert (H : String.compare a c <> Gt).
  { apply string_compare_trans with b.
    - destruct (String.compare a b); congruence.
    - destruct (String.compare b c); congruence. }
  destruct (String.compare a c); congruence.
Qed.

Lemma string_leb_false (a b : string) :
  String.leb a b = false -> String.leb b a = true.
Proof.
  intros H. destruct (String.leb_total a b) as [E|E]; congruence.
Qed.

Lemma ts_desc_total (a b : Message) :
  ts_desc a b = false -> ts_desc b a = true.
Proof. apply string_leb_false. Qed.

Lemma ts_desc_trans (a b c : Message) :
  ts_desc a b = true -> ts_desc b c = true -> ts_desc a c = true.
Proof. unfold ts_desc. intros H1 H2. exact (string_leb_trans _ _ _ H2 H1). Qed.

Lemma field_leb_false (a b : field string) :
  field_leb a b = false -> field_leb b a = true.
Proof.
  destruct a, b; simpl; try congruence. apply string_leb_false.
Qed.

Lemma field_leb_trans (a b c : field string) :
  field_leb a b = true -> field_leb b c = true -> field_leb a c = true.
Proof.
  destruct a, b, c; simpl; try congruence. apply string_leb_trans.
Qed.

Lemma createdAt_desc_total (a b : Memory) :
  createdAt_desc a b = false -> createdAt_desc b a = true.
Proof. apply field_leb_false. Qed.

Lemma createdAt_desc_trans (a b c : Memory) :
  createdAt_desc a b = true -> createdAt_desc b c = true ->
  createdAt_desc a c = true.
Proof.
  unfold createdAt_desc. intros H1 H2. exact (field_leb_trans _ _ _ H2 H1).
Qed.

Lemma by_similarity_total (VD : list Q -> list Q -> Q) (v : list Q)
    (a b : Place) :
  by_similarity VD v a b = false -> by_similarity VD v b a = true.
Proof.
  unfold by_similarity, most_similar_first, SIMILARITY_METRIC.
  intros H. apply Qle_bool_iff.
  apply Qlt_le_weak, Qnot_le_lt. intros L.
  apply Qle_bool_iff in L. congruence.
Qed.

Lemma by_similarity_trans (VD : list Q -> list Q -> Q) (v : list Q)
    (a b c : Place) :
  by_similarity VD v a b = true -> by_similarity VD v b c = true ->
  by_similarity VD v a c = true.
Proof.
  unfold by_similarity, most_similar_first, SIMILARITY_METRIC.
  rewrite !Qle_bool_iff. intros H1 H2. exact (Qle_trans _ _ _ H2 H1).
Qed.

Section UpsertFacts.

Variable D : Type.
Variable same_key : D -> D -> bool.

Lemma replace_doc_In (d : D) (l : list D) :
  existsb (same_key d) l = true -> In d (replace_doc same_key d l).
Proof.
  induction l as [|x t IH]; simpl; [discriminate|].
  destruct (same_key d x); simpl; [now left | intros H; right; apply IH, H].
Qed.

Lemma upsert_In (d : D) (l : list D) : In d (upsert same_key d l).
Proof.
  unfold upsert. destruct (existsb (same_key d) l) eqn:E.
  - apply replace_doc_In, E.
  - apply in_or_app. right. now left.
Qed.

Lemma replace_doc_keeps (d x : D) (l : list D) :
  In x l -> same_key d x = false -> In x (replace_doc same_key d l).
Proof.
  induction l as [|y t IH]; simpl; [tauto|].
  intros [->|H] K.
  - rewrite K. now left.
  - destruct (same_key d y); right; [exact H | apply IH; assumption].
Qed.

Lemma upsert_keeps (d x : D) (l : list D) :
  In x l -> same_key d x = false -> In x (upsert same_key d l).
Proof.
  intros H K. unfold upsert. destruct (existsb (same_key d) l).
  - apply replace_doc_keeps; assumption.
  - apply in_or_app. now left.
Qed.

End UpsertFacts.

(** ** Memory store: the ttl policy *)

(** The ttl [store_memory] writes is a function of [memory_type] alone:
    7776000 (90 days) for ["episodic"], null for every other type.  The
    document always carries the ttl key. *)
Theorem store_memory_ttl_policy :
  forall (hex now user_id tenant_id memory_type text : string)
         (facets : list (string * string)) (salience : Q)
         (justification : string) (embedding : option (list Q))
         (w : Cosmos) (l : list Memory),
    memories_container w = Some l ->
    next_call_ok w ->
    exists (w' : Cosmos) (d : Memory),
      store_memory hex now user_id tenant_id memory_type text facets
                   salience justification embedding w
      = (Return ("mem_" +s+ hex12 hex), w')
      /\ memories_container w' = Some (upsert memory_key d l)
      /\ In d (stored_memories w')
      /\ e_memoryId d = "mem_" +s+ hex12 hex
      /\ e_memoryType d = memory_type
      /\ (memory_type = "episodic" -> e_ttl d = Value 7776000)
      /\ (memory_type <> "episodic" -> e_ttl d = Null)
      /\ e_ttl d <> Undefined.
Proof.
  intros hex now user_id tenant_id memory_type text facets salience
         justification embedding w l Hl Hok.
  split_world w. subst es.
  set (d := mkMemory ("mem_" +s+ hex12 hex) ("mem_" +s+ hex12 hex) user_id
                     tenant_id memory_type text facets embedding salience
                     (if memory_type =s? "episodic" then Value 7776000
                      else Null)
                     justification now now Undefined).
  assert (Httl : (memory_type = "episodic" -> e_ttl d = Value 7776000)
                 /\ (memory_type <> "episodic" -> e_ttl d = Null)
                 /\ e_ttl d <> Undefined).
  { simpl. destruct (String.eqb_spec memory_type "episodic") as [E|E].
    - repeat split; [congruence | discriminate].
    - repeat split; [congruence | discriminate]. }
  destruct o as [|[] t]; [|contradiction|].
  - eexists; exists d. run. unfold stored_memories; simpl.
    repeat split; try apply Httl. apply upsert_In.
  - eexists; exists d. run. unfold stored_memories; simpl.
    repeat split; try apply Httl. apply upsert_In.
Qed.

Lemma store_memory_ttl_policy_witness :
  exists (w' : Cosmos) (d : Memory),
    store_memory hexA t0 "alice" "tenantA" "episodic" "went to Lisbon in May"
                 [] (9 # 10) "said so" None fresh_store
    = (Return ("mem_" +s+ hex12 hexA), w')
    /\ memories_container w' = Some (upsert memory_key d [])
    /\ In d (stored_memories w')
    /\ e_memoryId d = "mem_" +s+ hex12 hexA
    /\ e_memoryType d = "episodic"
    /\ ("episodic" = "episodic" -> e_ttl d = Value 7776000)
    /\ ("episodic" <> "episodic" -> e_ttl d = Null)
    /\ e_ttl d <> Undefined.
Proof.
  apply (@store_memory_ttl_policy hexA t0 "alice" "tenantA" "episodic"
           "went to Lisbon in May" [] (9 # 10) "said so" None
           fresh_store []); [reflexivity | exact I].
Defined.

(** C7 on the failing input: the record [store_memory] writes for
    ["declarative"] keeps its ttl key, holding null, where the claim has the
    key left out of the stored document. *)
Lemma store_memory_declarative_keeps_ttl_key :
  exists (w' : Cosmos) (d : Memory),
    store_memory hexA t0 "alice" "tenantA" "declarative" "is vegetarian"
                 [] (9 # 10) "said so" None fresh_store
    = (Return "mem_0123456789ab", w')
    /\ memories_container w' = Some [d]
    /\ e_memoryType d = "declarative"
    /\ e_ttl d = Null
    /\ e_ttl d <> Undefined.
Proof.
  eexists; eexists. split; [cbv; reflexivity|].
  split; [reflexivity|]. split; [reflexivity|].
  split; [reflexivity | discriminate].
Qed.

(** ** Session lookup *)

Lemma filter_head (D : Type) (f : D -> bool) (l : list D) :
  match filter f l with
  | [] => forall x, In x l -> f x = false
  | x :: _ => In x l /\ f x = true
  end.
Proof.
  destruct (filter f l) as [|x t] eqn:E.
  - intros x Hx. destruct (f x) eqn:F; [|reflexivity].
    assert (H : In x (filter f l)) by (apply filter_In; split; assumption).
    rewrite E in H. destruct H.
  - apply filter_In. rewrite E. now left.
Qed.

Lemma filter_find (D : Type) (f : D -> bool) (l : list D) :
  find f l = match filter f l with
             | [] => None
             | x :: _ => Some x
             end.
Proof.
  induction l as [|x t IH]; simpl; [reflexivity|].
  destruct (f x); [reflexivity | exact IH].
Qed.

Lemma filter_first_split (D : Type) (f : D -> bool) (l : list D) (x : D)
    (t : list D) :
  filter f l = x :: t ->
  exists before after,
    l = (before ++ x :: after)%list
    /\ forall y, In y before -> f y = false.
Proof.
  induction l as [|y u IH]; simpl; [discriminate|].
  destruct (f y) eqn:F.
  - intros [= -> _]. exists [], u. split; [reflexivity | intros z []].
  - intros H. destruct (IH H) as (b & a & -> & Hb).
    exists (y :: b), a. split; [reflexivity|].
    intros z [<-|Hz]; [exact F | apply Hb, Hz].
Qed.

(** C9, as amended: [get_session_by_id] raises only when the sessions
    container was never initialised.  With a container, a lookup that
    matches no session returns [None], a lookup that matches returns the
    first match, the matching session that no other matching session
    precedes in the store, and a store failure during the query is caught,
    logged and returns [None] as well: the caller sees the same absent value
    for "not found" and for "could not tell". *)
Theorem get_session_by_id_outcomes :
  forall (session_id tenant_id user_id : string) (w : Cosmos),
    (sessions_container w = None ->
     get_session_by_id session_id tenant_id user_id w
     = (Raise CosmosNotAvailable, w))
    /\ (next_call_ok w ->
        (forall s, In s (stored_sessions w) ->
                   ~ (s_sessionId s = session_id /\ s_tenantId s = tenant_id
                      /\ s_userId s = user_id)) ->
        sessions_container w <> None ->
        fst (get_session_by_id session_id tenant_id user_id w) = Return None)
    /\ (next_call_ok w ->
        forall r, fst (get_session_by_id session_id tenant_id user_id w)
                  = Return (Some r) ->
                  In r (stored_sessions w) /\ s_sessionId r = session_id
                  /\ s_tenantId r = tenant_id /\ s_userId r = user_id)
    /\ (next_call_fails w ->
        sessions_container w <> None ->
        fst (get_session_by_id session_id tenant_id user_id w) = Return None
        /\ log (snd (get_session_by_id session_id tenant_id user_id w))
           = (log w ++ ["Error getting session"])%list)
    /\ (next_call_ok w ->
        forall s, In s (stored_sessions w) ->
                  s_sessionId s = session_id -> s_tenantId s = tenant_id ->
                  s_userId s = user_id ->
                  exists r, fst (get_session_by_id session_id tenant_id
                                                   user_id w)
                            = Return (Some r))
    /\ (next_call_ok w ->
        forall r, fst (get_session_by_id session_id tenant_id user_id w)
                  = Return (Some r) ->
                  exists before after,
                    stored_sessions w = (before ++ r :: after)%list
                    /\ forall s, In s before ->
                                 ~ (s_sessionId s = session_id
                                    /\ s_tenantId s = tenant_id
                                    /\ s_userId s = user_id))
    /\ (next_call_ok w ->
        sessions_container w <> None ->
        fst (get_session_by_id session_id tenant_id user_id w)
        = Return (find (session_matches session_id tenant_id user_id)
                       (stored_sessions w))).
Proof.
  intros session_id tenant_id user_id w.
  unfold next_call_fails, stored_sessions. split_world w.
  unfold get_session_by_id. run.
  destruct ss as [l|]; simpl.
  2:{ repeat split; try congruence; try tauto.
      all: intros _ r; destruct o as [|[] t]; discriminate. }
  set (f := fun c : Session =>
              (s_sessionId c =s? session_id) && (s_tenantId c =s? tenant_id)
              && (s_userId c =s? user_id)).
  pose proof (filter_head f l) as Hf.
  split; [discriminate|].
  split; [|split; [|split; [|split; [|split]]]].
  - intros Hok Hnone _.
    assert (E : filter f l = []).
    { destruct (filter f l) as [|x t]; [reflexivity|].
      destruct Hf as [Hin Hx]. exfalso. apply (Hnone x Hin).
      unfold f in Hx. rewrite !andb_true_iff, !String.eqb_eq in Hx. tauto. }
    destruct o as [|[] t]; simpl; try contradiction; rewrite E; reflexivity.
  - intros Hok r Hr.
    assert (E : exists t, filter f l = r :: t).
    { destruct o as [|[] t]; simpl in Hr; try contradiction;
        destruct (filter f l) as [|x u]; simpl in Hr; try discriminate;
        injection Hr as ->; now exists u. }
    destruct E as [t E]. rewrite E in Hf. destruct Hf as [Hin Hx].
    unfold f in Hx. rewrite !andb_true_iff, !String.eqb_eq in Hx. tauto.
  - intros Hfail _. destruct o as [|[] t]; simpl; try contradiction.
    split; reflexivity.
  - intros Hok s Hin H1 H2 H3.
    assert (Hs : In s (filter f l)).
    { apply filter_In. split; [exact Hin|]. unfold f.
      rewrite H1, H2, H3, !String.eqb_refl. reflexivity. }
    destruct (filter f l) as [|x u]; [destruct Hs|].
    exists x. destruct o as [|[] t]; simpl; try contradiction; reflexivity.
  - intros Hok r Hr.
    assert (E : exists t, filter f l = r :: t).
    { destruct o as [|[] t]; simpl in Hr; try contradiction;
        destruct (filter f l) as [|x u]; simpl in Hr; try discriminate;
        injection Hr as ->; now exists u. }
    destruct E as [t E].
    destruct (filter_first_split f l E) as (b & a & -> & Hb).
    exists b, a. split; [reflexivity|].
    intros s Hs (H1 & H2 & H3). specialize (Hb s Hs). unfold f in Hb.
    rewrite H1, H2, H3, !String.eqb_refl in Hb. discriminate.
  - intros Hok _. fold f. change (session_matches session_id tenant_id
                                                  user_id) with f.
    rewrite filter_find.
    destruct o as [|[] t]; simpl; try contradiction;
      destruct (filter f l); reflexivity.
Qed.

Lemma get_session_by_id_outcomes_witness :
  get_session_by_id "session_1" "tenantA" "alice" no_handles
  = (Raise CosmosNotAvailable, no_handles)
  /\ fst (get_session_by_id "session_1" "tenantA" "alice" fresh_store)
     = Return None
  /\ (fst (get_session_by_id "session_1" "tenantA" "alice"
                             (with_outages [true] store_with_session))
      = Return None
      /\ log (snd (get_session_by_id "session_1" "tenantA" "alice"
                      (with_outages [true] store_with_session)))
         = ["Error getting session"])
  /\ (exists r, fst (get_session_by_id "session_1" "tenantA" "alice"
                                       store_with_session)
                = Return (Some r))
  /\ fst (get_session_by_id "session_1" "tenantA" "alice"
                            store_with_twin_sessions)
     = Return (Some session1).
Proof.
  split; [|split; [|split; [|split]]].
  - destruct (get_session_by_id_outcomes "session_1" "tenantA" "alice"
                no_handles) as (H & _).
    apply H. reflexivity.
  - destruct (get_session_by_id_outcomes "session_1" "tenantA" "alice"
                fresh_store) as (_ & H & _).
    apply H; [exact I | intros s [] | discriminate].
  - destruct (get_session_by_id_outcomes "session_1" "tenantA" "alice"
                (with_outages [true] store_with_session))
      as (_ & _ & _ & H & _).
    apply H; [exact I | discriminate].
  - destruct (get_session_by_id_outcomes "session_1" "tenantA" "alice"
                store_with_session) as (_ & _ & _ & _ & H & _).
    apply (H I session1); [now left | reflexivity ..].
  - destruct (get_session_by_id_outcomes "session_1" "tenantA" "alice"
                store_with_twin_sessions) as (_ & _ & _ & _ & _ & _ & H).
    apply (H I). discriminate.
Defined.

(** C9, as stated, fails: with the session stored, a store failure during
    the lookup returns the same [None] as a lookup in a store that does not
    hold the session. *)
Lemma get_session_by_id_outage_reads_as_not_found :
  In session1 (stored_sessions (with_outages [true] store_with_session))
  /\ fst (get_session_by_id "session_1" "tenantA" "alice"
                            (with_outages [true] store_with_session))
     = Return None
  /\ fst (get_session_by_id "session_1" "tenantA" "alice" fresh_store)
     = Return None.
Proof.
  split; [now left|]. split; reflexivity.
Qed.

(** ** Message log: supersession and order *)

(** C4: a listing with [include_superseded = false] never contains a message
    whose [superseded] is true; a listing with [include_superseded = true]
    contains every stored message of the session, superseded or not; both
    are in descending order of [ts].  A listing is returned whenever the
    store answers the query. *)
Theorem get_session_messages_supersession :
  forall (session_id tenant_id user_id : string) (include_superseded : bool)
         (w : Cosmos),
    (next_call_ok w ->
     exists items,
       fst (get_session_messages session_id tenant_id user_id
                                 include_superseded w) = Return items)
    /\ forall items,
         fst (get_session_messages session_id tenant_id user_id
                                   include_superseded w) = Return items ->
         StronglySorted (fun a b => String.leb (m_ts b) (m_ts a) = true) items
         /\ (forall m, In m items ->
                       In m (stored_messages w) /\ m_sessionId m = session_id
                       /\ m_tenantId m = tenant_id /\ m_userId m = user_id)
         /\ (include_superseded = false ->
             forall m, m_superseded m = Value true -> ~ In m items)
         /\ (include_superseded = true ->
             messages_container w <> None ->
             forall m, In m (stored_messages w) ->
                       m_sessionId m = session_id ->
                       m_tenantId m = tenant_id ->
                       m_userId m = user_id ->
                       In m items).
Proof.
  intros session_id tenant_id user_id include_superseded w.
  unfold stored_messages, get_session_messages. split_world w. run.
  destruct ms as [l|]; simpl.
  2:{ split; [intros _; now exists []|].
      intros items [= <-]. repeat split; try constructor; try tauto.
      all: try (intros; contradiction). }
  set (f := fun c : Message =>
              (m_sessionId c =s? session_id) && (m_tenantId c =s? tenant_id)
              && (m_userId c =s? user_id)
              && (if include_superseded then true else not_superseded c)).
  split.
  - intros Hok. destruct o as [|[] t]; simpl; try contradiction;
      eexists; reflexivity.
  - intros items Hitems.
    assert (E : items = order_by ts_desc (filter f l)).
    { destruct o as [|[] t]; simpl in Hitems; congruence. }
    clear Hitems. subst items.
    assert (Hin : forall m, In m (order_by ts_desc (filter f l)) <->
                            In m l /\ f m = true).
    { intros m. rewrite order_by_In. apply filter_In. }
    split; [|split; [|split]].
    + apply (order_by_sorted ts_desc ts_desc_total ts_desc_trans).
    + intros m Hm. apply Hin in Hm. destruct Hm as [Hl Hf]. unfold f in Hf.
      rewrite !andb_true_iff, !String.eqb_eq in Hf. tauto.
    + intros -> m Hsup Hm. apply Hin in Hm. destruct Hm as [_ Hf].
      unfold f, not_superseded in Hf. rewrite Hsup in Hf.
      rewrite !andb_true_iff in Hf. destruct Hf as [_ Hf]. discriminate.
    + intros -> _ m Hl H1 H2 H3. apply Hin. split; [exact Hl|].
      unfold f. rewrite H1, H2, H3, !String.eqb_refl. reflexivity.
Qed.

Lemma get_session_messages_supersession_witness :
  (exists items,
     fst (get_session_messages "session_1" "tenantA" "alice" false
                               store_with_messages) = Return items)
  /\ ~ In (msg "msg_1" "session_1" "tenantA" "alice" t0 (Value true))
          [msg "msg_2" "session_1" "tenantA" "alice" t1 (Value false)]
  /\ In (msg "msg_1" "session_1" "tenantA" "alice" t0 (Value true))
        [msg "msg_3" "session_1" "tenantA" "alice" t2 (Value true);
         msg "msg_2" "session_1" "tenantA" "alice" t1 (Value false);
         msg "msg_1" "session_1" "tenantA" "alice" t0 (Value true)].
Proof.
  split; [|split].
  - destruct (get_session_messages_supersession "session_1" "tenantA"
                "alice" false store_with_messages) as (H & _).
    apply H. exact I.
  - destruct (get_session_messages_supersession "session_1" "tenantA"
                "alice" false store_with_messages) as (_ & H).
    destruct (H [msg "msg_2" "session_1" "tenantA" "alice" t1 (Value false)]
                eq_refl) as (_ & _ & Hex & _).
    apply (Hex eq_refl). reflexivity.
  - destruct (get_session_messages_supersession "session_1" "tenantA"
                "alice" true store_with_messages) as (_ & H).
    destruct (H [msg "msg_3" "session_1" "tenantA" "alice" t2 (Value true);
                 msg "msg_2" "session_1" "tenantA" "alice" t1 (Value false);
                 msg "msg_1" "session_1" "tenantA" "alice" t0 (Value true)]
                eq_refl) as (_ & _ & _ & Hin).
    apply (Hin eq_refl); [discriminate | now left | reflexivity ..].
Defined.

(** ** Memory store: the recency query *)

Lemma filter_map_swap (A B : Type) (g : A -> B) (f : B -> bool)
    (l : list A) :
  filter f (map g l) = map g (filter (fun a => f (g a)) l).
Proof.
  induction l as [|x t IH]; simpl; [reflexivity|].
  rewrite IH. destruct (f (g x)); reflexivity.
Qed.

Lemma insert_doc_map (A B : Type) (g : A -> B) (pa : A -> A -> bool)
    (pb : B -> B -> bool) (x : A) (l : list A) :
  (forall a b, pb (g a) (g b) = pa a b) ->
  insert_doc pb (g x) (map g l) = map g (insert_doc pa x l).
Proof.
  intros H. induction l as [|y t IH]; simpl; [reflexivity|].
  rewrite H. destruct (pa x y); simpl; [reflexivity | now rewrite IH].
Qed.

Lemma order_by_map (A B : Type) (g : A -> B) (pa : A -> A -> bool)
    (pb : B -> B -> bool) (l : list A) :
  (forall a b, pb (g a) (g b) = pa a b) ->
  order_by pb (map g l) = map g (order_by pa l).
Proof.
  intros H. induction l as [|x t IH]; simpl; [reflexivity|].
  rewrite IH. apply insert_doc_map, H.
Qed.

(** C8, as amended: for type names made of letters, digits and
    underscores, [query_memories] returns at most 5 memories of the user and
    tenant, each carrying [createdAt], with salience at least
    [min_salience] and, when [memory_types] is a non-empty list, a
    [memoryType] in that list, in descending order of [createdAt]; the
    embeddings play no part: stored under other embeddings, the same
    memories come back in the same order. *)
Theorem query_memories_recency_filter :
  forall (user_id tenant_id : string) (memory_types : option (list string))
         (min_salience : Q) (w : Cosmos),
    plain_names memory_types = true ->
    (forall items,
       fst (query_memories user_id tenant_id memory_types min_salience w)
       = Return items ->
       (List.length items <= 5)%nat
       /\ (forall e, In e items ->
                     In e (stored_memories w) /\ e_userId e = user_id
                     /\ e_tenantId e = tenant_id
                     /\ (min_salience <= e_salience e)%Q
                     /\ has_createdAt e = true)
       /\ (forall types, memory_types = Some types -> types <> [] ->
                         forall e, In e items -> In (e_memoryType e) types)
       /\ StronglySorted
            (fun a b => field_leb (e_createdAt b) (e_createdAt a) = true)
            items)
    /\ forall (g : Memory -> option (list Q)) (l : list Memory),
         memories_container w = Some l ->
         fst (query_memories user_id tenant_id memory_types min_salience
                             (with_memories (map (reembed g) l) w))
         = map_outcome (map (reembed g))
             (fst (query_memories user_id tenant_id memory_types
                                  min_salience w)).
Proof.
  intros user_id tenant_id memory_types min_salience w _.
  unfold stored_memories, query_memories, with_memories. split_world w. run.
  set (tf := fun c : Memory =>
               match memory_types with
               | None | Some [] => true
               | Some types => existsb (String.eqb (e_memoryType c)) types
               end).
  set (f := fun c : Memory =>
              (e_userId c =s? user_id) && (e_tenantId c =s? tenant_id)
              && Qle_bool min_salience (e_salience c) && tf c).
  split.
  - intros items Hitems. destruct es as [l|]; simpl in *.
    2:{ injection Hitems as <-. split; [simpl; lia|].
        split; [intros e []|]. split; [intros types _ _ e [] | constructor]. }
    set (sel := firstn 5 (order_by createdAt_desc
                            (filter has_createdAt (filter f l)))).
    assert (E : items = sel).
    { destruct o as [|[] t]; simpl in Hitems; try discriminate;
        injection Hitems as <-; reflexivity. }
    clear Hitems. subst items.
    assert (Hin : forall e, In e sel ->
                            In e l /\ f e = true /\ has_createdAt e = true).
    { intros e He. apply top_In, order_by_In in He.
      apply filter_In in He. destruct He as [He Hd].
      apply filter_In in He. tauto. }
    split; [apply firstn_le_length|]. split; [|split].
    + intros e He. destruct (Hin e He) as (Hl & Hf & Hd). unfold f in Hf.
      rewrite !andb_true_iff, !String.eqb_eq, Qle_bool_iff in Hf. tauto.
    + intros types -> Hne e He. destruct (Hin e He) as (_ & Hf & _).
      unfold f, tf in Hf. rewrite !andb_true_iff in Hf.
      destruct Hf as [_ Hf]. destruct types as [|ty tys]; [congruence|].
      apply existsb_exists in Hf. destruct Hf as [x [Hx Hxe]].
      apply String.eqb_eq in Hxe. now rewrite Hxe.
    + apply firstn_sorted.
      apply (order_by_sorted createdAt_desc createdAt_desc_total
                             createdAt_desc_trans).
  - intros g l ->. simpl.
    assert (E : firstn 5 (order_by createdAt_desc
                            (filter has_createdAt
                                    (filter f (map (reembed g) l))))
                = map (reembed g)
                    (firstn 5 (order_by createdAt_desc
                                 (filter has_createdAt (filter f l))))).
    { rewrite !filter_map_swap.
      rewrite (order_by_map (reembed g) createdAt_desc createdAt_desc);
        [|reflexivity].
      rewrite firstn_map. reflexivity. }
    destruct o as [|[] t]; simpl;
      [f_equal; exact E | reflexivity | f_equal; exact E].
Qed.

Lemma query_memories_recency_filter_witness :
  let items := [mem "mem_2" "episodic" (5 # 10) (Value t2);
                mem "mem_1" "declarative" (9 # 10) (Value t0)] in
  ((List.length items <= 5)%nat
   /\ (forall e, In e items ->
                 In e (stored_memories store_with_memories)
                 /\ e_userId e = "alice" /\ e_tenantId e = "tenantA"
                 /\ (3 # 10 <= e_salience e)%Q
                 /\ has_createdAt e = true)
   /\ (forall types, Some ["declarative"; "episodic"] = Some types ->
                     types <> [] ->
                     forall e, In e items -> In (e_memoryType e) types)
   /\ StronglySorted
        (fun a b => field_leb (e_createdAt b) (e_createdAt a) = true) items)
  /\ fst (query_memories "alice" "tenantA"
            (Some ["declarative"; "episodic"]) (3 # 10)
            (with_memories
               (map (reembed (fun _ => Some [1%Q]))
                    (stored_memories store_with_memories))
               store_with_memories))
     = Return (map (reembed (fun _ => Some [1%Q])) items).
Proof.
  intros items.
  destruct (@query_memories_recency_filter "alice" "tenantA"
              (Some ["declarative"; "episodic"]) (3 # 10)
              store_with_memories eq_refl) as [H1 H2].
  split.
  - exact (H1 items eq_refl).
  - exact (H2 (fun _ => Some [1%Q]) (stored_memories store_with_memories)
              eq_refl).
Defined.

(** C8, as stated, fails when [memory_types] is given as the empty list:
    no type filter is applied, and memories of every type come back. *)
Lemma query_memories_empty_type_list_unfiltered :
  fst (query_memories "alice" "tenantA" (Some []) 0 store_with_memories)
  = Return [mem "mem_2" "episodic" (5 # 10) (Value t2);
            mem "mem_3" "procedural" (2 # 10) (Value t1);
            mem "mem_1" "declarative" (9 # 10) (Value t0)]
  /\ ~ In (e_memoryType (mem "mem_2" "episodic" (5 # 10) (Value t2))) [].
Proof.
  split; [reflexivity | intros []].
Qed.

(** ** Place discovery *)

Example normalise_scope : strip (lower "Paris ") = "paris".
Proof. reflexivity. Qed.

Lemma StronglySorted_weaken (D : Type) (R R' : D -> D -> Prop)
    (l : list D) :
  (forall a b, R a b -> R' a b) ->
  StronglySorted R l -> StronglySorted R' l.
Proof.
  intros H. induction 1 as [|x t Ht IH Hx]; constructor; [exact IH|].
  eapply Forall_impl; [|exact Hx]. intros a. apply H.
Qed.

(** C1, as amended: for a scope given in ASCII, every row [query_places]
    returns is the projection of a stored place whose [geoScopeId] is the
    lower-cased, stripped requested scope, that passes the type and price
    filters supplied, and whose VectorDistance score against the query
    vector (its cosine similarity, under the configured vector policy) is
    strictly greater than 0.075; the rows come most similar first, that is
    in descending order of the score, and there are at most 5. *)
Theorem query_places_results :
  forall (VD : list Q -> list Q -> Q) (vectors : list Q)
         (geo_scope_id : string) (place_type : option string)
         (tags dietary : option (list string)) (price_tier : option Z)
         (w : Cosmos) (rows : list PlaceRow),
    ascii_only geo_scope_id = true ->
    fst (query_places VD vectors geo_scope_id place_type tags dietary
                      price_tier w) = Return rows ->
    exists ps : list Place,
      rows = map project ps
      /\ (List.length rows <= 5)%nat
      /\ (forall r, In r rows -> r_geoScopeId r = strip (lower geo_scope_id))
      /\ (forall p, In p ps ->
                    In p (stored_places w)
                    /\ p_geoScopeId p = strip (lower geo_scope_id)
                    /\ (threshold < VD (p_embedding p) vectors)%Q
                    /\ (forall t, place_type = Some t -> t <> "" ->
                                  p_type p = t)
                    /\ (forall n, price_tier = Some n ->
                                  p_priceTier p = SInt n))
      /\ StronglySorted
           (fun a b => (VD (p_embedding b) vectors
                        <= VD (p_embedding a) vectors)%Q) ps.
Proof.
  intros VD vectors geo_scope_id place_type tags dietary price_tier w rows _.
  unfold stored_places, query_places. split_world w. run.
  destruct ps as [l|]; cbn -[places_where firstn order_by].
  2:{ intros [= <-]. exists []. split; [reflexivity|].
      split; [simpl; lia|]. split; [intros r []|].
      split; [intros p [] | constructor]. }
  set (f := places_where VD vectors (strip (lower geo_scope_id)) place_type
                         price_tier).
  set (sel := firstn 5 (order_by (by_similarity VD vectors) (filter f l))).
  remember (map project sel) as rs eqn:E.
  intros Hrows.
  assert (E' : rows = rs).
  { destruct o as [|[] t]; cbn in Hrows; try discriminate;
      destruct rs; cbn in Hrows; injection Hrows as <-; reflexivity. }
  clear Hrows. subst rs. rename E' into E.
  assert (Hin : forall p, In p sel -> In p l /\ f p = true).
  { intros p Hp. apply top_In, order_by_In in Hp. apply filter_In, Hp. }
  assert (Hgeo : forall p, In p sel ->
                           p_geoScopeId p = strip (lower geo_scope_id)).
  { intros p Hp. destruct (Hin p Hp) as [_ Hf]. unfold f, places_where in Hf.
    rewrite !andb_true_iff, String.eqb_eq in Hf. tauto. }
  exists sel. split; [exact E|]. split; [|split; [|split]].
  - subst rows. rewrite length_map. apply firstn_le_length.
  - subst rows. intros r Hr. apply in_map_iff in Hr.
    destruct Hr as [p [<- Hp]]. simpl. apply Hgeo, Hp.
  - intros p Hp. destruct (Hin p Hp) as [Hl Hf]. unfold f, places_where in Hf.
    rewrite !andb_true_iff, negb_true_iff in Hf.
    destruct Hf as [[[_ Ht] Hpr] Hd].
    split; [exact Hl|]. split; [apply Hgeo, Hp|]. split; [|split].
    + apply Qnot_le_lt. intros L. apply Qle_bool_iff in L. congruence.
    + intros t -> Hne. destruct t as [|c t]; [congruence|].
      apply String.eqb_eq, Ht.
    + intros n ->. destruct (p_priceTier p); [discriminate|].
      apply Z.eqb_eq in Hpr. now subst.
  - apply StronglySorted_weaken
      with (R := fun a b => by_similarity VD vectors a b = true).
    + intros a b. unfold by_similarity, most_similar_first,
        SIMILARITY_METRIC. apply Qle_bool_iff.
    + apply firstn_sorted.
      apply (order_by_sorted (by_similarity VD vectors)
               (@by_similarity_total VD vectors)
               (@by_similarity_trans VD vectors)).
Qed.

Lemma query_places_results_witness :
  exists ps : list Place,
    [project same_place; project close_place] = map project ps
    /\ (List.length [project same_place; project close_place] <= 5)%nat
    /\ (forall r, In r [project same_place; project close_place] ->
                  r_geoScopeId r = strip (lower " Paris "))
    /\ (forall p, In p ps ->
                  In p (stored_places store_with_unit_places)
                  /\ p_geoScopeId p = strip (lower " Paris ")
                  /\ (threshold < unit_cosine (p_embedding p) [1; 0])%Q
                  /\ (forall t, Some "restaurant" = Some t -> t <> "" ->
                                p_type p = t)
                  /\ (forall n, @None Z = Some n -> p_priceTier p = SInt n))
    /\ StronglySorted
         (fun a b => (unit_cosine (p_embedding b) [1; 0]
                      <= unit_cosine (p_embedding a) [1; 0])%Q) ps.
Proof.
  apply (@query_places_results unit_cosine [1; 0]%Q " Paris "
           (Some "restaurant") None None None store_with_unit_places
           [project same_place; project close_place]).
  - reflexivity.
  - reflexivity.
Defined.

(** C1, as stated, fails.  The embeddings and the query vector [1; 0] have
    norm 1, so the cosine similarity is the dot product.  In scope "paris"
    the query returns the place at similarity 1, then the place at
    similarity 3/5: the score of the second, 3/5, exceeds the threshold
    0.075, and so does its cosine distance 1 - 3/5.  The place left out is
    the one at similarity 0. *)
Lemma query_places_returns_beyond_threshold :
  fst (query_places unit_cosine [1; 0]%Q " Paris " None None None None
                    store_with_unit_places)
  = Return [project same_place; project close_place]
  /\ Forall (fun v => dot v v == 1)%Q
            [[1; 0]%Q; p_embedding across_place; p_embedding close_place;
             p_embedding same_place]
  /\ (unit_cosine (p_embedding close_place) [1; 0] == 3 # 5)%Q
  /\ (threshold < unit_cosine (p_embedding close_place) [1; 0])%Q
  /\ (threshold < 1 - unit_cosine (p_embedding close_place) [1; 0])%Q
  /\ In across_place (stored_places store_with_unit_places)
  /\ (unit_cosine (p_embedding across_place) [1; 0] == 0)%Q.
Proof.
  split; [reflexivity|]. split; [|split; [|split; [|split; [|split]]]].
  - repeat constructor.
  - reflexivity.
  - reflexivity.
  - reflexivity.
  - now left.
  - reflexivity.
Qed.

(** C5, as amended: a failure the store raises during the ranked query
    propagates out of [query_places], after three error records are logged;
    with an initialised container a list is returned only by a query that
    went through.  When the places container was never initialised,
    [query_places] logs an error and returns the empty list. *)
Theorem query_places_failure_modes :
  forall (VD : list Q -> list Q -> Q) (vectors : list Q)
         (geo_scope_id : string) (place_type : option string)
         (tags dietary : option (list string)) (price_tier : option Z)
         (w : Cosmos),
    (places_container w <> None -> next_call_fails w ->
     fst (query_places VD vectors geo_scope_id place_type tags dietary
                       price_tier w) = Raise StoreError
     /\ log (snd (query_places VD vectors geo_scope_id place_type tags
                               dietary price_tier w))
        = (log w ++ ["Error querying places"; "Exception type";
                     "Full traceback"])%list)
    /\ (places_container w <> None ->
        forall rows,
          fst (query_places VD vectors geo_scope_id place_type tags dietary
                            price_tier w) = Return rows ->
          next_call_ok w)
    /\ (places_container w = None ->
        fst (query_places VD vectors geo_scope_id place_type tags dietary
                          price_tier w) = Return []
        /\ log (snd (query_places VD vectors geo_scope_id place_type tags
                                  dietary price_tier w))
           = (log w ++ ["places_container is None! Cosmos DB not initialized properly."])%list).
Proof.
  intros VD vectors geo_scope_id place_type tags dietary price_tier w.
  unfold next_call_fails, query_places. split_world w. run.
  destruct ps as [l|]; cbn -[places_where firstn order_by].
  2:{ split; [congruence|]. split; [congruence|]. intros _.
      split; reflexivity. }
  split; [|split; [|discriminate]].
  - intros _ Hfail. destruct o as [|[] t]; try contradiction. cbn.
    rewrite <- !app_assoc. split; reflexivity.
  - intros _ rows Hrows. destruct o as [|[] t]; cbn in *;
      [exact I | discriminate | exact I].
Qed.

Lemma query_places_failure_modes_witness :
  (fst (query_places sq_euclid [1%Q] "paris" None None None None
                     (with_outages [true] store_with_places))
   = Raise StoreError
   /\ log (snd (query_places sq_euclid [1%Q] "paris" None None None None
                             (with_outages [true] store_with_places)))
      = ["Error querying places"; "Exception type"; "Full traceback"])
  /\ next_call_ok store_with_places
  /\ (fst (query_places sq_euclid [1%Q] "paris" None None None None
                        no_handles) = Return []
      /\ log (snd (query_places sq_euclid [1%Q] "paris" None None None None
                                no_handles))
         = ["places_container is None! Cosmos DB not initialized properly."]).
Proof.
  split; [|split].
  - destruct (query_places_failure_modes sq_euclid [1%Q] "paris" None None
                None None (with_outages [true] store_with_places))
      as (H & _).
    apply H; [discriminate | exact I].
  - destruct (query_places_failure_modes sq_euclid [1%Q] "paris" None None
                None None store_with_places) as (_ & H & _).
    apply (H ltac:(discriminate) [project far_place]). reflexivity.
  - destruct (query_places_failure_modes sq_euclid [1%Q] "paris" None None
                None None no_handles) as (_ & _ & H).
    apply H. reflexivity.
Defined.

(** C5, as stated, fails: with the places container unavailable,
    [query_places] returns the empty list, exactly what it returns when the
    catalog holds no place for the scope. *)
Lemma query_places_unavailable_reads_as_empty :
  places_container no_handles = None
  /\ fst (query_places sq_euclid [1%Q] "paris" None None None None
                       no_handles) = Return []
  /\ fst (query_places sq_euclid [1%Q] "tokyo" None None None None
                       store_with_places) = Return [].
Proof.
  split; [reflexivity|]. split; reflexivity.
Qed.

(** ** Appending a message and touching the session *)

(** What [update_session_activity] does suppress: a missing sessions
    container, a failed lookup and an unknown session all leave the append
    untouched. *)
Lemma update_session_activity_skips (now session_id tenant_id user_id : string)
    (w : Cosmos) :
  sessions_container w = None
  \/ next_call_fails w
  \/ (forall s, In s (stored_sessions w) -> s_sessionId s <> session_id) ->
  fst (update_session_activity now session_id tenant_id user_id w)
  = Return tt.
Proof.
  unfold next_call_fails, stored_sessions, update_session_activity,
    get_session_by_id.
  split_world w. run. destruct ss as [l|]; simpl; [|reflexivity].
  intros [H|[H|H]]; [discriminate| |].
  - destruct o as [|[] t]; simpl; try contradiction. reflexivity.
  - pose proof (filter_head
                  (fun c : Session =>
                     (s_sessionId c =s? session_id)
                     && (s_tenantId c =s? tenant_id)
                     && (s_userId c =s? user_id)) l) as Hf.
    destruct (filter _ l) as [|x u].
    + destruct o as [|[] t]; reflexivity.
    + exfalso. destruct Hf as [Hin Hx]. apply (H x Hin).
      rewrite !andb_true_iff, !String.eqb_eq in Hx. tauto.
Qed.

(** C6 on the failing input: the message write and the session lookup go
    through, the session write raises.  [append_message] raises the store's
    error instead of returning the message id, although the message is
    stored. *)
Lemma append_message_raises_on_session_write :
  let w := with_outages [false; false; true] store_with_session in
  let r := append_message hexA t1 t2 "session_1" "tenantA" "alice" "user"
                          "a weekend in Lisbon?" None None None w in
  fst r = Raise StoreError
  /\ (exists m, stored_messages (snd r) = [m]
                /\ m_messageId m = "msg_0123456789ab"
                /\ m_superseded m = Value false)
  /\ log (snd r) = [].
Proof.
  cbv zeta. split; [reflexivity|]. split; [|reflexivity].
  eexists. split; [vm_compute; reflexivity|]. split; reflexivity.
Qed.

(** ** Summaries and supersession *)

Lemma only_messages_touched_refl (w : Cosmos) : only_messages_touched w w.
Proof. unfold only_messages_touched. tauto. Qed.

Lemma only_messages_touched_trans (a b c : Cosmos) :
  only_messages_touched a b -> only_messages_touched b c ->
  only_messages_touched a c.
Proof.
  unfold only_messages_touched.
  intros (A1 & A2 & A3 & A4 & A5) (B1 & B2 & B3 & B4 & B5).
  repeat split; try congruence. intros H. apply B5, A5, H.
Qed.

(** An iteration of the marking loop never raises. *)
Lemma mark_one_total (msg_id : string) (w : Cosmos) :
  fst (mark_one msg_id w) = Return tt
  /\ only_messages_touched w (snd (mark_one msg_id w)).
Proof.
  unfold mark_one, only_messages_touched. split_world w. run.
  destruct ms as [l|]; simpl.
  2:{ repeat split; congruence. }
  destruct o as [|[] t]; simpl.
  - destruct (filter _ l) as [|x u]; simpl;
      repeat split; congruence.
  - repeat split; congruence.
  - destruct (filter _ l) as [|x u]; simpl; [repeat split; congruence|].
    destruct t as [|[] t']; simpl; repeat split; congruence.
Qed.

Lemma mark_superseded_total (ids : list string) (w : Cosmos) :
  fst (mark_superseded ids w) = Return tt
  /\ only_messages_touched w (snd (mark_superseded ids w)).
Proof.
  revert w. induction ids as [|m rest IH]; intros w; simpl.
  - split; [reflexivity | apply only_messages_touched_refl].
  - unfold bind. destruct (mark_one_total m w) as [H1 H2].
    destruct (mark_one m w) as [r w1]. simpl in *. subst r.
    destruct (IH w1) as [H3 H4]. split; [exact H3|].
    exact (only_messages_touched_trans H2 H4).
Qed.

Lemma mark_superseded_app (pre post : list string) (w : Cosmos) :
  snd (mark_superseded (pre ++ post) w)
  = snd (mark_superseded post (snd (mark_superseded pre w))).
Proof.
  revert w. induction pre as [|m rest IH]; intros w; simpl; [reflexivity|].
  unfold bind. destruct (mark_one_total m w) as [H1 _].
  destruct (mark_one m w) as [r w1]. simpl in *. subst r. apply IH.
Qed.

Lemma mark_superseded_cons (m : string) (post : list string) (w : Cosmos) :
  snd (mark_superseded (m :: post) w)
  = snd (mark_superseded post (snd (mark_one m w))).
Proof.
  simpl. unfold bind. destruct (mark_one_total m w) as [H1 _].
  destruct (mark_one m w) as [r w1]. simpl in *. now subst r.
Qed.

(** An iteration whose two store calls go through marks the first document
    of the container that carries the message id. *)
Lemma mark_one_marks (msg_id : string) (w : Cosmos) (l : list Message)
    (found : Message) :
  messages_container w = Some l ->
  two_calls_ok w ->
  find (fun c => m_messageId c =s? msg_id) l = Some found ->
  messages_container (snd (mark_one msg_id w))
  = Some (upsert message_key (supersede found) l).
Proof.
  unfold mark_one, two_calls_ok. split_world w. intros -> Hok Hfind.
  rewrite filter_find in Hfind. run.
  destruct (filter _ l) as [|x u]; [discriminate|].
  injection Hfind as ->.
  destruct o as [|[] [|[] t]]; simpl in *; try contradiction; reflexivity.
Qed.

(** The summary document [create_summary] builds. *)
Lemma create_summary_run (hex now session_id tenant_id user_id text : string)
    (span : string * string) (embedding : option (list Q))
    (supersedes : option (list string)) (w : Cosmos)
    (ys : list Summary) :
  summaries_container w = Some ys ->
  messages_container w <> None ->
  next_call_ok w ->
  let summary :=
    mkSummary ("summary_" +s+ hex12 hex) ("summary_" +s+ hex12 hex)
              session_id tenant_id user_id span text embedding now
              (or_empty supersedes) in
  let w0 := snd (summaries_upsert_item summary w) in
  create_summary hex now session_id tenant_id user_id text span embedding
                 supersedes w
  = (Return ("summary_" +s+ hex12 hex),
     snd (mark_superseded (or_empty supersedes) w0))
  /\ summaries_container w0 = Some (upsert summary_key summary ys)
  /\ messages_container w0 = messages_container w
  /\ outages w0 = tl (outages w).
Proof.
  intros Hys Hms Hok. split_world w. subst ys0.
  destruct ms as [l|]; [clear Hms | congruence].
  unfold create_summary. run.
  destruct o as [|[] t]; try contradiction; simpl;
    (split; [|repeat split]);
    (destruct supersedes as [ids|]; simpl; [|reflexivity]);
    match goal with
    | |- context [mark_superseded ids ?W] =>
        destruct (mark_superseded_total ids W) as [H5 _];
        destruct (mark_superseded ids W) as [r w1]; simpl in *; now subst r
    end.
Qed.

Lemma stored_messages_some (w : Cosmos) :
  messages_container w <> None ->
  messages_container w = Some (stored_messages w).
Proof.
  unfold stored_messages. destruct (messages_container w); congruence.
Qed.

(** C3: once the summary write has gone through, [create_summary] returns
    the summary id and the summary document is in the store, whatever the
    later calls do.  The loop then reaches every id of [supersedes] in turn:
    no iteration raises, and an iteration whose two store calls go through
    marks the message it finds superseded, with ttl 2592000 (30 days),
    whatever happened in the iterations before it. *)
Theorem create_summary_best_effort :
  forall (hex now session_id tenant_id user_id text : string)
         (span : string * string) (embedding : option (list Q))
         (supersedes : option (list string)) (w : Cosmos)
         (ys : list Summary),
    summaries_container w = Some ys ->
    messages_container w <> None ->
    next_call_ok w ->
    let summary :=
      mkSummary ("summary_" +s+ hex12 hex) ("summary_" +s+ hex12 hex)
                session_id tenant_id user_id span text embedding now
                (or_empty supersedes) in
    let w0 := snd (summaries_upsert_item summary w) in
    let r := create_summary hex now session_id tenant_id user_id text span
                            embedding supersedes w in
    fst r = Return ("summary_" +s+ hex12 hex)
    /\ summaries_container w0 = Some (upsert summary_key summary ys)
    /\ summaries_container (snd r) = Some (upsert summary_key summary ys)
    /\ In summary (stored_summaries (snd r))
    /\ forall (pre : list string) (m : string) (post : list string),
         or_empty supersedes = (pre ++ m :: post)%list ->
         let w1 := snd (mark_superseded pre w0) in
         let w2 := snd (mark_one m w1) in
         fst (mark_one m w1) = Return tt
         /\ snd r = snd (mark_superseded post w2)
         /\ (two_calls_ok w1 ->
             forall found,
               find (fun c => m_messageId c =s? m) (stored_messages w1)
               = Some found ->
               messages_container w2
               = Some (upsert message_key (supersede found)
                              (stored_messages w1))
               /\ In (supersede found) (stored_messages w2)
               /\ m_superseded (supersede found) = Value true
               /\ m_ttl (supersede found) = Value 2592000).
Proof.
  intros hex now session_id tenant_id user_id text span embedding supersedes
         w ys Hys Hms Hok summary w0 r.
  destruct (@create_summary_run hex now session_id tenant_id user_id text
              span embedding supersedes w ys Hys Hms Hok)
    as (Hrun & Hw0 & Hm0 & _).
  fold summary in Hrun, Hw0, Hm0. fold w0 in Hrun, Hw0, Hm0.
  fold r in Hrun.
  destruct (mark_superseded_total (or_empty supersedes) w0)
    as [_ (_ & Hfr & _)].
  assert (Hsum : summaries_container (snd r)
                 = Some (upsert summary_key summary ys)).
  { rewrite Hrun. simpl. rewrite Hfr. exact Hw0. }
  split; [rewrite Hrun; reflexivity|]. split; [exact Hw0|].
  split; [exact Hsum|]. split.
  { unfold stored_summaries. rewrite Hsum. apply upsert_In. }
  intros pre m post Hsplit w1 w2.
  split; [apply mark_one_total|]. split.
  - rewrite Hrun. simpl. rewrite Hsplit, mark_superseded_app.
    fold w1. apply mark_superseded_cons.
  - intros Hok2 found Hfound.
    assert (Hm1 : messages_container w1 = Some (stored_messages w1)).
    { apply stored_messages_some.
      destruct (mark_superseded_total pre w0) as [_ (_ & _ & _ & _ & H)].
      apply H. rewrite Hm0. exact Hms. }
    assert (Hm2 : messages_container w2
                  = Some (upsert message_key (supersede found)
                                 (stored_messages w1))).
    { apply mark_one_marks; assumption. }
    split; [exact Hm2|]. split; [|split; reflexivity].
    unfold stored_messages at 1. rewrite Hm2. apply upsert_In.
Qed.

Lemma create_summary_best_effort_witness :
  let w := with_outages [false; true] store_three_messages in
  let r := create_summary hexA t2 "session_1" "tenantA" "alice"
                          "talked about Lisbon" (t0, t1) None
                          (Some ["msg_1"; "msg_2"]) w in
  fst r = Return ("summary_" +s+ hex12 hexA)
  /\ In (supersede (msg "msg_2" "session_1" "tenantA" "alice" t1
                        (Value false)))
        (stored_messages
           (snd (mark_one "msg_2"
                   (snd (mark_superseded ["msg_1"]
                           (snd (summaries_upsert_item
                                   (mkSummary ("summary_" +s+ hex12 hexA)
                                      ("summary_" +s+ hex12 hexA)
                                      "session_1" "tenantA" "alice" (t0, t1)
                                      "talked about Lisbon" None t2
                                      ["msg_1"; "msg_2"])
                                   w))))))).
Proof.
  intros w r.
  destruct (@create_summary_best_effort hexA t2 "session_1" "tenantA"
              "alice" "talked about Lisbon" (t0, t1) None
              (Some ["msg_1"; "msg_2"]) w [] eq_refl
              ltac:(discriminate) I) as (H1 & _ & _ & _ & H4).
  split; [exact H1|].
  destruct (H4 ["msg_1"] "msg_2" [] eq_refl) as (_ & _ & Hm).
  destruct (Hm I (msg "msg_2" "session_1" "tenantA" "alice" t1 (Value false))
               eq_refl) as (_ & Hin & _).
  exact Hin.
Defined.

(** With no outage, an iteration of the loop is [mark_first] on the
    messages container. *)
Lemma mark_one_quiet (msg_id : string) (w : Cosmos) (l : list Message) :
  messages_container w = Some l ->
  outages w = [] ->
  mark_one msg_id w = (Return tt, with_messages (mark_first l msg_id) w).
Proof.
  unfold mark_one, mark_first, with_messages. split_world w.
  intros -> ->. rewrite filter_find. run.
  destruct (filter _ l) as [|x u]; reflexivity.
Qed.

Lemma mark_superseded_quiet (ids : list string) (w : Cosmos)
    (l : list Message) :
  messages_container w = Some l ->
  outages w = [] ->
  mark_superseded ids w
  = (Return tt, with_messages (fold_left mark_first ids l) w).
Proof.
  revert w l. induction ids as [|m rest IH]; intros w l Hl Ho; simpl.
  - unfold ret, with_messages. destruct w; simpl in *. now subst.
  - unfold bind. rewrite (mark_one_quiet m w Hl Ho).
    rewrite (IH (with_messages (mark_first l m) w) (mark_first l m)
                eq_refl Ho).
    reflexivity.
Qed.

(** C10: in a run without outage, the messages container [create_summary]
    leaves is the one obtained by marking, for each id of [supersedes] in
    turn, the first document of the whole container with that [messageId];
    [session_id], [tenant_id] and [user_id] play no part in the lookup.  On
    the sample store the document marked belongs to another session, tenant
    and user, and the caller's own message stays unmarked. *)
Theorem create_summary_marks_by_message_id_only :
  (forall (hex now session_id tenant_id user_id text : string)
          (span : string * string) (embedding : option (list Q))
          (supersedes : option (list string)) (w : Cosmos)
          (ys : list Summary) (l : list Message),
     summaries_container w = Some ys ->
     messages_container w = Some l ->
     outages w = [] ->
     messages_container
       (snd (create_summary hex now session_id tenant_id user_id text span
                            embedding supersedes w))
     = Some (fold_left mark_first (or_empty supersedes) l))
  /\ exists found own : Message,
       stored_messages store_with_clash = [found; own]
       /\ m_sessionId found <> "session_1"
       /\ m_tenantId found <> "tenantA"
       /\ m_userId found <> "alice"
       /\ (m_sessionId own = "session_1" /\ m_tenantId own = "tenantA"
           /\ m_userId own = "alice" /\ m_messageId own = "msg_x")
       /\ stored_messages
            (snd (create_summary hexA t2 "session_1" "tenantA" "alice"
                                 "talked about Lisbon" (t0, t1) None
                                 (Some ["msg_x"]) store_with_clash))
          = [supersede found; own]
       /\ m_superseded (supersede found) = Value true
       /\ m_ttl (supersede found) = Value 2592000
       /\ m_superseded own = Value false.
Proof.
  split.
  - intros hex now session_id tenant_id user_id text span embedding
           supersedes w ys l Hys Hl Ho.
    assert (Hms : messages_container w <> None) by congruence.
    assert (Hok : next_call_ok w) by (unfold next_call_ok; now rewrite Ho).
    destruct (@create_summary_run hex now session_id tenant_id user_id text
                span embedding supersedes w ys Hys Hms Hok)
      as (Hrun & _ & Hm0 & Ho0).
    rewrite Hrun. cbn [snd]. rewrite Hl in Hm0. rewrite Ho in Ho0.
    cbn [tl] in Ho0.
    rewrite (mark_superseded_quiet (or_empty supersedes) _ Hm0 Ho0).
    reflexivity.
  - eexists; eexists. split; [reflexivity|].
    repeat split; try discriminate; reflexivity.
Qed.

Lemma create_summary_marks_by_message_id_only_witness :
  messages_container
    (snd (create_summary hexA t2 "session_1" "tenantA" "alice"
                         "talked about Lisbon" (t0, t1) None
                         (Some ["msg_x"]) store_with_clash))
  = Some (fold_left mark_first ["msg_x"] (stored_messages store_with_clash)).
Proof.
  destruct create_summary_marks_by_message_id_only as [H _].
  exact (H hexA t2 "session_1" "tenantA" "alice" "talked about Lisbon"
           (t0, t1) None (Some ["msg_x"]) store_with_clash []
           (stored_messages store_with_clash) eq_refl eq_refl eq_refl).
Defined.

Lemma create_summary_stores (hex now session_id tenant_id user_id text : string)
    (span : string * string) (embedding : option (list Q))
    (supersedes : option (list string)) (w : Cosmos) (ys : list Summary) :
  summaries_container w = Some ys ->
  messages_container w <> None ->
  next_call_ok w ->
  let summary :=
    mkSummary ("summary_" +s+ hex12 hex) ("summary_" +s+ hex12 hex)
              session_id tenant_id user_id span text embedding now
              (or_empty supersedes) in
  let r := create_summary hex now session_id tenant_id user_id text span
                          embedding supersedes w in
  fst r = Return ("summary_" +s+ hex12 hex)
  /\ summaries_container (snd r) = Some (upsert summary_key summary ys)
  /\ messages_container (snd r) <> None.
Proof.
  intros Hys Hms Hok summary r.
  destruct (@create_summary_run hex now session_id tenant_id user_id text
              span embedding supersedes w ys Hys Hms Hok)
    as (Hrun & Hw0 & Hm0 & _).
  fold summary in Hrun, Hw0, Hm0. fold r in Hrun.
  destruct (mark_superseded_total (or_empty supersedes)
              (snd (summaries_upsert_item summary w)))
    as [_ (_ & Hfr & _ & _ & Hfm)].
  rewrite Hrun. cbn [fst snd]. split; [reflexivity|]. split.
  - rewrite Hfr. exact Hw0.
  - apply Hfm. rewrite Hm0. exact Hms.
Qed.

(** C2, as amended: [create_summary] stores the [supersedes] list it is
    given, unchanged and unchecked.  Two summaries created one after the
    other, under different ids, have disjoint [supersedes] lists exactly
    when the lists passed by the callers were disjoint. *)
Theorem create_summary_keeps_supersedes_as_given :
  forall (hex1 now1 session1 tenant1 user1 text1 : string)
         (span1 : string * string) (embedding1 : option (list Q))
         (supersedes1 : option (list string))
         (hex2 now2 session2 tenant2 user2 text2 : string)
         (span2 : string * string) (embedding2 : option (list Q))
         (supersedes2 : option (list string))
         (w : Cosmos) (ys : list Summary),
    summaries_container w = Some ys ->
    messages_container w <> None ->
    next_call_ok w ->
    let r1 := create_summary hex1 now1 session1 tenant1 user1 text1 span1
                             embedding1 supersedes1 w in
    next_call_ok (snd r1) ->
    let r2 := create_summary hex2 now2 session2 tenant2 user2 text2 span2
                             embedding2 supersedes2 (snd r1) in
    hex12 hex1 <> hex12 hex2 ->
    exists d1 d2 : Summary,
      In d1 (stored_summaries (snd r2))
      /\ In d2 (stored_summaries (snd r2))
      /\ fst r1 = Return (y_summaryId d1)
      /\ fst r2 = Return (y_summaryId d2)
      /\ y_summaryId d1 <> y_summaryId d2
      /\ y_supersedes d1 = or_empty supersedes1
      /\ y_supersedes d2 = or_empty supersedes2
      /\ ((forall m, In m (or_empty supersedes1) ->
                     ~ In m (or_empty supersedes2))
          <-> (forall m, In m (y_supersedes d1) ->
                         ~ In m (y_supersedes d2))).
Proof.
  intros hex1 now1 session1 tenant1 user1 text1 span1 embedding1 supersedes1
         hex2 now2 session2 tenant2 user2 text2 span2 embedding2 supersedes2
         w ys Hys Hms Hok r1 Hok1 r2 Hhex.
  destruct (@create_summary_stores hex1 now1 session1 tenant1 user1 text1
              span1 embedding1 supersedes1 w ys Hys Hms Hok)
    as (Hr1 & Hs1 & Hm1).
  fold r1 in Hr1, Hs1, Hm1.
  destruct (@create_summary_stores hex2 now2 session2 tenant2 user2 text2
              span2 embedding2 supersedes2 (snd r1) _ Hs1 Hm1 Hok1)
    as (Hr2 & Hs2 & _).
  fold r2 in Hr2, Hs2.
  set (d1 := mkSummary ("summary_" +s+ hex12 hex1) ("summary_" +s+ hex12 hex1)
                       session1 tenant1 user1 span1 text1 embedding1 now1
                       (or_empty supersedes1)) in *.
  set (d2 := mkSummary ("summary_" +s+ hex12 hex2) ("summary_" +s+ hex12 hex2)
                       session2 tenant2 user2 span2 text2 embedding2 now2
                       (or_empty supersedes2)) in *.
  assert (Hid : y_summaryId d1 <> y_summaryId d2).
  { simpl. intros [= E]. apply Hhex, E. }
  exists d1, d2. unfold stored_summaries. rewrite Hs2.
  split; [|split; [apply upsert_In|]].
  - apply upsert_keeps; [apply upsert_In|].
    unfold summary_key. destruct (String.eqb_spec (y_id d2) (y_id d1)) as [E|E];
      [|reflexivity].
    exfalso. apply Hid. symmetry. exact E.
  - split; [exact Hr1|]. split; [exact Hr2|]. split; [exact Hid|].
    split; [reflexivity|]. split; [reflexivity|]. simpl. tauto.
Qed.

Lemma create_summary_keeps_supersedes_as_given_witness :
  let r1 := create_summary hexA t1 "session_1" "tenantA" "alice"
                           "first part" (t0, t0) None (Some ["msg_1"])
                           store_three_messages in
  let r2 := create_summary hexB t2 "session_1" "tenantA" "alice"
                           "second part" (t1, t2) None
                           (Some ["msg_2"; "msg_3"]) (snd r1) in
  exists d1 d2 : Summary,
    In d1 (stored_summaries (snd r2))
    /\ In d2 (stored_summaries (snd r2))
    /\ fst r1 = Return (y_summaryId d1)
    /\ fst r2 = Return (y_summaryId d2)
    /\ y_summaryId d1 <> y_summaryId d2
    /\ y_supersedes d1 = ["msg_1"]
    /\ y_supersedes d2 = ["msg_2"; "msg_3"]
    /\ ((forall m, In m ["msg_1"] -> ~ In m ["msg_2"; "msg_3"])
        <-> (forall m, In m (y_supersedes d1) -> ~ In m (y_supersedes d2))).
Proof.
  intros r1 r2.
  apply (@create_summary_keeps_supersedes_as_given
           hexA t1 "session_1" "tenantA" "alice" "first part" (t0, t0) None
           (Some ["msg_1"])
           hexB t2 "session_1" "tenantA" "alice" "second part" (t1, t2) None
           (Some ["msg_2"; "msg_3"])
           store_three_messages [] eq_refl ltac:(discriminate) I I
           ltac:(discriminate)).
Defined.

(** C2, as stated, fails: two calls of [create_summary] that both list
    "msg_2" leave two distinct summary documents, each claiming "msg_2". *)
Lemma create_summary_double_claim :
  let r1 := create_summary hexA t1 "session_1" "tenantA" "alice"
                           "first part" (t0, t1) None
                           (Some ["msg_1"; "msg_2"]) store_three_messages in
  let r2 := create_summary hexB t2 "session_1" "tenantA" "alice"
                           "second part" (t1, t2) None
                           (Some ["msg_2"; "msg_3"]) (snd r1) in
  exists d1 d2 : Summary,
    fst r1 = Return (y_summaryId d1)
    /\ fst r2 = Return (y_summaryId d2)
    /\ stored_summaries (snd r2) = [d1; d2]
    /\ y_summaryId d1 <> y_summaryId d2
    /\ In "msg_2" (y_supersedes d1)
    /\ In "msg_2" (y_supersedes d2).
Proof.
  cbv zeta.
  exists (mkSummary "summary_0123456789ab" "summary_0123456789ab" "session_1"
                    "tenantA" "alice" (t0, t1) "first part" None t1
                    ["msg_1"; "msg_2"]),
         (mkSummary "summary_fedcba987654" "summary_fedcba987654" "session_1"
                    "tenantA" "alice" (t1, t2) "second part" None t2
                    ["msg_2"; "msg_3"]).
  split; [reflexivity|]. split; [reflexivity|].
  split; [reflexivity|]. split; [discriminate|].
  split; [right; now left | now left].
Qed.

(** A failed session lookup does not fail the append: the message is
    written and its id returned. *)
Lemma append_message_survives_lookup_failure :
  let w := with_outages [false; true] store_with_session in
  let r := append_message hexA t1 t2 "session_1" "tenantA" "alice" "user"
                          "a weekend in Lisbon?" None None None w in
  fst r = Return "msg_0123456789ab"
  /\ log (snd r) = ["Error getting session"]
  /\ stored_sessions (snd r) = [session1].
Proof.
  cbv zeta. repeat split.
Qed.

(** ** The scenario of the specification *)

(** Three messages appended to a fresh session, then a summary over the
    first two: the session counts three messages, the default listing holds
    the third message only, the full listing all three, newest first. *)
Example three_messages_then_summary :
  let w0 := store_with_session in
  let a1 := append_message "a1000000000000" t0 t0 "session_1" "tenantA"
                           "alice" "user" "one" None None None w0 in
  let a2 := append_message "a2000000000000" t1 t1 "session_1" "tenantA"
                           "alice" "assistant" "two" None None None
                           (snd a1) in
  let a3 := append_message "a3000000000000" t2 t2 "session_1" "tenantA"
                           "alice" "user" "three" None None None (snd a2) in
  let y := create_summary hexA t2 "session_1" "tenantA" "alice" "one, two"
                          (t0, t1) None
                          (Some ["msg_a10000000000"; "msg_a20000000000"])
                          (snd a3) in
  map s_messageCount (stored_sessions (snd y)) = [Value 3]
  /\ map_outcome (map m_messageId)
       (fst (get_session_messages "session_1" "tenantA" "alice" false
                                  (snd y)))
     = Return ["msg_a30000000000"]
  /\ map_outcome (map m_messageId)
       (fst (get_session_messages "session_1" "tenantA" "alice" true
                                  (snd y)))
     = Return ["msg_a30000000000"; "msg_a20000000000"; "msg_a10000000000"]
  /\ map y_supersedes (stored_summaries (snd y))
     = [["msg_a10000000000"; "msg_a20000000000"]].
Proof.
  cbv zeta. repeat split.
Qed.

(** * Further properties of the service *)

(** ** Sessions *)

Lemma get_session_by_id_find (session_id tenant_id user_id : string)
    (w : Cosmos) (l : list Session) :
  sessions_container w = Some l ->
  next_call_ok w ->
  fst (get_session_by_id session_id tenant_id user_id w)
  = Return (find (session_matches session_id tenant_id user_id) l).
Proof.
  unfold get_session_by_id, session_matches. split_world w. intros -> Hok.
  rewrite filter_find. run.
  destruct o as [|[] t]; simpl; try contradiction;
    destruct (filter _ l); reflexivity.
Qed.

Lemma find_none_iff (D : Type) (f : D -> bool) (l : list D) :
  (forall x, In x l -> f x = false) -> find f l = None.
Proof.
  induction l as [|y t IH]; simpl; [reflexivity|]. intros H.
  rewrite (H y (or_introl eq_refl)). apply IH. intros x Hx. apply H. now right.
Qed.

Lemma find_app_last (D : Type) (f : D -> bool) (l : list D) (d : D) :
  (forall x, In x l -> f x = false) -> f d = true ->
  find f (l ++ [d]) = Some d.
Proof.
  induction l as [|y t IH]; simpl; intros H Hd.
  - now rewrite Hd.
  - rewrite (H y (or_introl eq_refl)). apply IH; [|exact Hd].
    intros x Hx. apply H. now right.
Qed.

Lemma existsb_false (D : Type) (f : D -> bool) (l : list D) :
  (forall x, In x l -> f x = false) -> existsb f l = false.
Proof.
  induction l as [|y t IH]; simpl; [reflexivity|]. intros H.
  rewrite (H y (or_introl eq_refl)). apply IH. intros x Hx. apply H. now right.
Qed.

(** Replacing by key keeps the first match of a predicate that the key
    determines. *)
Lemma find_upsert_first (D : Type) (key : D -> D -> bool) (f : D -> bool)
    (d s : D) (l : list D) :
  (forall x, key d x = true -> f x = true) ->
  f d = true ->
  key d s = true ->
  find f l = Some s ->
  find f (upsert key d l) = Some d.
Proof.
  intros Hkey Hd Hs Hfind.
  assert (Hin : In s l) by (apply find_some in Hfind; tauto).
  unfold upsert.
  assert (E : existsb (key d) l = true).
  { apply existsb_exists. exists s. split; assumption. }
  rewrite E. clear E Hin.
  induction l as [|y t IH]; simpl in *; [discriminate|].
  destruct (f y) eqn:Fy.
  - injection Hfind as ->. rewrite Hs. simpl. now rewrite Hd.
  - destruct (key d y) eqn:Ky.
    + rewrite (Hkey y Ky) in Fy. discriminate.
    + simpl. rewrite Fy. apply IH, Hfind.
Qed.

(** X1: a session record created under an id no stored session carries is
    appended to the container with zero messages and status "active", and
    an immediate lookup by its id, tenant and user returns it. *)
Theorem create_session_record_round_trip :
  forall (hex now user_id tenant_id activeAgent : string)
         (title : option string) (w : Cosmos) (l : list Session),
    sessions_container w = Some l ->
    next_call_ok w ->
    (forall s, In s l -> s_sessionId s <> "session_" +s+ hex12 hex) ->
    let r := create_session_record hex now user_id tenant_id activeAgent
                                   title w in
    next_call_ok (snd r) ->
    exists s : Session,
      fst r = Return s
      /\ s_sessionId s = "session_" +s+ hex12 hex
      /\ s_id s = s_sessionId s
      /\ s_messageCount s = Value 0
      /\ s_status s = "active"
      /\ s_activeAgent s = Value activeAgent
      /\ s_lastActivityAt s = now /\ s_createdAt s = now
      /\ stored_sessions (snd r) = (l ++ [s])%list
      /\ fst (get_session_by_id (s_sessionId s) tenant_id user_id (snd r))
         = Return (Some s).
Proof.
  intros hex now user_id tenant_id activeAgent title w l Hl Hok Hfresh r Hok'.
  set (s := mkSession ("session_" +s+ hex12 hex) ("session_" +s+ hex12 hex)
                      tenant_id user_id
                      (match title with
                       | None | Some "" => "New Conversation"
                       | Some t => t
                       end)
                      (Value activeAgent) now now "active" (Value 0)).
  assert (Hno : forall x, In x l -> session_key s x = false).
  { intros x Hx. unfold session_key.
    destruct (String.eqb_spec (s_sessionId s) (s_sessionId x)) as [E|E].
    - exfalso. apply (Hfresh x Hx). symmetry. exact E.
    - now rewrite !andb_false_r. }
  assert (Hup : upsert session_key s l = (l ++ [s])%list).
  { unfold upsert. now rewrite (existsb_false _ _ Hno). }
  assert (Hr : fst r = Return s
               /\ sessions_container (snd r) = Some (l ++ [s])%list).
  { subst r. unfold create_session_record. split_world w. subst ss. run.
    fold s. rewrite Hup.
    destruct o as [|[] t]; simpl; try contradiction; split; reflexivity. }
  destruct Hr as [Hr1 Hr2].
  exists s. split; [exact Hr1|]. repeat (split; [reflexivity|]).
  split; [unfold stored_sessions; now rewrite Hr2|].
  rewrite (get_session_by_id_find _ _ _ _ Hr2 Hok'). f_equal.
  apply find_app_last.
  - intros x Hx. unfold session_matches.
    destruct (String.eqb_spec (s_sessionId x) (s_sessionId s)) as [E|E];
      [|reflexivity].
    exfalso. exact (Hfresh x Hx E).
  - unfold session_matches. simpl. now rewrite !String.eqb_refl.
Qed.

Lemma create_session_record_round_trip_witness :
  exists s : Session,
    fst (create_session_record hexB t1 "alice" "tenantA" "orchestrator"
                               None store_with_session) = Return s
    /\ s_sessionId s = "session_" +s+ hex12 hexB
    /\ s_id s = s_sessionId s
    /\ s_messageCount s = Value 0
    /\ s_status s = "active"
    /\ s_activeAgent s = Value "orchestrator"
    /\ s_lastActivityAt s = t1 /\ s_createdAt s = t1
    /\ stored_sessions
         (snd (create_session_record hexB t1 "alice" "tenantA"
                                     "orchestrator" None store_with_session))
       = [session1; s]
    /\ fst (get_session_by_id (s_sessionId s) "tenantA" "alice"
              (snd (create_session_record hexB t1 "alice" "tenantA"
                                          "orchestrator" None
                                          store_with_session)))
       = Return (Some s).
Proof.
  apply (@create_session_record_round_trip hexB t1 "alice" "tenantA"
           "orchestrator" None store_with_session [session1] eq_refl I);
    [|exact I].
  intros s [<-|[]]. discriminate.
Defined.

(** ** Appending messages *)

Lemma append_message_shape (hex now now_touch session_id tenant_id user_id
    role content : string) (tool_call : option string)
    (embedding : option (list Q)) (keywords : option (list string))
    (w : Cosmos) (ms : list Message) :
  messages_container w = Some ms ->
  let message :=
    mkMessage ("msg_" +s+ hex12 hex) ("msg_" +s+ hex12 hex) session_id
              tenant_id user_id role content tool_call embedding now
              (match keywords with
               | None | Some [] => []
               | Some k => k
               end)
              (Value false) Undefined in
  append_message hex now now_touch session_id tenant_id user_id role content
                 tool_call embedding keywords w
  = match messages_upsert_item message w with
    | (Return _, w1) =>
        match update_session_activity now_touch session_id tenant_id
                                      user_id w1 with
        | (Return _, w2) => (Return ("msg_" +s+ hex12 hex), w2)
        | (Raise e, w2) => (Raise e, w2)
        end
    | (Raise e, w1) => (Raise e, w1)
    end.
Proof.
  intros Hms message. unfold append_message, bind at 1, get_world.
  rewrite Hms. fold message. unfold bind, ret.
  destruct (messages_upsert_item message w) as [[u|e] w1]; [|reflexivity].
  destruct (update_session_activity _ _ _ _ w1) as [[u'|e] w2]; reflexivity.
Qed.

Lemma replace_doc_length (D : Type) (key : D -> D -> bool) (d : D)
    (l : list D) :
  List.length (replace_doc key d l) = List.length l.
Proof.
  induction l as [|y t IH]; simpl; [reflexivity|].
  destruct (key d y); simpl; [reflexivity | now rewrite IH].
Qed.

(** X2: when the store answers and the session is stored with a message
    count, [append_message] returns the new message id, the message is in
    the messages container, not superseded, and a lookup of the session
    afterwards shows the count raised by one and [lastActivityAt] set to the
    time of the touch, everything else as it was. *)
Theorem append_message_touches_session :
  forall (hex now now_touch session_id tenant_id user_id role content : string)
         (tool_call : option string) (embedding : option (list Q))
         (keywords : option (list string)) (w : Cosmos)
         (ms : list Message) (ss : list Session) (s : Session) (n : Z),
    messages_container w = Some ms ->
    sessions_container w = Some ss ->
    outages w = [] ->
    find (session_matches session_id tenant_id user_id) ss = Some s ->
    s_messageCount s = Value n ->
    let r := append_message hex now now_touch session_id tenant_id user_id
                            role content tool_call embedding keywords w in
    fst r = Return ("msg_" +s+ hex12 hex)
    /\ (exists m, In m (stored_messages (snd r))
                  /\ m_messageId m = "msg_" +s+ hex12 hex
                  /\ m_sessionId m = session_id
                  /\ m_content m = content /\ m_ts m = now
                  /\ m_superseded m = Value false)
    /\ fst (get_session_by_id session_id tenant_id user_id (snd r))
       = Return (Some (touch now_touch (n + 1) s))
    /\ List.length (stored_sessions (snd r)) = List.length ss.
Proof.
  intros hex now now_touch session_id tenant_id user_id role content
         tool_call embedding keywords w ms ss s n Hms Hss Ho Hfind Hn r.
  subst r. rewrite (append_message_shape _ _ _ _ _ _ _ _ _ _ _ _ Hms).
  split_world w. subst ms0 ss0 o.
  set (message := mkMessage _ _ _ _ _ _ _ _ _ _ _ _ _).
  assert (Hf : filter (fun c => (s_sessionId c =s? session_id)
                                && (s_tenantId c =s? tenant_id)
                                && (s_userId c =s? user_id)) ss
               = filter (session_matches session_id tenant_id user_id) ss)
    by reflexivity.
  pose proof Hfind as Hfind'. rewrite filter_find in Hfind'.
  unfold update_session_activity, get_session_by_id. run. rewrite Hf.
  destruct (filter (session_matches session_id tenant_id user_id) ss)
    as [|x u] eqn:Ef; [discriminate|].
  injection Hfind' as ->. simpl. rewrite Hn. simpl.
  split; [reflexivity|]. split; [|split].
  - exists message. split; [apply upsert_In|]. repeat split.
  - assert (Hm : session_matches session_id tenant_id user_id s = true).
    { apply find_some in Hfind. tauto. }
    change (fun c : Session =>
              (s_sessionId c =s? session_id) && (s_tenantId c =s? tenant_id)
              && (s_userId c =s? user_id))
      with (session_matches session_id tenant_id user_id).
    rewrite <- filter_find.
    rewrite (@find_upsert_first _ session_key
               (session_matches session_id tenant_id user_id)
               (touch now_touch (n + 1) s) s ss); [reflexivity| | | |].
    + intros y Hy. unfold session_key in Hy. unfold session_matches in *.
      simpl in Hy. rewrite !andb_true_iff, !String.eqb_eq in Hy.
      rewrite !andb_true_iff, !String.eqb_eq in Hm.
      destruct Hy as (((_ & H1) & H2) & H3). destruct Hm as ((H4 & H5) & H6).
      rewrite <- H1, <- H2, <- H3, H4, H5, H6, !String.eqb_refl. reflexivity.
    + exact Hm.
    + unfold session_key. simpl. now rewrite !String.eqb_refl.
    + exact Hfind.
  - assert (E : existsb (session_key (touch now_touch (n + 1) s)) ss = true).
    { apply existsb_exists. exists s. apply find_some in Hfind.
      split; [tauto|]. unfold session_key. simpl.
      now rewrite !String.eqb_refl. }
    unfold stored_sessions. simpl. unfold upsert. rewrite E.
    apply replace_doc_length.
Qed.

Lemma append_message_touches_session_witness :
  let r := append_message hexA t1 t2 "session_1" "tenantA" "alice" "user"
                          "a weekend in Lisbon?" None None None
                          store_with_session in
  fst r = Return ("msg_" +s+ hex12 hexA)
  /\ (exists m, In m (stored_messages (snd r))
                /\ m_messageId m = "msg_" +s+ hex12 hexA
                /\ m_sessionId m = "session_1"
                /\ m_content m = "a weekend in Lisbon?" /\ m_ts m = t1
                /\ m_superseded m = Value false)
  /\ fst (get_session_by_id "session_1" "tenantA" "alice" (snd r))
     = Return (Some (touch t2 (0 + 1) session1))
  /\ List.length (stored_sessions (snd r)) = List.length [session1].
Proof.
  apply (@append_message_touches_session hexA t1 t2 "session_1" "tenantA"
           "alice" "user" "a weekend in Lisbon?" None None None
           store_with_session [] [session1] session1 0
           eq_refl eq_refl eq_refl eq_refl eq_refl).
Defined.

(** X3: a session document without [messageCount] is counted from zero, so
    the touch stores the count 1; a [messageCount] holding null makes the
    touch raise TypeError and leaves the sessions container as it was. *)
Theorem update_session_activity_count_edges :
  forall (now session_id tenant_id user_id : string) (w : Cosmos)
         (ss : list Session) (s : Session),
    sessions_container w = Some ss ->
    outages w = [] ->
    find (session_matches session_id tenant_id user_id) ss = Some s ->
    let r := update_session_activity now session_id tenant_id user_id w in
    (s_messageCount s = Undefined ->
     fst r = Return tt
     /\ fst (get_session_by_id session_id tenant_id user_id (snd r))
        = Return (Some (touch now 1 s)))
    /\ (s_messageCount s = Null ->
        fst r = Raise TypeError
        /\ sessions_container (snd r) = Some ss).
Proof.
  intros now session_id tenant_id user_id w ss s Hss Ho Hfind r. subst r.
  split_world w. subst ss0 o.
  pose proof Hfind as Hfind'. rewrite filter_find in Hfind'.
  unfold update_session_activity, get_session_by_id. run.
  change (fun c : Session =>
            (s_sessionId c =s? session_id) && (s_tenantId c =s? tenant_id)
            && (s_userId c =s? user_id))
    with (session_matches session_id tenant_id user_id).
  destruct (filter (session_matches session_id tenant_id user_id) ss)
    as [|x u] eqn:Ef; [discriminate|].
  injection Hfind' as ->. simpl.
  assert (Hm : session_matches session_id tenant_id user_id s = true).
  { apply find_some in Hfind. tauto. }
  split; intros Hc; rewrite Hc; simpl; split; try reflexivity.
  rewrite <- filter_find.
  rewrite (@find_upsert_first _ session_key
             (session_matches session_id tenant_id user_id)
             (touch now 1 s) s ss); [reflexivity| | | |].
  - intros y Hy. unfold session_key in Hy. unfold session_matches in *.
    simpl in Hy. rewrite !andb_true_iff, !String.eqb_eq in Hy.
    rewrite !andb_true_iff, !String.eqb_eq in Hm.
    destruct Hy as (((_ & H1) & H2) & H3). destruct Hm as ((H4 & H5) & H6).
    rewrite <- H1, <- H2, <- H3, H4, H5, H6, !String.eqb_refl. reflexivity.
  - exact Hm.
  - unfold session_key. simpl. now rewrite !String.eqb_refl.
  - exact Hfind.
Qed.

Lemma update_session_activity_count_edges_witness :
  (fst (update_session_activity t2 "session_2" "tenantA" "alice"
                                store_with_sessions) = Return tt
   /\ fst (get_session_by_id "session_2" "tenantA" "alice"
             (snd (update_session_activity t2 "session_2" "tenantA" "alice"
                                           store_with_sessions)))
      = Return (Some (touch t2 1 session_without_count)))
  /\ (fst (update_session_activity t2 "session_3" "tenantA" "alice"
                                   store_with_sessions) = Raise TypeError
      /\ sessions_container
           (snd (update_session_activity t2 "session_3" "tenantA" "alice"
                                         store_with_sessions))
         = Some [session1; session_without_count; session_null_count]).
Proof.
  split.
  - destruct (@update_session_activity_count_edges t2 "session_2" "tenantA"
                "alice" store_with_sessions _ session_without_count
                eq_refl eq_refl eq_refl) as [H _].
    apply H. reflexivity.
  - destruct (@update_session_activity_count_edges t2 "session_3" "tenantA"
                "alice" store_with_sessions _ session_null_count
                eq_refl eq_refl eq_refl) as [_ H].
    apply H. reflexivity.
Defined.

(** X4: [append_message] makes no check that the session exists.  With no
    stored session of that id, and whatever the store does after the
    message write, the message is written, its id is returned and the
    sessions container is left as it was. *)
Theorem append_message_unknown_session :
  forall (hex now now_touch session_id tenant_id user_id role content : string)
         (tool_call : option string) (embedding : option (list Q))
         (keywords : option (list string)) (w : Cosmos)
         (ms : list Message),
    messages_container w = Some ms ->
    next_call_ok w ->
    (forall s, In s (stored_sessions w) -> s_sessionId s <> session_id) ->
    let r := append_message hex now now_touch session_id tenant_id user_id
                            role content tool_call embedding keywords w in
    fst r = Return ("msg_" +s+ hex12 hex)
    /\ (exists m, In m (stored_messages (snd r))
                  /\ m_messageId m = "msg_" +s+ hex12 hex
                  /\ m_sessionId m = session_id)
    /\ sessions_container (snd r) = sessions_container w.
Proof.
  intros hex now now_touch session_id tenant_id user_id role content
         tool_call embedding keywords w ms Hms Hok Hnone r.
  subst r. rewrite (append_message_shape _ _ _ _ _ _ _ _ _ _ _ _ Hms).
  unfold stored_sessions in Hnone. split_world w. subst ms0.
  set (message := mkMessage _ _ _ _ _ _ _ _ _ _ _ _ _).
  unfold update_session_activity, get_session_by_id. run.
  assert (Hf : forall l : list Session,
             (forall s, In s l -> s_sessionId s <> session_id) ->
             filter (fun c => (s_sessionId c =s? session_id)
                              && (s_tenantId c =s? tenant_id)
                              && (s_userId c =s? user_id)) l = []).
  { intros l Hl. induction l as [|y t IH]; simpl; [reflexivity|].
    destruct (String.eqb_spec (s_sessionId y) session_id) as [E|E].
    - exfalso. exact (Hl y (or_introl eq_refl) E).
    - simpl. apply IH. intros s Hs. apply Hl. now right. }
  assert (Hm : In message (upsert message_key message ms))
    by apply upsert_In.
  destruct ss as [l|]; simpl.
  - destruct o as [|[] [|[] t]]; simpl; try contradiction;
      rewrite ?(Hf l Hnone); simpl;
      (split; [reflexivity|]); (split; [|reflexivity]);
      exists message; repeat split; exact Hm.
  - destruct o as [|[] t]; simpl; try contradiction;
      (split; [reflexivity|]); (split; [|reflexivity]);
      exists message; repeat split; exact Hm.
Qed.

Lemma append_message_unknown_session_witness :
  let r := append_message hexA t1 t2 "session_9" "tenantA" "alice" "user"
                          "hello" None None None
                          (with_outages [false; true] store_with_session) in
  fst r = Return ("msg_" +s+ hex12 hexA)
  /\ (exists m, In m (stored_messages (snd r))
                /\ m_messageId m = "msg_" +s+ hex12 hexA
                /\ m_sessionId m = "session_9")
  /\ sessions_container (snd r)
     = sessions_container (with_outages [false; true] store_with_session).
Proof.
  apply (@append_message_unknown_session hexA t1 t2 "session_9" "tenantA"
           "alice" "user" "hello" None None None
           (with_outages [false; true] store_with_session) [] eq_refl I).
  intros s [<-|[]]. discriminate.
Defined.

(** X5: when the message write itself fails, [append_message] raises the
    store's error and changes neither the messages nor the sessions
    container. *)
Theorem append_message_write_failure :
  forall (hex now now_touch session_id tenant_id user_id role content : string)
         (tool_call : option string) (embedding : option (list Q))
         (keywords : option (list string)) (w : Cosmos),
    messages_container w <> None ->
    next_call_fails w ->
    let r := append_message hex now now_touch session_id tenant_id user_id
                            role content tool_call embedding keywords w in
    fst r = Raise StoreError
    /\ messages_container (snd r) = messages_container w
    /\ sessions_container (snd r) = sessions_container w
    /\ log (snd r) = log w.
Proof.
  intros hex now now_touch session_id tenant_id user_id role content
         tool_call embedding keywords w Hms Hfail r. subst r.
  unfold next_call_fails in Hfail. unfold append_message. split_world w. run.
  destruct ms as [l|]; [|congruence].
  destruct o as [|[] t]; simpl in *; try contradiction. repeat split.
Qed.

Lemma append_message_write_failure_witness :
  let w := with_outages [true] store_with_session in
  let r := append_message hexA t1 t2 "session_1" "tenantA" "alice" "user"
                          "hello" None None None w in
  fst r = Raise StoreError
  /\ messages_container (snd r) = messages_container w
  /\ sessions_container (snd r) = sessions_container w
  /\ log (snd r) = log w.
Proof.
  apply (@append_message_write_failure hexA t1 t2 "session_1" "tenantA"
           "alice" "user" "hello" None None None
           (with_outages [true] store_with_session));
    [discriminate | exact I].
Defined.

(** ** What the marking loop can do to the message log *)

Lemma message_key_ident (a b : Message) :
  message_key a b = true <-> message_ident a = message_ident b.
Proof.
  unfold message_key, message_ident.
  rewrite !andb_true_iff, !String.eqb_eq. split.
  - intros (((H1 & H2) & H3) & H4). congruence.
  - intros [= H1 H2 H3 H4]. tauto.
Qed.

Lemma supersede_idem (m : Message) : supersede (supersede m) = supersede m.
Proof. reflexivity. Qed.

Lemma marked_from_refl (l : list Message) : marked_from l l.
Proof. induction l; constructor; [now left | assumption]. Qed.

Lemma marked_from_trans (a b c : list Message) :
  marked_from a b -> marked_from b c -> marked_from a c.
Proof.
  unfold marked_from. intros H. revert c.
  induction H as [|x y l l' Hxy Hl IH]; intros c Hc; inversion Hc; subst;
    constructor; [|now apply IH].
  destruct Hxy as [->| ->]; [assumption|].
  match goal with H : _ = _ \/ _ = _ |- _ => destruct H as [->| ->] end;
    right; reflexivity.
Qed.

Lemma marked_from_idents (l l' : list Message) :
  marked_from l l' -> map message_ident l' = map message_ident l.
Proof.
  induction 1 as [|x y l l' Hxy Hl IH]; simpl; [reflexivity|].
  rewrite IH. destruct Hxy as [->| ->]; reflexivity.
Qed.

Lemma replace_doc_marks (found : Message) (l : list Message) :
  NoDup (map message_ident l) ->
  In found l ->
  marked_from l (replace_doc message_key (supersede found) l).
Proof.
  induction l as [|y t IH]; simpl; intros Hnd Hin; [destruct Hin|].
  inversion Hnd as [|? ? Hy Ht]; subst.
  destruct (message_key (supersede found) y) eqn:K.
  - apply message_key_ident in K.
    constructor; [|apply marked_from_refl].
    destruct Hin as [->|Hin]; [now right|].
    exfalso. apply Hy. change (message_ident (supersede found))
      with (message_ident found) in K.
    rewrite <- K. apply in_map, Hin.
  - constructor; [now left|]. apply IH; [exact Ht|].
    destruct Hin as [->|Hin]; [|exact Hin].
    exfalso.
    assert (K' : message_key (supersede found) found = true)
      by (apply message_key_ident; reflexivity).
    congruence.
Qed.

Lemma mark_one_marked (msg_id : string) (w : Cosmos) (l : list Message) :
  messages_container w = Some l ->
  NoDup (map message_ident l) ->
  exists l', messages_container (snd (mark_one msg_id w)) = Some l'
             /\ marked_from l l'.
Proof.
  unfold mark_one. split_world w. intros -> Hnd. run.
  pose proof (filter_head (fun c => m_messageId c =s? msg_id) l) as Hf.
  assert (Hsame : exists l', Some l = Some l' /\ marked_from l l')
    by (exists l; split; [reflexivity | apply marked_from_refl]).
  destruct o as [|[] t]; simpl.
  - destruct (filter _ l) as [|x u]; simpl; [exact Hsame|].
    eexists. split; [reflexivity|]. unfold upsert.
    destruct Hf as [Hin _].
    assert (E : existsb (message_key (supersede x)) l = true).
    { apply existsb_exists. exists x. split; [exact Hin|].
      apply message_key_ident. reflexivity. }
    rewrite E. apply replace_doc_marks; assumption.
  - exact Hsame.
  - destruct (filter _ l) as [|x u]; simpl; [exact Hsame|].
    destruct t as [|[] t']; simpl; try exact Hsame;
      (eexists; split; [reflexivity|]); unfold upsert;
      destruct Hf as [Hin _];
      (assert (E : existsb (message_key (supersede x)) l = true)
        by (apply existsb_exists; exists x; split; [exact Hin|];
            apply message_key_ident; reflexivity));
      rewrite E; apply replace_doc_marks; assumption.
Qed.

Lemma mark_superseded_marked (ids : list string) (w : Cosmos)
    (l : list Message) :
  messages_container w = Some l ->
  NoDup (map message_ident l) ->
  exists l', messages_container (snd (mark_superseded ids w)) = Some l'
             /\ marked_from l l'.
Proof.
  revert w l. induction ids as [|m rest IH]; intros w l Hl Hnd.
  - exists l. split; [exact Hl | apply marked_from_refl].
  - rewrite mark_superseded_cons.
    destruct (mark_one_marked m w Hl Hnd) as (l1 & H1 & M1).
    assert (Hnd1 : NoDup (map message_ident l1))
      by (rewrite (marked_from_idents M1); exact Hnd).
    destruct (IH _ l1 H1 Hnd1) as (l2 & H2 & M2).
    exists l2. split; [exact H2 | exact (marked_from_trans M1 M2)].
Qed.

(** X6: in a message log where no two documents share id and partition
    key, whatever its arguments and whatever the store does,
    [create_summary] leaves the log with the same documents in the same
    order, each either untouched or replaced by its superseded version
    (superseded true, ttl 2592000, every other field kept): it adds no
    message, removes none, alters no content and clears no superseded
    mark. *)
Theorem create_summary_only_marks_messages :
  forall (hex now session_id tenant_id user_id text : string)
         (span : string * string) (embedding : option (list Q))
         (supersedes : option (list string)) (w : Cosmos)
         (l : list Message),
    messages_container w = Some l ->
    NoDup (map message_ident l) ->
    exists l' : list Message,
      messages_container
        (snd (create_summary hex now session_id tenant_id user_id text span
                             embedding supersedes w)) = Some l'
      /\ marked_from l l'
      /\ List.length l' = List.length l
      /\ map message_ident l' = map message_ident l
      /\ map m_content l' = map m_content l
      /\ Forall2 (fun a b => m_superseded a = Value true ->
                             m_superseded b = Value true) l l'.
Proof.
  intros hex now session_id tenant_id user_id text span embedding supersedes
         w l Hl Hnd.
  assert (H : exists l',
             messages_container
               (snd (create_summary hex now session_id tenant_id user_id
                                    text span embedding supersedes w))
             = Some l' /\ marked_from l l').
  { destruct (summaries_container w) as [ys|] eqn:Hys.
    - destruct (outages w) as [|[] t] eqn:Ho.
      + assert (Hok : next_call_ok w) by (unfold next_call_ok; now rewrite Ho).
        assert (Hms : messages_container w <> None) by congruence.
        destruct (@create_summary_run hex now session_id tenant_id user_id
                    text span embedding supersedes w ys Hys Hms Hok)
          as (Hrun & _ & Hm0 & _).
        rewrite Hrun. cbn [snd]. rewrite Hl in Hm0.
        exact (mark_superseded_marked _ _ Hm0 Hnd).
      + exists l. split; [|apply marked_from_refl].
        unfold create_summary. split_world w. subst. run. reflexivity.
      + assert (Hok : next_call_ok w) by (unfold next_call_ok; now rewrite Ho).
        assert (Hms : messages_container w <> None) by congruence.
        destruct (@create_summary_run hex now session_id tenant_id user_id
                    text span embedding supersedes w ys Hys Hms Hok)
          as (Hrun & _ & Hm0 & _).
        rewrite Hrun. cbn [snd]. rewrite Hl in Hm0.
        exact (mark_superseded_marked _ _ Hm0 Hnd).
    - exists l. split; [|apply marked_from_refl].
      unfold create_summary. split_world w. subst. run. reflexivity. }
  destruct H as (l' & Hl' & M). exists l'.
  split; [exact Hl'|]. split; [exact M|].
  split; [symmetry; exact (Forall2_length M)|].
  split; [exact (marked_from_idents M)|]. split.
  - clear -M. induction M as [|x y a b Hxy Hab IH]; simpl; [reflexivity|].
    rewrite IH. destruct Hxy as [->| ->]; reflexivity.
  - clear -M. induction M as [|x y a b Hxy Hab IH]; constructor;
      [|exact IH].
    destruct Hxy as [->| ->]; [tauto | reflexivity].
Qed.

Lemma create_summary_only_marks_messages_witness :
  exists l' : list Message,
    messages_container
      (snd (create_summary hexA t2 "session_1" "tenantA" "alice"
                           "talked about Lisbon" (t0, t1) None
                           (Some ["msg_1"; "msg_9"])
                           (with_outages [false; false; true]
                                         store_three_messages))) = Some l'
    /\ marked_from (stored_messages store_three_messages) l'
    /\ List.length l' = List.length (stored_messages store_three_messages)
    /\ map message_ident l'
       = map message_ident (stored_messages store_three_messages)
    /\ map m_content l'
       = map m_content (stored_messages store_three_messages)
    /\ Forall2 (fun a b => m_superseded a = Value true ->
                           m_superseded b = Value true)
               (stored_messages store_three_messages) l'.
Proof.
  apply (@create_summary_only_marks_messages hexA t2 "session_1" "tenantA"
           "alice" "talked about Lisbon" (t0, t1) None
           (Some ["msg_1"; "msg_9"])
           (with_outages [false; false; true] store_three_messages)
           (stored_messages store_three_messages) eq_refl).
  repeat constructor; simpl; intuition discriminate.
Defined.

(** ** Listing summaries *)

Lemma createdAt_order_total (a b : Summary) :
  String.leb (y_createdAt b) (y_createdAt a) = false ->
  String.leb (y_createdAt a) (y_createdAt b) = true.
Proof. apply string_leb_false. Qed.

Lemma createdAt_order_trans (a b c : Summary) :
  String.leb (y_createdAt b) (y_createdAt a) = true ->
  String.leb (y_createdAt c) (y_createdAt b) = true ->
  String.leb (y_createdAt c) (y_createdAt a) = true.
Proof. intros H1 H2. exact (string_leb_trans _ _ _ H2 H1). Qed.

(** X7: a summary that [create_summary] has written is found by the next
    [get_session_summaries] of its session, tenant and user, with the text
    and the [supersedes] list it was given; that listing holds summaries of
    this session only, in descending order of [createdAt]. *)
Theorem create_summary_then_listed :
  forall (hex now session_id tenant_id user_id text : string)
         (span : string * string) (embedding : option (list Q))
         (supersedes : option (list string)) (w : Cosmos)
         (ys : list Summary),
    summaries_container w = Some ys ->
    messages_container w <> None ->
    next_call_ok w ->
    let r := create_summary hex now session_id tenant_id user_id text span
                            embedding supersedes w in
    next_call_ok (snd r) ->
    exists (d : Summary) (items : list Summary),
      fst r = Return (y_summaryId d)
      /\ fst (get_session_summaries session_id tenant_id user_id (snd r))
         = Return items
      /\ In d items
      /\ y_text d = text /\ y_span d = span /\ y_createdAt d = now
      /\ y_supersedes d = or_empty supersedes
      /\ (forall x, In x items ->
                    y_sessionId x = session_id /\ y_tenantId x = tenant_id
                    /\ y_userId x = user_id)
      /\ StronglySorted
           (fun a b => String.leb (y_createdAt b) (y_createdAt a) = true)
           items.
Proof.
  intros hex now session_id tenant_id user_id text span embedding supersedes
         w ys Hys Hms Hok r Hok'.
  destruct (@create_summary_stores hex now session_id tenant_id user_id text
              span embedding supersedes w ys Hys Hms Hok)
    as (Hr & Hs & _).
  fold r in Hr, Hs.
  set (d := mkSummary ("summary_" +s+ hex12 hex) ("summary_" +s+ hex12 hex)
                      session_id tenant_id user_id span text embedding now
                      (or_empty supersedes)) in *.
  set (f := fun c : Summary =>
              (y_sessionId c =s? session_id) && (y_tenantId c =s? tenant_id)
              && (y_userId c =s? user_id)).
  set (items := order_by (fun a b => String.leb (y_createdAt b) (y_createdAt a))
                         (filter f (upsert summary_key d ys))).
  assert (Hlist : fst (get_session_summaries session_id tenant_id user_id
                                             (snd r)) = Return items).
  { destruct (snd r) as [ss ms ys' es ps o lg]. unfold next_call_ok in Hok'.
    simpl in *. subst ys'. run2.
    destruct o as [|[] t]; simpl; try contradiction; reflexivity. }
  assert (Hin : forall x, In x items <->
                          In x (upsert summary_key d ys) /\ f x = true).
  { intros x. unfold items. rewrite order_by_In. apply filter_In. }
  exists d, items. split; [exact Hr|]. split; [exact Hlist|].
  split.
  { apply Hin. split; [apply upsert_In|]. unfold f. simpl.
    now rewrite !String.eqb_refl. }
  repeat (split; [reflexivity|]). split.
  - intros x Hx. apply Hin in Hx. destruct Hx as [_ Hx]. unfold f in Hx.
    rewrite !andb_true_iff, !String.eqb_eq in Hx. tauto.
  - apply (order_by_sorted _ createdAt_order_total createdAt_order_trans).
Qed.

Lemma create_summary_then_listed_witness :
  let r := create_summary hexA t2 "session_1" "tenantA" "alice"
                          "talked about Lisbon" (t0, t1) None
                          (Some ["msg_1"; "msg_2"]) store_three_messages in
  exists (d : Summary) (items : list Summary),
    fst r = Return (y_summaryId d)
    /\ fst (get_session_summaries "session_1" "tenantA" "alice" (snd r))
       = Return items
    /\ In d items
    /\ y_text d = "talked about Lisbon" /\ y_span d = (t0, t1)
    /\ y_createdAt d = t2
    /\ y_supersedes d = ["msg_1"; "msg_2"]
    /\ (forall x, In x items ->
                  y_sessionId x = "session_1" /\ y_tenantId x = "tenantA"
                  /\ y_userId x = "alice")
    /\ StronglySorted
         (fun a b => String.leb (y_createdAt b) (y_createdAt a) = true)
         items.
Proof.
  apply (@create_summary_then_listed hexA t2 "session_1" "tenantA" "alice"
           "talked about Lisbon" (t0, t1) None (Some ["msg_1"; "msg_2"])
           store_three_messages [] eq_refl ltac:(discriminate) I I).
Defined.

(** ** Handing the session to another agent *)

Lemma set_activeAgent_key (v : string) (d : Session) :
  session_key (set_activeAgent v d) d = true.
Proof. unfold session_key. simpl. now rewrite !String.eqb_refl. Qed.

(** X8: [patch_active_agent] never raises, whatever the store does and
    whether or not the session exists; it leaves every container but the
    sessions container untouched, and the sessions container either as it
    was or with the addressed session's [activeAgent] set. *)
Theorem patch_active_agent_never_raises :
  forall (tenantId userId sessionId activeAgent : string) (w : Cosmos),
    let r := patch_active_agent tenantId userId sessionId activeAgent w in
    fst r = Return tt
    /\ messages_container (snd r) = messages_container w
    /\ summaries_container (snd r) = summaries_container w
    /\ memories_container (snd r) = memories_container w
    /\ places_container (snd r) = places_container w
    /\ (sessions_container (snd r) = sessions_container w
        \/ exists l d,
             sessions_container w = Some l
             /\ find (session_addressed sessionId tenantId userId sessionId)
                     l = Some d
             /\ sessions_container (snd r)
                = Some (upsert session_key (set_activeAgent activeAgent d)
                               l)).
Proof.
  intros tenantId userId sessionId activeAgent w r. subst r.
  split_world w. run2.
  change (fun c : Session =>
            (s_id c =s? sessionId) && (s_tenantId c =s? tenantId)
            && (s_userId c =s? userId) && (s_sessionId c =s? sessionId))
    with (session_addressed sessionId tenantId userId sessionId).
  destruct ss as [l|]; simpl; [|repeat split; now left].
  destruct (find (session_addressed sessionId tenantId userId sessionId) l)
    as [d|] eqn:Hfind.
  - assert (Hset : exists l0 d0,
               Some l = Some l0
               /\ find (session_addressed sessionId tenantId userId
                                          sessionId) l0 = Some d0
               /\ Some (upsert session_key (set_activeAgent activeAgent d) l)
                  = Some (upsert session_key
                                 (set_activeAgent activeAgent d0) l0))
      by (exists l, d; repeat split; exact Hfind).
    destruct (s_activeAgent d) eqn:Ha;
      destruct o as [|[] [|[] [|[] [|[] t]]]]; simpl;
      repeat (progress (rewrite ?Hfind, ?Ha; simpl));
      repeat split; try (now left); right; exact Hset.
  - destruct o as [|[] [|[] [|[] [|[] t]]]]; simpl;
      repeat (progress (rewrite ?Hfind; simpl));
      repeat split; now left.
Qed.

(** X9: for a stored session, when the store fails at most on the first
    read and on the patch and answers afterwards, [patch_active_agent]
    leaves the session with [activeAgent] set to the new agent, through the
    patch or through the fallback upsert, whether or not the document had
    the key before; no other field of the session changes. *)
Theorem patch_active_agent_sets_agent :
  forall (tenantId userId sessionId activeAgent : string) (w : Cosmos)
         (l : list Session) (d : Session),
    sessions_container w = Some l ->
    find (session_addressed sessionId tenantId userId sessionId) l = Some d ->
    In (outages w) [[]; [true]; [false; true]; [true; true]] ->
    let r := patch_active_agent tenantId userId sessionId activeAgent w in
    sessions_container (snd r)
    = Some (upsert session_key (set_activeAgent activeAgent d) l)
    /\ In (set_activeAgent activeAgent d) (stored_sessions (snd r))
    /\ s_activeAgent (set_activeAgent activeAgent d) = Value activeAgent
    /\ s_messageCount (set_activeAgent activeAgent d) = s_messageCount d
    /\ s_lastActivityAt (set_activeAgent activeAgent d) = s_lastActivityAt d
    /\ outages (snd r) = [].
Proof.
  intros tenantId userId sessionId activeAgent w l d Hl Hfind Ho r.
  assert (H : sessions_container (snd r)
              = Some (upsert session_key (set_activeAgent activeAgent d) l)
              /\ outages (snd r) = []).
  { subst r. split_world w. subst ss. run2.
    change (fun c : Session =>
              (s_id c =s? sessionId) && (s_tenantId c =s? tenantId)
              && (s_userId c =s? userId) && (s_sessionId c =s? sessionId))
      with (session_addressed sessionId tenantId userId sessionId).
    destruct (s_activeAgent d) eqn:Ha;
      destruct Ho as [<-|[<-|[<-|[<-|[]]]]]; simpl;
      repeat (progress (rewrite ?Hfind, ?Ha; simpl));
      split; reflexivity. }
  destruct H as [H1 H2]. split; [exact H1|]. split.
  - unfold stored_sessions. rewrite H1. apply upsert_In.
  - repeat split. exact H2.
Qed.

Lemma patch_active_agent_sets_agent_witness :
  let r := patch_active_agent "tenantA" "alice" "session_3" "hotel_agent"
                              (with_outages [false; true]
                                            store_with_sessions) in
  sessions_container (snd r)
  = Some (upsert session_key (set_activeAgent "hotel_agent"
                                              session_null_count)
                 [session1; session_without_count; session_null_count])
  /\ In (set_activeAgent "hotel_agent" session_null_count)
        (stored_sessions (snd r))
  /\ s_activeAgent (set_activeAgent "hotel_agent" session_null_count)
     = Value "hotel_agent"
  /\ s_messageCount (set_activeAgent "hotel_agent" session_null_count)
     = s_messageCount session_null_count
  /\ s_lastActivityAt (set_activeAgent "hotel_agent" session_null_count)
     = s_lastActivityAt session_null_count
  /\ outages (snd r) = [].
Proof.
  apply (@patch_active_agent_sets_agent "tenantA" "alice" "session_3"
           "hotel_agent" (with_outages [false; true] store_with_sessions)
           _ session_null_count eq_refl eq_refl).
  right; right; left; reflexivity.
Defined.

(** ** Scope normalisation in the place search *)

Lemma lower_ascii_idem (c : ascii) :
  lower_ascii (lower_ascii c) = lower_ascii c.
Proof. destruct c as [[] [] [] [] [] [] [] []]; reflexivity. Qed.

Lemma is_space_lower_ascii (c : ascii) :
  is_space (lower_ascii c) = is_space c.
Proof. destruct c as [[] [] [] [] [] [] [] []]; reflexivity. Qed.

Lemma lstrip_map_lower (l : list ascii) :
  lstrip_list (map lower_ascii l) = map lower_ascii (lstrip_list l).
Proof.
  induction l as [|c t IH]; simpl; [reflexivity|].
  rewrite is_space_lower_ascii. destruct (is_space c); [exact IH | reflexivity].
Qed.

Lemma lstrip_no_leading_space (l : list ascii) :
  no_leading_space (lstrip_list l).
Proof.
  induction l as [|c t IH]; simpl; [exact I|].
  destruct (is_space c) eqn:E; [exact IH | exact E].
Qed.

Lemma lstrip_fixed (l : list ascii) :
  no_leading_space l -> lstrip_list l = l.
Proof. destruct l as [|c t]; simpl; [reflexivity|]. now intros ->. Qed.

Lemma lstrip_snoc (a : list ascii) (c : ascii) :
  is_space c = false ->
  lstrip_list (a ++ [c]) = (lstrip_list a ++ [c])%list.
Proof.
  intros Hc. induction a as [|x t IH]; simpl; [now rewrite Hc|].
  destruct (is_space x); [exact IH | reflexivity].
Qed.

Lemma rstrip_keeps_head (l : list ascii) :
  no_leading_space l -> no_leading_space (rev (lstrip_list (rev l))).
Proof.
  destruct l as [|c t]; simpl; [intros _; exact I|]. intros Hc.
  rewrite (@lstrip_snoc (rev t) c Hc), rev_app_distr. simpl. exact Hc.
Qed.

Lemma strip_list_idem (l : list ascii) :
  let s := rev (lstrip_list (rev (lstrip_list l))) in
  rev (lstrip_list (rev (lstrip_list s))) = s.
Proof.
  intros s. subst s.
  set (y := lstrip_list l).
  assert (Hy : no_leading_space y) by apply lstrip_no_leading_space.
  rewrite (@lstrip_fixed _ (@rstrip_keeps_head y Hy)).
  rewrite rev_involutive.
  rewrite (@lstrip_fixed _ (lstrip_no_leading_space (rev y))).
  reflexivity.
Qed.

(** Normalising a scope twice is normalising it once. *)
Lemma normalise_idem (g : string) :
  strip (lower (strip (lower g))) = strip (lower g).
Proof.
  unfold strip, lower.
  rewrite !list_ascii_of_string_of_list_ascii.
  set (x := map lower_ascii (list_ascii_of_string g)).
  assert (E : map lower_ascii (rev (lstrip_list (rev (lstrip_list x))))
              = rev (lstrip_list (rev (lstrip_list x)))).
  { rewrite map_rev, <- lstrip_map_lower, map_rev, <- lstrip_map_lower.
    unfold x. rewrite map_map.
    rewrite (map_ext _ lower_ascii lower_ascii_idem). reflexivity. }
  rewrite E. f_equal. apply strip_list_idem.
Qed.

Lemma query_places_rows_scope (VD : list Q -> list Q -> Q)
    (vectors : list Q) (geo_scope_id : string) (place_type : option string)
    (tags dietary : option (list string)) (price_tier : option Z)
    (w : Cosmos) (rows : list PlaceRow) :
  fst (query_places VD vectors geo_scope_id place_type tags dietary
                    price_tier w) = Return rows ->
  forall r, In r rows -> r_geoScopeId r = strip (lower geo_scope_id).
Proof.
  unfold query_places. split_world w. run.
  destruct ps as [l|]; cbn -[places_where firstn order_by].
  2:{ intros [= <-] r []. }
  set (f := places_where VD vectors (strip (lower geo_scope_id)) place_type
                         price_tier).
  set (sel := firstn 5 (order_by (by_similarity VD vectors) (filter f l))).
  remember (map project sel) as rs eqn:E.
  intros Hrows.
  assert (E' : rows = rs).
  { destruct o as [|[] t]; cbn in Hrows; try discriminate;
      destruct rs; cbn in Hrows; injection Hrows as <-; reflexivity. }
  subst rows rs. intros r Hr. apply in_map_iff in Hr.
  destruct Hr as [p [<- Hp]]. simpl.
  apply top_In, order_by_In, filter_In in Hp. destruct Hp as [_ Hf].
  unfold f, places_where in Hf.
  rewrite !andb_true_iff, String.eqb_eq in Hf. tauto.
Qed.

(** X10: [query_places] reads the scope through its normal form only: a
    scope and its lower-cased, stripped spelling give the same answer and
    the same store state. *)
Theorem query_places_scope_insensitive :
  forall (VD : list Q -> list Q -> Q) (vectors : list Q)
         (geo_scope_id : string) (place_type : option string)
         (tags dietary : option (list string)) (price_tier : option Z)
         (w : Cosmos),
    query_places VD vectors (strip (lower geo_scope_id)) place_type tags
                 dietary price_tier w
    = query_places VD vectors geo_scope_id place_type tags dietary
                   price_tier w.
Proof.
  intros. unfold query_places. rewrite normalise_idem. reflexivity.
Qed.

(** X11: a place stored under a scope id that is not in normal form (an
    upper-case letter, a leading or trailing blank) is returned by no query,
    whatever scope is asked for. *)
Theorem query_places_skips_unnormalised_scope :
  forall (VD : list Q -> list Q -> Q) (vectors : list Q)
         (geo_scope_id : string) (place_type : option string)
         (tags dietary : option (list string)) (price_tier : option Z)
         (w : Cosmos) (rows : list PlaceRow) (p : Place),
    fst (query_places VD vectors geo_scope_id place_type tags dietary
                      price_tier w) = Return rows ->
    strip (lower (p_geoScopeId p)) <> p_geoScopeId p ->
    ~ In (project p) rows.
Proof.
  intros VD vectors geo_scope_id place_type tags dietary price_tier w rows p
         Hrows Hp Hin.
  apply (query_places_rows_scope _ _ _ _ _ _ _ _ Hrows) in Hin.
  simpl in Hin. apply Hp. rewrite Hin. apply normalise_idem.
Qed.

Lemma query_places_skips_unnormalised_scope_witness :
  ~ In (project (mkPlace "place_3" "Paris" "restaurant" "Chez Majuscule"
                         "a place to eat" [] [] "" "" (SStr "moderate")
                         (4 # 1) [2%Q]))
       [project far_place].
Proof.
  apply (@query_places_skips_unnormalised_scope sq_euclid [1%Q] "Paris" None
           None None None store_with_places [project far_place]
           (mkPlace "place_3" "Paris" "restaurant" "Chez Majuscule"
                    "a place to eat" [] [] "" "" (SStr "moderate")
                    (4 # 1) [2%Q]) eq_refl).
  discriminate.
Defined.

(** ** Storing a memory and asking for it *)

(** Whatever the store holds, the memories [query_memories] returns carry
    [createdAt]. *)
Lemma query_memories_dated (user_id tenant_id : string)
    (memory_types : option (list string)) (min_salience : Q) (w : Cosmos)
    (items : list Memory) :
  fst (query_memories user_id tenant_id memory_types min_salience w)
  = Return items ->
  forall e, In e items -> has_createdAt e = true.
Proof.
  unfold query_memories. split_world w. run.
  destruct es as [l|]; simpl.
  2:{ intros [= <-] e []. }
  intros Hitems e He.
  assert (E : items = firstn 5 (order_by createdAt_desc
                                  (filter has_createdAt
                                     (filter (memories_where user_id
                                                tenant_id memory_types
                                                min_salience) l)))).
  { destruct o as [|[] t]; simpl in Hitems; try discriminate;
      injection Hitems as <-; reflexivity. }
  subst items. apply top_In, order_by_In, filter_In in He. tauto.
Qed.

(** X12: a memory written by [store_memory] is stored with the text, type
    and salience given and without [createdAt], the key [query_memories]
    orders by; so it is returned by no [query_memories], in whatever state
    of the store and for whatever user, tenant, salience bound and plain
    type names the query is made. *)
Theorem store_memory_never_queried :
  forall (hex now user_id tenant_id memory_type text : string)
         (facets : list (string * string)) (salience : Q)
         (justification : string) (embedding : option (list Q))
         (w : Cosmos) (l : list Memory),
    memories_container w = Some l ->
    next_call_ok w ->
    let r := store_memory hex now user_id tenant_id memory_type text facets
                          salience justification embedding w in
    exists d : Memory,
      fst r = Return (e_memoryId d)
      /\ In d (stored_memories (snd r))
      /\ e_userId d = user_id /\ e_tenantId d = tenant_id
      /\ e_text d = text /\ e_memoryType d = memory_type
      /\ e_salience d = salience
      /\ e_createdAt d = Undefined
      /\ forall (user_id' tenant_id' : string)
                (memory_types : option (list string)) (min_salience : Q)
                (w' : Cosmos) (items : list Memory),
           plain_names memory_types = true ->
           fst (query_memories user_id' tenant_id' memory_types
                               min_salience w') = Return items ->
           ~ In d items.
Proof.
  intros hex now user_id tenant_id memory_type text facets salience
         justification embedding w l Hl Hok r.
  set (d := mkMemory ("mem_" +s+ hex12 hex) ("mem_" +s+ hex12 hex) user_id
                     tenant_id memory_type text facets embedding salience
                     (if memory_type =s? "episodic" then Value 7776000
                      else Null)
                     justification now now Undefined).
  assert (Hr : fst r = Return (e_memoryId d)
               /\ memories_container (snd r)
                  = Some (upsert memory_key d l)).
  { subst r. split_world w. subst es. run. fold d.
    destruct o as [|[] t]; simpl; try contradiction; split; reflexivity. }
  destruct Hr as [Hr1 Hr2].
  exists d. split; [exact Hr1|]. split.
  { unfold stored_memories. rewrite Hr2. apply upsert_In. }
  repeat (split; [reflexivity|]).
  intros user_id' tenant_id' memory_types min_salience w' items _ Hitems Hin.
  pose proof (query_memories_dated _ _ _ _ _ Hitems d Hin) as Hd.
  discriminate Hd.
Qed.

Lemma store_memory_never_queried_witness :
  let r := store_memory hexA t2 "alice" "tenantA" "declarative"
                        "is vegetarian" [] (8 # 10) "said so" None
                        store_with_memories in
  exists d : Memory,
    fst r = Return (e_memoryId d)
    /\ In d (stored_memories (snd r))
    /\ e_text d = "is vegetarian"
    /\ fst (query_memories "alice" "tenantA" (Some ["declarative"]) (5 # 10)
                           (snd r))
       = Return [mem "mem_1" "declarative" (9 # 10) (Value t0)]
    /\ ~ In d [mem "mem_1" "declarative" (9 # 10) (Value t0)].
Proof.
  intros r.
  destruct (@store_memory_never_queried hexA t2 "alice" "tenantA"
              "declarative" "is vegetarian" [] (8 # 10) "said so" None
              store_with_memories (stored_memories store_with_memories)
              eq_refl I)
    as (d & H1 & H2 & _ & _ & H3 & _ & _ & _ & H4).
  exists d. split; [exact H1|]. split; [exact H2|]. split; [exact H3|].
  split; [reflexivity|].
  apply (H4 "alice" "tenantA" (Some ["declarative"]) (5 # 10) (snd r)).
  - reflexivity.
  - reflexivity.
Defined.



(** ** The list of cities *)

Example cities_of_the_sample_catalog :
  fst (get_distinct_cities "tenantA" store_with_cities)
  = Return [mkCity "new_york" "new_york" "New York, USA";
            mkCity "paris" "paris" "Paris, France";
            mkCity "san_jose" "san_jose" "San Jose"].
Proof. reflexivity. Qed.

Lemma string_leb_total_bool (a b : string) :
  String.leb a b = false -> String.leb b a = true.
Proof. apply string_leb_false. Qed.

(** X14: [get_distinct_cities] never raises.  When the store answers, it
    lists each scope id of the catalog exactly once, in ascending order of
    the id, with [name] equal to [id]; when the store fails or the places
    container is missing it returns the empty list. *)
Theorem get_distinct_cities_listing :
  forall (tenant_id : string) (w : Cosmos),
    exists cities : list City,
      fst (get_distinct_cities tenant_id w) = Return cities
      /\ StronglySorted (fun a b => String.leb a b = true)
                        (map c_id cities)
      /\ NoDup (map c_id cities)
      /\ (forall c, In c cities ->
                    c_name c = c_id c
                    /\ exists p, In p (stored_places w)
                                 /\ p_geoScopeId p = c_id c)
      /\ (next_call_ok w ->
          forall p, In p (stored_places w) ->
                    exists c, In c cities /\ c_id c = p_geoScopeId p)
      /\ (next_call_fails w -> cities = []).
Proof.
  intros tenant_id w. unfold next_call_fails, stored_places.
  unfold get_distinct_cities, places_distinct_scopes. split_world w. run.
  assert (Hnil : exists cities : list City,
             Return (@nil City) = Return cities
             /\ StronglySorted (fun a b => String.leb a b = true)
                               (map c_id cities)
             /\ NoDup (map c_id cities)
             /\ (forall c, In c cities ->
                           c_name c = c_id c
                           /\ exists p, In p (@nil Place)
                                        /\ p_geoScopeId p = c_id c)
             /\ (True -> forall p, In p (@nil Place) ->
                                   exists c, In c cities
                                             /\ c_id c = p_geoScopeId p)
             /\ (False -> cities = [])).
  { exists []. split; [reflexivity|]. split; [constructor|].
    split; [constructor|]. split; [intros c []|].
    split; [intros _ p [] | reflexivity]. }
  destruct ps as [l|]; simpl.
  2:{ destruct o as [|[] t]; simpl.
      - exact Hnil.
      - destruct Hnil as (c & H1 & H2 & H3 & H4 & _ & _). exists c.
        injection H1 as <-. repeat split; try constructor; try tauto;
          try (intros; contradiction).
      - exact Hnil. }
  set (ids := order_by String.leb (nodup string_dec (map p_geoScopeId l))).
  set (mk := fun geo_id =>
               mkCity geo_id geo_id
                      (dict_get city_name_map geo_id
                                (title (replace_underscore geo_id)))).
  assert (Hids : map c_id (map mk ids) = ids).
  { rewrite map_map. simpl. apply map_id. }
  assert (Hin : forall g, In g ids <-> exists p, In p l /\ p_geoScopeId p = g).
  { intros g. unfold ids. rewrite order_by_In, nodup_In, in_map_iff.
    split; intros [p [H1 H2]]; exists p; tauto. }
  assert (Hgood : StronglySorted (fun a b => String.leb a b = true)
                                 (map c_id (map mk ids))
                  /\ NoDup (map c_id (map mk ids))
                  /\ (forall c, In c (map mk ids) ->
                                c_name c = c_id c
                                /\ exists p, In p l
                                             /\ p_geoScopeId p = c_id c)
                  /\ (forall p, In p l ->
                                exists c, In c (map mk ids)
                                          /\ c_id c = p_geoScopeId p)).
  { rewrite Hids. split; [|split; [|split]].
    - apply (order_by_sorted String.leb string_leb_total_bool).
      intros a b c. apply string_leb_trans.
    - apply (Permutation_NoDup
               (Permutation_sym (order_by_perm String.leb _))).
      apply NoDup_nodup.
    - intros c Hc. apply in_map_iff in Hc. destruct Hc as [g [<- Hg]].
      simpl. split; [reflexivity|]. apply Hin, Hg.
    - intros p Hp. exists (mk (p_geoScopeId p)). split; [|reflexivity].
      apply in_map. apply Hin. now exists p. }
  destruct Hgood as (G1 & G2 & G3 & G4).
  destruct o as [|[] t]; simpl.
  - exists (map mk ids). repeat split; try assumption; try tauto.
    + apply G3; assumption.
    + apply G3; assumption.
  - exists []. split; [reflexivity|]. split; [constructor|].
    split; [constructor|]. split; [intros c []|].
    split; [intros [] | reflexivity].
  - exists (map mk ids). repeat split; try assumption; try tauto.
    + apply G3; assumption.
    + apply G3; assumption.
Qed.

Lemma get_distinct_cities_listing_witness :
  exists cities : list City,
    fst (get_distinct_cities "tenantA" store_with_cities) = Return cities
    /\ (forall p, In p (stored_places store_with_cities) ->
                  exists c, In c cities /\ c_id c = p_geoScopeId p)
    /\ fst (get_distinct_cities "tenantA"
                                (with_outages [true] store_with_cities))
       = Return [].
Proof.
  destruct (get_distinct_cities_listing "tenantA" store_with_cities)
    as (cities & H1 & _ & _ & _ & H5 & _).
  exists cities. split; [exact H1|]. split; [exact (H5 I)|].
  destruct (get_distinct_cities_listing "tenantA"
              (with_outages [true] store_with_cities))
    as (none & K1 & _ & _ & _ & _ & K6).
  rewrite K1. f_equal. exact (K6 I).
Defined.

Lemma dict_get_miss (m : list (string * string)) (key default : string) :
  (forall v, ~ In (key, v) m) -> dict_get m key default = default.
Proof.
  induction m as [|[k v] t IH]; simpl; [reflexivity|]. intros H.
  destruct (String.eqb_spec k key) as [->|E].
  - exfalso. apply (H v). now left.
  - apply IH. intros v' Hv'. apply (H v'). now right.
Qed.

Lemma upper_ascii_not_underscore (c : ascii) :
  is_lower_ascii c = true -> upper_ascii c <> "_"%char.
Proof.
  destruct c as [[] [] [] [] [] [] [] []]; vm_compute; congruence.
Qed.

Lemma lower_ascii_not_underscore (c : ascii) :
  is_upper_ascii c = true -> lower_ascii c <> "_"%char.
Proof.
  destruct c as [[] [] [] [] [] [] [] []]; vm_compute; congruence.
Qed.

Lemma title_list_no_underscore (b : bool) (l : list ascii) :
  Forall (fun c => c <> "_"%char) l ->
  Forall (fun c => c <> "_"%char) (title_list b l).
Proof.
  intros H. revert b. induction H as [|c t Hc Ht IH]; intros b; simpl;
    [constructor|].
  destruct (is_lower_ascii c) eqn:L; [|destruct (is_upper_ascii c) eqn:U].
  - constructor; [|apply IH].
    destruct b; [exact Hc | exact (upper_ascii_not_underscore c L)].
  - constructor; [|apply IH].
    destruct b; [exact (lower_ascii_not_underscore c U) | exact Hc].
  - constructor; [exact Hc | apply IH].
Qed.

Lemma title_list_length (b : bool) (l : list ascii) :
  List.length (title_list b l) = List.length l.
Proof.
  revert b. induction l as [|c t IH]; intros b; simpl; [reflexivity|].
  destruct (is_lower_ascii c); [|destruct (is_upper_ascii c)]; simpl;
    now rewrite IH.
Qed.

Lemma string_length_of_list (l : list ascii) :
  String.length (string_of_list_ascii l) = List.length l.
Proof. induction l as [|c t IH]; simpl; [reflexivity | now rewrite IH]. Qed.

Lemma string_length_as_list (s : string) :
  String.length s = List.length (list_ascii_of_string s).
Proof. induction s as [|c t IH]; simpl; [reflexivity | now rewrite IH]. Qed.

(** X15: for a scope id in ASCII outside the built-in table of city names,
    the display name [get_distinct_cities] gives is the id with underscores
    turned into blanks and words capitalised: it has the length of the id
    and contains no underscore. *)
Theorem get_distinct_cities_fallback_name :
  forall (tenant_id : string) (w : Cosmos) (cities : list City) (c : City),
    fst (get_distinct_cities tenant_id w) = Return cities ->
    In c cities ->
    ascii_only (c_id c) = true ->
    (forall v, ~ In (c_id c, v) city_name_map) ->
    c_displayName c = title (replace_underscore (c_id c))
    /\ String.length (c_displayName c) = String.length (c_id c)
    /\ ~ In "_"%char (list_ascii_of_string (c_displayName c)).
Proof.
  intros tenant_id w cities c Hrun Hc _ Hmiss.
  assert (Hd : c_displayName c
               = dict_get city_name_map (c_id c)
                          (title (replace_underscore (c_id c)))).
  { revert Hrun. unfold get_distinct_cities, places_distinct_scopes.
    split_world w. run.
    destruct ps as [l|]; simpl; [|intros [= <-]; destruct Hc].
    destruct o as [|[] t]; simpl; intros [= <-]; try (destruct Hc; fail);
      apply in_map_iff in Hc; destruct Hc as [g [<- _]]; reflexivity. }
  rewrite (@dict_get_miss city_name_map (c_id c) _ Hmiss) in Hd.
  split; [exact Hd|]. rewrite Hd. unfold title, replace_underscore.
  rewrite !list_ascii_of_string_of_list_ascii. split.
  - rewrite string_length_of_list, title_list_length, length_map.
    symmetry. apply string_length_as_list.
  - intros Hin.
    assert (F : Forall (fun c => c <> "_"%char)
                  (title_list false
                     (map (fun c => if Ascii.eqb c "_" then " "%char else c)
                          (list_ascii_of_string (c_id c))))).
    { apply title_list_no_underscore. apply Forall_forall.
      intros x Hx. apply in_map_iff in Hx. destruct Hx as [y [<- _]].
      destruct (Ascii.eqb_spec y "_"); [discriminate | assumption]. }
    rewrite Forall_forall in F. exact (F _ Hin eq_refl).
Qed.

Lemma get_distinct_cities_fallback_name_witness :
  c_displayName (mkCity "san_jose" "san_jose" "San Jose")
  = title (replace_underscore "san_jose")
  /\ String.length "San Jose" = String.length "san_jose"
  /\ ~ In "_"%char (list_ascii_of_string "San Jose").
Proof.
  apply (@get_distinct_cities_fallback_name "tenantA" store_with_cities
           [mkCity "new_york" "new_york" "New York, USA";
            mkCity "paris" "paris" "Paris, France";
            mkCity "san_jose" "san_jose" "San Jose"]
           (mkCity "san_jose" "san_jose" "San Jose") eq_refl).
  - right; right; left; reflexivity.
  - reflexivity.
  - intros v Hv. simpl in Hv.
    repeat (destruct Hv as [Hv|Hv]; [discriminate|]). exact Hv.
Defined.

(** ** Trips *)

Example str_prefix_counts_characters :
  str_prefix 3 "zürich" = "zür" /\ str_prefix 3 "paris" = "par"
  /\ str_prefix 3 "ny" = "ny".
Proof. repeat split. Qed.

(** X16: the trip id is made of the year and the first three characters of
    the scope id only.  Two trips created for the same user and tenant in
    the same year, for scopes whose ids start alike, get the same id, and
    the second replaces the first: the container holds one trip under that
    id, which [get_trip] returns with the second call's scope and dates. *)
Theorem create_trip_same_prefix_overwrites :
  forall (year user_id tenant_id : string)
         (scope1 dates1 : list (string * string)) (travelers1 : list string)
         (constraints1 : list (string * string))
         (days1 : option (list (list (string * string))))
         (duration1 : option Z)
         (scope2 dates2 : list (string * string)) (travelers2 : list string)
         (constraints2 : list (string * string))
         (days2 : option (list (list (string * string))))
         (duration2 : option Z)
         (w : TripStore) (l : list Trip) (id1 id2 : string),
    trips_container w = Some l ->
    trip_outages w = [] ->
    dict_lookup scope1 "id" = Some id1 ->
    dict_lookup scope2 "id" = Some id2 ->
    str_prefix 3 id1 = str_prefix 3 id2 ->
    (forall t, In t l ->
               tr_id t <> "trip_" +s+ year +s+ "_" +s+ str_prefix 3 id1
               /\ tr_tripId t
                  <> "trip_" +s+ year +s+ "_" +s+ str_prefix 3 id1) ->
    let r1 := create_trip year user_id tenant_id scope1 dates1 travelers1
                          constraints1 days1 duration1 w in
    let r2 := create_trip year user_id tenant_id scope2 dates2 travelers2
                          constraints2 days2 duration2 (snd r1) in
    fst r1 = TReturn ("trip_" +s+ year +s+ "_" +s+ str_prefix 3 id1)
    /\ fst r2 = fst r1
    /\ exists trip2 : Trip,
         trips_container (snd r2) = Some (l ++ [trip2])%list
         /\ tr_scope trip2 = scope2
         /\ tr_dates trip2 = dates2
         /\ tr_travelers trip2 = travelers2
         /\ fst (get_trip ("trip_" +s+ year +s+ "_" +s+ str_prefix 3 id1)
                          user_id tenant_id (snd r2))
            = TReturn (Some trip2).
Proof.
  intros year user_id tenant_id scope1 dates1 travelers1 constraints1 days1
         duration1 scope2 dates2 travelers2 constraints2 days2 duration2
         w l id1 id2 Hl Ho H1 H2 Hpre Hfresh r1 r2.
  subst r1 r2. destruct w as [c o lg]. simpl in *. subst c o.
  set (tid := "trip_" +s+ year +s+ "_" +s+ str_prefix 3 id1) in *.
  assert (Hkey : forall t : Trip, tr_id t = tid ->
                                  forall x, In x l -> trip_key t x = false).
  { intros t Ht x Hx. unfold trip_key. rewrite Ht.
    destruct (String.eqb_spec tid (tr_id x)) as [E|E]; [|reflexivity].
    exfalso. apply (proj1 (Hfresh x Hx)). symmetry. exact E. }
  assert (Hrep : forall t1 t2 : Trip,
             tr_id t1 = tid -> tr_id t2 = tid -> trip_key t2 t1 = true ->
             upsert trip_key t2 (upsert trip_key t1 l) = (l ++ [t2])%list).
  { intros t1 t2 E1 E2 K. unfold upsert at 2.
    rewrite (existsb_false _ _ (Hkey t1 E1)). unfold upsert.
    assert (E : existsb (trip_key t2) (l ++ [t1]) = true).
    { apply existsb_exists. exists t1. split; [|exact K].
      apply in_or_app. right. now left. }
    rewrite E. pose proof (Hkey t2 E2) as Hno. clear -Hno K.
    induction l as [|y t IH]; simpl.
    - now rewrite K.
    - rewrite (Hno y (or_introl eq_refl)). f_equal. apply IH.
      intros x Hx. apply Hno. now right. }
  unfold create_trip. simpl. rewrite H1. simpl. rewrite H2. simpl.
  rewrite <- Hpre. fold tid.
  match goal with
  | |- context [upsert trip_key ?b (upsert trip_key ?a l)] =>
      set (trip1 := a); set (trip2 := b)
  end.
  rewrite (Hrep trip1 trip2 eq_refl eq_refl).
  2:{ unfold trip_key. simpl. now rewrite !String.eqb_refl. }
  split; [reflexivity|]. split; [reflexivity|].
  exists trip2. repeat (split; [reflexivity|]).
  unfold get_trip. simpl. f_equal. apply find_app_last.
  - intros x Hx. apply andb_false_iff. left. apply andb_false_iff. left.
    apply String.eqb_neq. exact (proj2 (Hfresh x Hx)).
  - simpl. now rewrite !String.eqb_refl.
Qed.

Lemma create_trip_same_prefix_overwrites_witness :
  let r1 := create_trip "2025" "alice" "tenantA"
                        [("id", "paris"); ("name", "Paris")]
                        [("start", "2025-05-01")] ["alice"] [] None None
                        no_trips in
  let r2 := create_trip "2025" "alice" "tenantA"
                        [("id", "paraguay"); ("name", "Paraguay")]
                        [("start", "2025-09-01")] ["alice"; "bob"] [] None
                        None (snd r1) in
  fst r1 = TReturn ("trip_" +s+ "2025" +s+ "_" +s+ str_prefix 3 "paris")
  /\ fst r2 = fst r1
  /\ exists trip2 : Trip,
       trips_container (snd r2) = Some ([] ++ [trip2])%list
       /\ tr_scope trip2 = [("id", "paraguay"); ("name", "Paraguay")]
       /\ tr_dates trip2 = [("start", "2025-09-01")]
       /\ tr_travelers trip2 = ["alice"; "bob"]
       /\ fst (get_trip ("trip_" +s+ "2025" +s+ "_"
                         +s+ str_prefix 3 "paris")
                        "alice" "tenantA" (snd r2))
          = TReturn (Some trip2).
Proof.
  apply (@create_trip_same_prefix_overwrites "2025" "alice" "tenantA"
           [("id", "paris"); ("name", "Paris")] [("start", "2025-05-01")]
           ["alice"] [] None None
           [("id", "paraguay"); ("name", "Paraguay")]
           [("start", "2025-09-01")] ["alice"; "bob"] [] None None
           no_trips [] "paris" "paraguay" eq_refl eq_refl eq_refl eq_refl
           eq_refl).
  intros t [].
Defined.

(** X17: a scope without the key "id" makes [create_trip] raise KeyError
    before anything is written.  Otherwise the trip is stored with status
    "planning"; an explicit [trip_duration] is stored as given, whatever the
    number of days, a missing one is the number of days when there are
    some, and null when there are none. *)
Theorem create_trip_edges :
  forall (year user_id tenant_id : string)
         (scope dates : list (string * string)) (travelers : list string)
         (constraints : list (string * string))
         (days : option (list (list (string * string))))
         (trip_duration : option Z) (w : TripStore) (l : list Trip),
    trips_container w = Some l ->
    let r := create_trip year user_id tenant_id scope dates travelers
                         constraints days trip_duration w in
    (dict_lookup scope "id" = None ->
     r = (TRaise (KeyError "id"), w))
    /\ (dict_lookup scope "id" <> None ->
        trip_outages w = [] ->
        exists trip : Trip,
          (exists rest, trips_container (snd r) = Some rest /\ In trip rest)
          /\ fst r = TReturn (tr_tripId trip)
          /\ tr_id trip = tr_tripId trip
          /\ tr_status trip = "planning"
          /\ (forall n, trip_duration = Some n ->
                        tr_tripDuration trip = Some n)
          /\ (trip_duration = None ->
              forall d ds, days = Some (d :: ds) ->
                           tr_tripDuration trip
                           = Some (Z.of_nat (List.length (d :: ds))))
          /\ (trip_duration = None -> days = None \/ days = Some [] ->
              tr_tripDuration trip = None /\ tr_days trip = [])).
Proof.
  intros year user_id tenant_id scope dates travelers constraints days
         trip_duration w l Hl r. subst r.
  destruct w as [c o lg]. simpl in *. subst c. unfold create_trip. simpl.
  destruct (dict_lookup scope "id") as [sid|]; split; try congruence;
    try reflexivity.
  intros _ ->. simpl.
  -
    match goal with
    | |- context [upsert trip_key ?a l] => exists a
    end.
    split; [eexists; split; [reflexivity | apply upsert_In]|].
    split; [reflexivity|]. split; [reflexivity|]. split; [reflexivity|].
    split; [|split].
    + intros n ->. reflexivity.
    + intros -> d ds ->. reflexivity.
    + intros -> [->| ->]; split; reflexivity.
Qed.

Lemma create_trip_edges_witness :
  create_trip "2025" "alice" "tenantA" [("name", "Paris")] [] [] [] None
              None no_trips
  = (TRaise (KeyError "id"), no_trips)
  /\ exists trip : Trip,
       (exists rest,
          trips_container
            (snd (create_trip "2025" "alice" "tenantA" [("id", "paris")] []
                              [] [] (Some [[]; []]) (Some 7) no_trips))
          = Some rest /\ In trip rest)
       /\ tr_status trip = "planning"
       /\ tr_tripDuration trip = Some 7.
Proof.
  split.
  - destruct (@create_trip_edges "2025" "alice" "tenantA" [("name", "Paris")]
                [] [] [] None None no_trips [] eq_refl) as [H _].
    apply H. reflexivity.
  - destruct (@create_trip_edges "2025" "alice" "tenantA" [("id", "paris")]
                [] [] [] (Some [[]; []]) (Some 7) no_trips [] eq_refl)
      as [_ H].
    destruct (H ltac:(discriminate) eq_refl)
      as (trip & Hin & _ & _ & Hst & Hdur & _).
    exists trip. split; [exact Hin|]. split; [exact Hst|].
    apply Hdur. reflexivity.
Defined.

(** X18: [get_trip] never raises: a missing trips container, a store
    failure and a lookup without match all return [None]; a trip returned
    is a stored trip with the id, user and tenant asked for. *)
Theorem get_trip_never_raises :
  forall (trip_id user_id tenant_id : string) (w : TripStore),
    exists r : option Trip,
      fst (get_trip trip_id user_id tenant_id w) = TReturn r
      /\ (forall t, r = Some t ->
                    exists l, trips_container w = Some l /\ In t l
                              /\ tr_tripId t = trip_id
                              /\ tr_userId t = user_id
                              /\ tr_tenantId t = tenant_id)
      /\ (trips_container w = None -> r = None)
      /\ (forall t, trip_outages w = true :: t -> r = None)
      /\ trips_container (snd (get_trip trip_id user_id tenant_id w))
         = trips_container w.
Proof.
  intros trip_id user_id tenant_id w. destruct w as [c o lg].
  unfold get_trip. simpl. destruct c as [l|].
  2:{ exists None. repeat split; intros; congruence. }
  destruct o as [|[] t]; simpl.
  - eexists. split; [reflexivity|]. repeat split; try congruence.
    intros x Hx. apply find_some in Hx. destruct Hx as [Hin Hx].
    rewrite !andb_true_iff, !String.eqb_eq in Hx. exists l. tauto.
  - exists None. repeat split; intros; congruence.
  - eexists. split; [reflexivity|]. repeat split; try congruence.
    intros x Hx. apply find_some in Hx. destruct Hx as [Hin Hx].
    rewrite !andb_true_iff, !String.eqb_eq in Hx. exists l. tauto.
Qed.

(** ** Loading memories from the seed file *)

Lemma prepare_memory_ttl (ep : bool) (svc : string -> option (list Q))
    (m : Memory) :
  e_ttl (prepare_memory ep svc m) <> Value (-1).
Proof.
  simpl. destruct (e_ttl m) as [| |z]; try discriminate.
  destruct z as [|p|p]; try discriminate.
  destruct p; discriminate.
Qed.

Lemma replace_doc_from (D : Type) (key : D -> D -> bool) (d : D)
    (l : list D) (x : D) :
  In x (replace_doc key d l) -> In x l \/ x = d.
Proof.
  induction l as [|y t IH]; simpl; [tauto|].
  destruct (key d y); simpl; intros [H|H]; auto.
  destruct (IH H); auto.
Qed.

Lemma upsert_from (D : Type) (key : D -> D -> bool) (d : D) (l : list D)
    (x : D) :
  In x (upsert key d l) -> In x l \/ x = d.
Proof.
  unfold upsert. destruct (existsb (key d) l).
  - apply replace_doc_from.
  - intros H. apply in_app_or in H. destruct H as [H|[H|[]]]; auto.
Qed.

Lemma seed_memories_loop_spec (ep : bool) (svc : string -> option (list Q))
    (memories : list Memory) (w : Cosmos) (l : list Memory) :
  memories_container w = Some l ->
  fst (seed_memories_loop ep svc memories w) = Return tt
  /\ exists l',
       memories_container (snd (seed_memories_loop ep svc memories w))
       = Some l'
       /\ forall e, In e l' ->
                    In e l \/ exists m, In m memories
                                        /\ e = prepare_memory ep svc m.
Proof.
  revert w l. induction memories as [|m rest IH]; intros w l Hl; simpl.
  - split; [reflexivity|]. exists l. split; [exact Hl | auto].
  - unfold bind.
    assert (H1 : exists w1 l1,
               try_except (memories_upsert_item (prepare_memory ep svc m))
                          (fun _ => ret tt) w = (Return tt, w1)
               /\ memories_container w1 = Some l1
               /\ forall e, In e l1 ->
                            In e l \/ e = prepare_memory ep svc m).
    { split_world w. subst es. run.
      destruct o as [|[] t]; simpl; eexists; eexists;
        (split; [reflexivity|]); (split; [reflexivity|]);
        intros e He; try (now left); apply upsert_from in He; exact He. }
    destruct H1 as (w1 & l1 & E1 & Hl1 & Hfrom1). rewrite E1.
    destruct (IH w1 l1 Hl1) as (Hr & l' & Hl' & Hfrom).
    split; [exact Hr|]. exists l'. split; [exact Hl'|].
    intros e He. destruct (Hfrom e He) as [H|[m' [Hm' ->]]].
    + destruct (Hfrom1 e H) as [H'| ->]; [now left|].
      right. exists m. split; [now left | reflexivity].
    + right. exists m'. split; [now right | reflexivity].
Qed.

(** X19: the loader of data/load_data.py never raises on a memory.  A dry
    run, like an empty file, leaves the container as it was.  Every
    document it writes is a memory of the file prepared for storage: with
    an embedding, and with the no-expiration value -1 taken out of [ttl];
    so a container that held no ttl of -1 holds none afterwards. *)
Theorem seed_memories_normalises_ttl :
  forall (endpoint_configured : bool)
         (embedding_service : string -> option (list Q))
         (memories : list Memory) (dry_run : bool) (w : Cosmos)
         (l : list Memory),
    memories_container w = Some l ->
    let r := seed_memories endpoint_configured embedding_service memories
                           dry_run w in
    fst r = Return tt
    /\ exists l' : list Memory,
         memories_container (snd r) = Some l'
         /\ (forall e, In e l' ->
                       In e l
                       \/ exists m, In m memories
                                    /\ e = prepare_memory endpoint_configured
                                             embedding_service m
                                    /\ e_ttl e <> Value (-1)
                                    /\ e_embedding e <> None)
         /\ (Forall (fun e => e_ttl e <> Value (-1)) l ->
             Forall (fun e => e_ttl e <> Value (-1)) l')
         /\ (dry_run = true \/ memories = [] -> snd r = w).
Proof.
  intros ep svc memories dry_run w l Hl r. subst r.
  assert (Hnop : fst (@ret unit tt w) = Return tt
                 /\ exists l', memories_container (snd (@ret unit tt w))
                               = Some l'
                    /\ (forall e, In e l' ->
                          In e l
                          \/ exists m, In m memories
                               /\ e = prepare_memory ep svc m
                               /\ e_ttl e <> Value (-1)
                               /\ e_embedding e <> None)
                    /\ (Forall (fun e => e_ttl e <> Value (-1)) l ->
                        Forall (fun e => e_ttl e <> Value (-1)) l')
                    /\ (True -> snd (@ret unit tt w) = w)).
  { split; [reflexivity|]. exists l. simpl. repeat split; auto. }
  unfold seed_memories. destruct memories as [|m0 rest].
  { destruct Hnop as (A & l' & B & C & D & E). split; [exact A|].
    exists l'. repeat split; auto. }
  destruct dry_run.
  { destruct Hnop as (A & l' & B & C & D & E). split; [exact A|].
    exists l'. repeat split; auto. }
  destruct (seed_memories_loop_spec ep svc (m0 :: rest) w Hl)
    as (Hr & l' & Hl' & Hfrom).
  split; [exact Hr|]. exists l'. split; [exact Hl'|]. split; [|split].
  - intros e He. destruct (Hfrom e He) as [H|[m [Hm ->]]]; [now left|].
    right. exists m. split; [exact Hm|]. split; [reflexivity|].
    split; [apply prepare_memory_ttl|].
    simpl. destruct (e_embedding m) as [[|q v]|]; discriminate.
  - intros Hall. apply Forall_forall. intros e He.
    destruct (Hfrom e He) as [H|[m [Hm ->]]].
    + rewrite Forall_forall in Hall. exact (Hall e H).
    + apply prepare_memory_ttl.
  - intros [H|H]; discriminate.
Qed.

Lemma seed_memories_normalises_ttl_witness :
  let r := seed_memories true (fun _ => None) [durable_seed; episodic_seed]
                         false (with_outages [true] store_with_memories) in
  fst r = Return tt
  /\ exists l' : list Memory,
       memories_container (snd r) = Some l'
       /\ Forall (fun e => e_ttl e <> Value (-1)) l'.
Proof.
  intros r.
  destruct (@seed_memories_normalises_ttl true (fun _ => None)
              [durable_seed; episodic_seed] false
              (with_outages [true] store_with_memories)
              (stored_memories store_with_memories) eq_refl)
    as (H1 & l' & H2 & _ & H4 & _).
  split; [exact H1|]. exists l'. split; [exact H2|]. apply H4.
  repeat constructor; discriminate.
Defined.

(** ** Marking twice *)

Lemma replace_doc_self (y : Message) (l : list Message) :
  NoDup (map message_ident l) -> In y l ->
  replace_doc message_key y l = l.
Proof.
  induction l as [|x t IH]; simpl; intros Hnd Hin; [reflexivity|].
  inversion Hnd as [|? ? Hx Ht]; subst.
  destruct (message_key y x) eqn:K.
  - destruct Hin as [->|Hin]; [reflexivity|].
    exfalso. apply Hx. apply message_key_ident in K. rewrite <- K.
    apply in_map, Hin.
  - f_equal. apply IH; [exact Ht|].
    destruct Hin as [->|Hin]; [|exact Hin].
    exfalso.
    assert (K' : message_key y y = true)
      by (apply message_key_ident; reflexivity).
    congruence.
Qed.

Lemma mark_first_marked (l : list Message) (m : string) :
  NoDup (map message_ident l) -> marked_from l (mark_first l m).
Proof.
  intros Hnd. unfold mark_first.
  destruct (find _ l) as [found|] eqn:Hf; [|apply marked_from_refl].
  apply find_some in Hf. destruct Hf as [Hin _]. unfold upsert.
  assert (E : existsb (message_key (supersede found)) l = true).
  { apply existsb_exists. exists found. split; [exact Hin|].
    apply message_key_ident. reflexivity. }
  rewrite E. apply replace_doc_marks; assumption.
Qed.

Lemma fold_mark_first_marked (ids : list string) (l : list Message) :
  NoDup (map message_ident l) -> marked_from l (fold_left mark_first ids l).
Proof.
  revert l. induction ids as [|m rest IH]; intros l Hnd; simpl.
  - apply marked_from_refl.
  - pose proof (@mark_first_marked l m Hnd) as M.
    apply (@marked_from_trans _ _ _ M). apply IH.
    rewrite (@marked_from_idents _ _ M). exact Hnd.
Qed.

Lemma already_marked_kept (m : string) (l l' : list Message) :
  marked_from l l' -> already_marked m l -> already_marked m l'.
Proof.
  unfold already_marked. induction 1 as [|x y a b Hxy Hab IH]; simpl;
    [intros _ z; discriminate|].
  intros H z.
  assert (Hid : m_messageId y = m_messageId x)
    by (destruct Hxy as [->| ->]; reflexivity).
  rewrite Hid. destruct (m_messageId x =s? m) eqn:E.
  - intros [= <-]. specialize (H x eq_refl).
    destruct Hxy as [->| ->]; [exact H | reflexivity].
  - apply IH. exact H.
Qed.

Lemma mark_first_marks (m : string) (l : list Message) :
  NoDup (map message_ident l) -> already_marked m (mark_first l m).
Proof.
  unfold already_marked, mark_first. intros Hnd y.
  destruct (find (fun c => m_messageId c =s? m) l) as [found|] eqn:Hf;
    [|rewrite Hf; discriminate].
  unfold upsert.
  assert (Hin : In found l) by (apply find_some in Hf; tauto).
  assert (E : existsb (message_key (supersede found)) l = true).
  { apply existsb_exists. exists found. split; [exact Hin|].
    apply message_key_ident. reflexivity. }
  rewrite E. clear E Hin. revert Hnd Hf.
  induction l as [|x t IH]; simpl; [discriminate|]. intros Hnd.
  inversion Hnd as [|? ? Hx Ht]; subst.
  destruct (m_messageId x =s? m) eqn:Ex.
  - intros [= ->].
    assert (K : message_key (supersede found) found = true)
      by (apply message_key_ident; reflexivity).
    rewrite K. simpl. rewrite Ex. intros [= <-]. reflexivity.
  - intros Hfind.
    destruct (message_key (supersede found) x) eqn:K.
    + exfalso. apply Hx. apply message_key_ident in K.
      change (message_ident (supersede found)) with (message_ident found)
        in K.
      rewrite <- K. apply in_map. apply find_some in Hfind. tauto.
    + simpl. rewrite Ex. apply IH; assumption.
Qed.

Lemma mark_first_fixed (m : string) (l : list Message) :
  NoDup (map message_ident l) -> already_marked m l -> mark_first l m = l.
Proof.
  intros Hnd H. unfold mark_first.
  destruct (find (fun c => m_messageId c =s? m) l) as [y|] eqn:Hf;
    [|reflexivity].
  rewrite (H y Hf). unfold upsert.
  assert (Hin : In y l) by (apply find_some in Hf; tauto).
  assert (E : existsb (message_key y) l = true).
  { apply existsb_exists. exists y. split; [exact Hin|].
    apply message_key_ident. reflexivity. }
  rewrite E. apply replace_doc_self; assumption.
Qed.

Lemma fold_mark_first_all_marked (ids : list string) (l : list Message) :
  NoDup (map message_ident l) ->
  forall m, In m ids -> already_marked m (fold_left mark_first ids l).
Proof.
  revert l. induction ids as [|a rest IH]; intros l Hnd m Hm; [destruct Hm|].
  simpl.
  assert (Hnd1 : NoDup (map message_ident (mark_first l a)))
    by (rewrite (@marked_from_idents _ _ (@mark_first_marked l a Hnd));
        exact Hnd).
  destruct Hm as [->|Hm].
  - apply (@already_marked_kept _ _ _ (@fold_mark_first_marked rest _ Hnd1)).
    apply mark_first_marks, Hnd.
  - apply IH; assumption.
Qed.

Lemma fold_mark_first_fixed (ids : list string) (l : list Message) :
  NoDup (map message_ident l) ->
  (forall m, In m ids -> already_marked m l) ->
  fold_left mark_first ids l = l.
Proof.
  intros Hnd. induction ids as [|a rest IH]; intros H; simpl; [reflexivity|].
  rewrite (@mark_first_fixed a l Hnd (H a (or_introl eq_refl))).
  apply IH. intros m Hm. apply H. now right.
Qed.

(** X20: marking is idempotent.  In runs without outage, over a message
    log where no two documents share id and partition key, a second
    [create_summary] over the same [supersedes] list, whatever its other
    arguments, leaves the messages container exactly as the first one left
    it. *)
Theorem create_summary_marking_idempotent :
  forall (hex1 now1 session1 tenant1 user1 text1 : string)
         (span1 : string * string) (embedding1 : option (list Q))
         (hex2 now2 session2 tenant2 user2 text2 : string)
         (span2 : string * string) (embedding2 : option (list Q))
         (supersedes : option (list string)) (w : Cosmos)
         (ys : list Summary) (l : list Message),
    summaries_container w = Some ys ->
    messages_container w = Some l ->
    outages w = [] ->
    NoDup (map message_ident l) ->
    let r1 := create_summary hex1 now1 session1 tenant1 user1 text1 span1
                             embedding1 supersedes w in
    let r2 := create_summary hex2 now2 session2 tenant2 user2 text2 span2
                             embedding2 supersedes (snd r1) in
    messages_container (snd r2) = messages_container (snd r1)
    /\ messages_container (snd r1)
       = Some (fold_left mark_first (or_empty supersedes) l).
Proof.
  intros hex1 now1 session1 tenant1 user1 text1 span1 embedding1
         hex2 now2 session2 tenant2 user2 text2 span2 embedding2
         supersedes w ys l Hys Hl Ho Hnd r1 r2.
  assert (Hquiet : forall hex now session tenant user text span embedding
                          (v : Cosmos) (zs : list Summary) (k : list Message),
             summaries_container v = Some zs ->
             messages_container v = Some k ->
             outages v = [] ->
             let r := create_summary hex now session tenant user text span
                                     embedding supersedes v in
             messages_container (snd r)
             = Some (fold_left mark_first (or_empty supersedes) k)
             /\ outages (snd r) = []
             /\ summaries_container (snd r) <> None).
  { intros hex now session tenant user text span embedding v zs k Hzs Hk Hv r.
    assert (Hms : messages_container v <> None) by congruence.
    assert (Hok : next_call_ok v) by (unfold next_call_ok; now rewrite Hv).
    destruct (@create_summary_run hex now session tenant user text span
                embedding supersedes v zs Hzs Hms Hok)
      as (Hrun & Hs0 & Hm0 & Ho0).
    subst r. rewrite Hrun. cbn [snd]. rewrite Hk in Hm0. rewrite Hv in Ho0.
    cbn [tl] in Ho0.
    rewrite (@mark_superseded_quiet (or_empty supersedes) _ _ Hm0 Ho0).
    cbn [snd]. unfold with_messages. cbn [messages_container outages
      summaries_container]. rewrite Ho0, Hs0.
    repeat split. discriminate. }
  destruct (Hquiet hex1 now1 session1 tenant1 user1 text1 span1 embedding1
                   w ys l Hys Hl Ho) as (H1 & H2 & H3).
  fold r1 in H1, H2, H3.
  destruct (summaries_container (snd r1)) as [zs|] eqn:Hzs; [|congruence].
  destruct (Hquiet hex2 now2 session2 tenant2 user2 text2 span2 embedding2
                   (snd r1) zs _ Hzs H1 H2) as (K1 & _ & _).
  fold r2 in K1. split; [|exact H1]. rewrite K1, H1. f_equal.
  set (L1 := fold_left mark_first (or_empty supersedes) l).
  assert (Hnd1 : NoDup (map message_ident L1)).
  { unfold L1.
    rewrite (@marked_from_idents _ _ (@fold_mark_first_marked _ _ Hnd)).
    exact Hnd. }
  apply (@fold_mark_first_fixed _ _ Hnd1).
  intros m Hm. apply fold_mark_first_all_marked; assumption.
Qed.

Lemma create_summary_marking_idempotent_witness :
  let r1 := create_summary hexA t1 "session_1" "tenantA" "alice" "first"
                           (t0, t1) None (Some ["msg_1"; "msg_2"])
                           store_three_messages in
  let r2 := create_summary hexB t2 "session_1" "tenantA" "alice" "again"
                           (t0, t1) None (Some ["msg_1"; "msg_2"])
                           (snd r1) in
  messages_container (snd r2) = messages_container (snd r1)
  /\ messages_container (snd r1)
     = Some (fold_left mark_first ["msg_1"; "msg_2"]
                       (stored_messages store_three_messages)).
Proof.
  apply (@create_summary_marking_idempotent
           hexA t1 "session_1" "tenantA" "alice" "first" (t0, t1) None
           hexB t2 "session_1" "tenantA" "alice" "again" (t0, t1) None
           (Some ["msg_1"; "msg_2"]) store_three_messages []
           (stored_messages store_three_messages) eq_refl eq_refl eq_refl).
  repeat constructor; simpl; intuition discriminate.
Defined.

(** ** Upserting a session document *)

Lemma session_key_refl (d : Session) : session_key d d = true.
Proof. unfold session_key. now rewrite !String.eqb_refl. Qed.

Lemma session_key_matches (d x : Session) :
  session_key d x = true ->
  session_matches (s_sessionId d) (s_tenantId d) (s_userId d) x = true.
Proof.
  unfold session_key, session_matches.
  rewrite !andb_true_iff, !String.eqb_eq.
  intros (((_ & H2) & H3) & H4). repeat split; congruence.
Qed.

Lemma replace_doc_twice (D : Type) (key : D -> D -> bool) (d : D)
    (l : list D) :
  key d d = true ->
  replace_doc key d (replace_doc key d l) = replace_doc key d l.
Proof.
  intros Hd. induction l as [|x t IH]; simpl; [reflexivity|].
  destruct (key d x) eqn:K; simpl.
  - now rewrite Hd.
  - now rewrite K, IH.
Qed.

Lemma existsb_replace_doc (D : Type) (key : D -> D -> bool) (d : D)
    (l : list D) :
  key d d = true -> existsb (key d) l = true ->
  existsb (key d) (replace_doc key d l) = true.
Proof.
  intros Hd. induction l as [|x t IH]; simpl; [discriminate|].
  destruct (key d x) eqn:K; simpl.
  - now rewrite Hd.
  - rewrite K. exact IH.
Qed.

Lemma upsert_twice (D : Type) (key : D -> D -> bool) (d : D) (l : list D) :
  key d d = true -> upsert key d (upsert key d l) = upsert key d l.
Proof.
  intros Hd. unfold upsert at 2 3.
  destruct (existsb (key d) l) eqn:E.
  - unfold upsert. rewrite (existsb_replace_doc key d l Hd E).
    apply replace_doc_twice, Hd.
  - unfold upsert. rewrite existsb_app. simpl. rewrite Hd, orb_true_r.
    clear -E Hd. induction l as [|x t IH]; simpl in *.
    + now rewrite Hd.
    + apply orb_false_elim in E. destruct E as [K E]. rewrite K.
      now rewrite IH.
Qed.

Lemma update_session_container_run (d : Session) (w : Cosmos)
    (l : list Session) :
  sessions_container w = Some l ->
  next_call_ok w ->
  fst (update_session_container d w) = Return tt
  /\ sessions_container (snd (update_session_container d w))
     = Some (upsert session_key d l)
  /\ outages (snd (update_session_container d w)) = tl (outages w)
  /\ log (snd (update_session_container d w)) = log w.
Proof.
  intros Hl Hok. split_world w. subst ss. run2. run.
  destruct o as [|[] t]; simpl; try contradiction; repeat split.
Qed.

(** X21: [update_session_container] is an upsert.  When the store answers,
    the container holds the document afterwards: in place of the stored
    document under its id and partition key, or appended.  Sending the same
    document again changes nothing, and a lookup by the document's session,
    tenant and user then finds a session; it finds the document itself
    unless an earlier document of that session is stored under another
    id. *)
Theorem update_session_container_upsert :
  forall (d : Session) (w : Cosmos) (l : list Session),
    sessions_container w = Some l ->
    two_calls_ok w ->
    let r := update_session_container d w in
    fst r = Return tt
    /\ stored_sessions (snd r) = upsert session_key d l
    /\ In d (stored_sessions (snd r))
    /\ stored_sessions (snd (update_session_container d (snd r)))
       = stored_sessions (snd r)
    /\ (exists s : Session,
          fst (get_session_by_id (s_sessionId d) (s_tenantId d) (s_userId d)
                                 (snd r)) = Return (Some s)
          /\ session_matches (s_sessionId d) (s_tenantId d) (s_userId d) s
             = true
          /\ ((forall x, In x l ->
                 session_matches (s_sessionId d) (s_tenantId d) (s_userId d)
                                 x = true ->
                 s_id x = s_id d) ->
              s = d)).
Proof.
  intros d w l Hl H2 r.
  assert (Hok : next_call_ok w).
  { unfold next_call_ok, two_calls_ok in *.
    destruct (outages w) as [|[] ?]; tauto. }
  assert (Hok1 : next_call_ok (snd r)).
  { destruct (update_session_container_run d w Hl Hok) as (_ & _ & Ho & _).
    fold r in Ho. unfold next_call_ok, two_calls_ok in *. rewrite Ho.
    destruct (outages w) as [|[] [|[] ?]]; simpl; tauto. }
  destruct (update_session_container_run d w Hl Hok) as (Hr & Hs & _ & _).
  fold r in Hr, Hs.
  assert (Hin : In d (upsert session_key d l)).
  { unfold upsert. destruct (existsb (session_key d) l) eqn:E.
    - clear -E. induction l as [|x t IH]; simpl in *; [discriminate|].
      destruct (session_key d x); simpl in *; [now left | right; auto].
    - apply in_or_app. right. now left. }
  split; [exact Hr|]. split; [unfold stored_sessions; now rewrite Hs|].
  split; [unfold stored_sessions; now rewrite Hs|].
  split.
  { destruct (update_session_container_run d (snd r) Hs Hok1)
      as (_ & Hs2 & _ & _).
    unfold stored_sessions. rewrite Hs2, Hs.
    apply upsert_twice, session_key_refl. }
  rewrite (get_session_by_id_find (s_sessionId d) (s_tenantId d)
             (s_userId d) (snd r) Hs Hok1).
  set (f := session_matches (s_sessionId d) (s_tenantId d) (s_userId d)).
  assert (Hd : f d = true)
    by (unfold f, session_matches; now rewrite !String.eqb_refl).
  destruct (find f (upsert session_key d l)) as [s|] eqn:Hf.
  2:{ exfalso. apply (find_none _ _ Hf) in Hin. congruence. }
  exists s. split; [reflexivity|]. split; [apply (find_some _ _ Hf)|].
  intros Hids.
  destruct (find f l) as [s0|] eqn:Hf0.
  - assert (K : session_key d s0 = true).
    { apply find_some in Hf0. destruct Hf0 as [Hin0 Hm0].
      specialize (Hids s0 Hin0 Hm0). unfold session_key. rewrite Hids.
      unfold f, session_matches in Hm0.
      rewrite !andb_true_iff, !String.eqb_eq in Hm0.
      destruct Hm0 as ((E1 & E2) & E3). rewrite E1, E2, E3.
      now rewrite !String.eqb_refl. }
    pose proof (@find_upsert_first _ session_key f d s0 l
                  (session_key_matches d) Hd K Hf0) as E.
    congruence.
  - assert (Hnone : forall x, In x l -> f x = false)
      by (intros x Hx; apply (find_none _ _ Hf0 x Hx)).
    assert (E : existsb (session_key d) l = false).
    { apply existsb_false. intros x Hx.
      destruct (session_key d x) eqn:K; [|reflexivity].
      apply session_key_matches in K. fold f in K.
      rewrite (Hnone x Hx) in K. discriminate. }
    unfold upsert in Hf. rewrite E in Hf.
    rewrite (find_app_last f l d Hnone Hd) in Hf. congruence.
Qed.

Lemma update_session_container_upsert_witness :
  let d := mkSession "session_1" "session_1" "tenantA" "alice" "Renamed"
                     (Value "hotel") t0 t1 "active" (Value 4) in
  let r := update_session_container d store_with_sessions in
  fst r = Return tt
  /\ stored_sessions (snd r)
     = upsert session_key d (stored_sessions store_with_sessions)
  /\ In d (stored_sessions (snd r))
  /\ stored_sessions (snd (update_session_container d (snd r)))
     = stored_sessions (snd r)
  /\ (exists s : Session,
        fst (get_session_by_id (s_sessionId d) (s_tenantId d) (s_userId d)
                               (snd r)) = Return (Some s)
        /\ session_matches (s_sessionId d) (s_tenantId d) (s_userId d) s
           = true
        /\ ((forall x, In x (stored_sessions store_with_sessions) ->
               session_matches (s_sessionId d) (s_tenantId d) (s_userId d)
                               x = true ->
               s_id x = s_id d) ->
            s = d)).
Proof.
  intros d.
  exact (@update_session_container_upsert d store_with_sessions
           (stored_sessions store_with_sessions) eq_refl I).
Defined.

(** ** Reads that are not guarded *)

(** X22: the three listings that run their query outside any handler,
    [get_session_messages], [get_session_summaries] and [query_memories],
    return the empty list without calling the store when their container
    was never initialised, and let the store's error through, leaving their
    container as it was, when the query fails. *)
Theorem unguarded_reads_fail_loudly :
  forall (session_id tenant_id user_id : string) (include_superseded : bool)
         (memory_types : option (list string)) (min_salience : Q)
         (w : Cosmos),
    let rm := get_session_messages session_id tenant_id user_id
                                   include_superseded w in
    let rs := get_session_summaries session_id tenant_id user_id w in
    let re := query_memories user_id tenant_id memory_types min_salience w in
    (messages_container w = None -> rm = (Return [], w))
    /\ (summaries_container w = None -> rs = (Return [], w))
    /\ (memories_container w = None -> re = (Return [], w))
    /\ (next_call_fails w ->
        (messages_container w <> None ->
         fst rm = Raise StoreError
         /\ messages_container (snd rm) = messages_container w
         /\ outages (snd rm) = tl (outages w))
        /\ (summaries_container w <> None ->
            fst rs = Raise StoreError
            /\ summaries_container (snd rs) = summaries_container w
            /\ outages (snd rs) = tl (outages w))
        /\ (memories_container w <> None ->
            fst re = Raise StoreError
            /\ memories_container (snd re) = memories_container w
            /\ outages (snd re) = tl (outages w))).
Proof.
  intros session_id tenant_id user_id include_superseded memory_types
         min_salience w rm rs re.
  subst rm rs re. unfold next_call_fails.
  destruct w as [ss ms ys es ps o lg]; simpl.
  split; [|split; [|split]].
  - intros ->. reflexivity.
  - intros ->. reflexivity.
  - intros ->. reflexivity.
  - destruct o as [|[] t]; try contradiction. intros _.
    split; [|split].
    + destruct ms as [l|]; [intros _ | congruence].
      unfold get_session_messages. run. repeat split.
    + destruct ys as [l|]; [intros _ | congruence].
      run2. run. repeat split.
    + destruct es as [l|]; [intros _ | congruence].
      unfold query_memories. run. repeat split.
Qed.

Lemma unguarded_reads_fail_loudly_witness :
  let w := with_outages [true] store_three_messages in
  fst (get_session_messages "session_1" "tenantA" "alice" false w)
  = Raise StoreError
  /\ fst (get_session_summaries "session_1" "tenantA" "alice" w)
     = Raise StoreError
  /\ fst (query_memories "alice" "tenantA" None 0 w) = Raise StoreError.
Proof.
  intros w.
  destruct (unguarded_reads_fail_loudly "session_1" "tenantA" "alice" false
              None 0 w) as (_ & _ & _ & H).
  destruct (H I) as (Hm & Hs & He).
  split; [|split].
  - apply Hm. discriminate.
  - apply Hs. discriminate.
  - apply He. discriminate.
Defined.
